(** * Apache Jira scraper: the resumable fetch-transform-persist pipeline

    A shallow embedding of the retrying request executor
    ([src/src/jira_client.py]), the record transformer
    ([src/src/data_transformer.py]), the checkpoint store
    ([src/src/state_manager.py]), the orchestrator
    ([src/src/scraper.py]) and the command-line entry point
    ([src/main.py]), followed by the properties of the specification that
    are settled on them and by further properties of the code. *)

From Stdlib Require Import QArith Ascii String DecimalString.
From stdpp Require Import gmap strings list.

Local Open Scope string_scope.
Local Open Scope list_scope.
Local Open Scope Z_scope.

Set Warnings "-register-all".

(** ** Python exceptions

    Fallible Python code is embedded in a small error monad: a computation
    either returns a value or raises. *)

Inductive exn : Type :=
  | AttributeError
  | TypeError
  | ValueError
  | KeyError
  | OverflowError.

Inductive py (A : Type) : Type :=
  | Ret (a : A)
  | Raise (e : exn).

Arguments Ret {A} a.
Arguments Raise {A} e.

Definition bind {A B : Type} (m : py A) (k : A -> py B) : py B :=
  match m with
  | Ret a => k a
  | Raise e => Raise e
  end.

Notation "'let*' x ':=' m 'in' k" := (bind m (fun x => k))
  (at level 10, x name, m at level 100, k at level 200).

(** A loop that builds one value per element and stops at the first
    exception. *)
Fixpoint mapM {A B : Type} (f : A -> py B) (l : list A) : py (list B) :=
  match l with
  | [] => Ret []
  | x :: l' => let* y := f x in let* ys := mapM f l' in Ret (y :: ys)
  end.

(** ** JSON values, as [json.load] and [response.json()] build them

    A JSON object becomes a Python [dict]: its keys are strings and it keeps
    insertion order, which [dict.items()] exposes, so an object is an
    association list (a binding is found at its first occurrence). A float
    is kept abstract: only its [str] rendering and whether it is zero are
    observed by this program. *)

Record pyfloat : Type := PyFloat { float_repr : string; float_is_zero : bool }.

Inductive json : Type :=
  | JNull
  | JBool (b : bool)
  | JInt (z : Z)
  | JFloat (f : pyfloat)
  | JStr (s : string)
  | JArr (l : list json)
  | JObj (m : list (string * json)).

(** ** Python strings

    A Python [str] is a sequence of code points; the embedding keeps the
    code points below 256, one [ascii] each. *)

Module Str.

(** [str.isspace], which is also what [str.strip] removes and what the
    regular expression class [\s] matches. *)
Definition is_space (a : ascii) : bool :=
  let n := N_of_ascii a in
  ((9 <=? n) && (n <=? 13) || (28 <=? n) && (n <=? 32) || (n =? 133) || (n =? 160))%N.

Fixpoint lstrip (s : string) : string :=
  match s with
  | String a s' => if is_space a then lstrip s' else s
  | EmptyString => EmptyString
  end.

Fixpoint rstrip (s : string) : string :=
  match s with
  | String a s' =>
      match rstrip s' with
      | EmptyString => if is_space a then EmptyString else String a EmptyString
      | r => String a r
      end
  | EmptyString => EmptyString
  end.

(** [s.strip()] *)
Definition strip (s : string) : string := rstrip (lstrip s).

(** [sep.join(parts)] *)
Definition join (sep : string) (parts : list string) : string :=
  String.concat sep parts.

(** [s[:n]] *)
Definition take (n : nat) (s : string) : string := String.substring 0 n s.

(** [s.replace('Z', '+00:00')] *)
Fixpoint replace_Z (s : string) : string :=
  match s with
  | String a s' =>
      if Ascii.eqb a "Z" then "+00:00" +:+ replace_Z s' else String a (replace_Z s')
  | EmptyString => EmptyString
  end.

(** [c in s], for a one-character [c] *)
Fixpoint contains_char (c : ascii) (s : string) : bool :=
  match s with
  | String a s' => Ascii.eqb a c || contains_char c s'
  | EmptyString => false
  end.

(** [sub in s] *)
Fixpoint contains (sub s : string) : bool :=
  String.prefix sub s ||
  match s with
  | String _ s' => contains sub s'
  | EmptyString => false
  end.

(** The index of the first [>] of [s]. *)
Fixpoint first_gt (s : string) : option nat :=
  match s with
  | String a s' => if Ascii.eqb a ">" then Some 0%nat else S <$> first_gt s'
  | EmptyString => None
  end.

(** [re.sub(r'<[^>]+>', '', s)], with [skip] characters of a match still
    to drop. A match starts at a [<] that is followed by at least one
    character other than [>] and then a [>]; it ends at the first [>]. *)
Fixpoint remove_tags_from (skip : nat) (s : string) : string :=
  match s with
  | String a s' =>
      match skip with
      | S k => remove_tags_from k s'
      | O =>
          if Ascii.eqb a "<" then
            match first_gt s' with
            | Some (S n) => remove_tags_from (S (S n)) s'
            | _ => String a (remove_tags_from 0 s')
            end
          else String a (remove_tags_from 0 s')
      end
  | EmptyString => EmptyString
  end.

Definition remove_tags (s : string) : string := remove_tags_from 0 s.

(** [re.sub(r'\s+', ' ', s)]; [in_run] tells that the previous character
    was white space, already replaced. *)
Fixpoint collapse_spaces_from (in_run : bool) (s : string) : string :=
  match s with
  | String a s' =>
      if is_space a then
        if in_run then collapse_spaces_from true s'
        else String " " (collapse_spaces_from true s')
      else String a (collapse_spaces_from false s')
  | EmptyString => EmptyString
  end.

Definition collapse_spaces (s : string) : string := collapse_spaces_from false s.

(** The one-character strings a [for] loop over [s] yields. *)
Fixpoint chars (s : string) : list string :=
  match s with
  | String a s' => String a EmptyString :: chars s'
  | EmptyString => []
  end.

Definition hex_digit (n : N) : string :=
  String.substring (N.to_nat n) 1 "0123456789abcdef".

(** One character of [repr(s)], inside quotes [quote]. *)
Definition repr_char (quote a : ascii) : string :=
  let n := N_of_ascii a in
  if Ascii.eqb a quote || Ascii.eqb a "\" then String "\" (String a EmptyString)
  else if (n =? 9)%N then "\t"
  else if (n =? 10)%N then "\n"
  else if (n =? 13)%N then "\r"
  else if ((n <? 32) || (n =? 127) || (128 <=? n) && (n <=? 160) || (n =? 173))%N
  then "\x" +:+ hex_digit (n / 16) +:+ hex_digit (n mod 16)
  else String a EmptyString.

Fixpoint repr_chars (quote : ascii) (s : string) : string :=
  match s with
  | String a s' => repr_char quote a +:+ repr_chars quote s'
  | EmptyString => EmptyString
  end.

(** [repr(s)]: single quotes, unless [s] has a single quote and no double
    quote. *)
Definition repr (s : string) : string :=
  let quote : ascii :=
    if contains_char "'" s && negb (contains_char "034" s) then "034"%char else "'"%char in
  String quote (repr_chars quote s) +:+ String quote EmptyString.

Definition of_Z (z : Z) : string := NilZero.string_of_int (Z.to_int z).

Definition newline : string := String "010" EmptyString.


End Str.

(** ** Python operations on JSON values *)

Module Py.

(** [bool(v)] *)
Definition truthy (v : json) : bool :=
  match v with
  | JNull => false
  | JBool b => b
  | JInt z => negb (z =? 0)
  | JFloat f => negb (float_is_zero f)
  | JStr s => negb (String.eqb s "")
  | JArr l => match l with [] => false | _ => true end
  | JObj m => match m with [] => false | _ => true end
  end.

(** [d.get(k)] on a [dict] *)
Fixpoint lookup (d : list (string * json)) (k : string) : option json :=
  match d with
  | (k', v) :: d' => if String.eqb k' k then Some v else lookup d' k
  | [] => None
  end.

(** [d.get(k, dflt)] on a [dict] *)
Definition get (d : list (string * json)) (k : string) (dflt : json) : json :=
  default dflt (lookup d k).

(** [v.get(k, dflt)] on any value: only a [dict] has the method. *)
Definition get_attr (v : json) (k : string) (dflt : json) : py json :=
  match v with
  | JObj d => Ret (get d k dflt)
  | _ => Raise AttributeError
  end.

(** The values a [for] loop over [v] yields. *)
Definition iter (v : json) : py (list json) :=
  match v with
  | JArr l => Ret l
  | JObj d => Ret (map (fun kv => JStr (fst kv)) d)
  | JStr s => Ret (map JStr (Str.chars s))
  | _ => Raise TypeError
  end.

(** [k in v] for a string [k] *)
Definition contains (v : json) (k : string) : py bool :=
  match v with
  | JObj d => Ret (bool_decide (is_Some (lookup d k)))
  | JStr s => Ret (Str.contains k s)
  | JArr l =>
      Ret (existsb (fun x => match x with JStr s => String.eqb s k | _ => false end) l)
  | _ => Raise TypeError
  end.

(** [v[k]] for a string [k] *)
Definition subscript (v : json) (k : string) : py json :=
  match v with
  | JObj d => match lookup d k with Some x => Ret x | None => Raise KeyError end
  | _ => Raise TypeError
  end.

Fixpoint repr (v : json) : string :=
  match v with
  | JNull => "None"
  | JBool true => "True"
  | JBool false => "False"
  | JInt z => Str.of_Z z
  | JFloat f => float_repr f
  | JStr s => Str.repr s
  | JArr l => "[" +:+ Str.join ", " (map repr l) +:+ "]"
  | JObj d =>
      "{" +:+ Str.join ", " (map (fun kv => Str.repr (fst kv) +:+ ": " +:+ repr (snd kv)) d)
          +:+ "}"
  end.

(** [str(v)] *)
Definition str (v : json) : string :=
  match v with
  | JStr s => s
  | _ => repr v
  end.

End Py.

(** ** The resilient request executor ([JiraClient._make_request]) *)

Module JiraClient.

(** The attributes [__init__] sets. The two delays are floats; a duration
    is an exact rational here, so the rounding of floats, infinities and
    NaN are left out. *)
Record t : Type := Build {
  max_retries : Z;
  retry_delay : Q;
  timeout : Z;
  rate_limit_delay : Q
}.

(** The defaults of [JiraClient.__init__]. *)
Definition default_client : t :=
  {| max_retries := 5; retry_delay := 1; timeout := 30; rate_limit_delay := 1 |}.

(** The [Retry-After] header of a response, seen through [float(...)]:
    absent, present with a text that gives no duration, or a number of
    seconds. A text gives no duration when [float] rejects it, and also
    when [float] reads it as an infinity or a NaN, which [time.sleep]
    rejects: either way the exception is caught in the [try] block before
    any sleep. *)
Inductive retry_after : Type :=
  | NoRetryAfter
  | BadRetryAfter
  | RetryAfter (seconds : Q).

(** The body of a response, seen through [response.json()], which raises
    [ValueError] on a body that is not JSON. *)
Inductive body : Type :=
  | Unparsable
  | Parsed (data : json).

(** What one call of [session.request] does. *)
Inductive outcome : Type :=
  | Response (status_code : Z) (header : retry_after) (content : body)
  | Timeout
  | ConnectionError
  | OtherError.

(** [time.sleep] first turns the duration into a number of nanoseconds,
    which has to fit a signed 64-bit integer: the test is the one of
    [pytime.c], on the exact product. *)
Definition sleep_fits (d : Q) : bool :=
  Qle_bool (inject_Z (- 2 ^ 63)) (d * inject_Z (10 ^ 9)) &&
  negb (Qle_bool (inject_Z (2 ^ 63)) (d * inject_Z (10 ^ 9))).

(** A duration [time.sleep] accepts. *)
Definition sleepable (d : Q) : bool := sleep_fits d && Qle_bool 0 d.

(** [time.sleep d]: raises [OverflowError] on a duration that does not
    fit, then [ValueError] on a negative one, and else records the
    sleep. *)
Definition sleep (d : Q) : list Q * py unit :=
  if negb (sleep_fits d) then ([], Raise OverflowError)
  else if Qle_bool 0 d then ([d], Ret tt)
  else ([], Raise ValueError).

(** [float(response.headers.get('Retry-After', self.rate_limit_delay))] *)
Definition read_retry_after (c : t) (h : retry_after) : py Q :=
  match h with
  | NoRetryAfter => Ret (rate_limit_delay c)
  | BadRetryAfter => Raise ValueError
  | RetryAfter q => Ret q
  end.

(** The base delay times [2 ^ attempt]; durations are exact rationals. *)
Definition backoff (c : t) (attempt : nat) : Q :=
  (retry_delay c * inject_Z (2 ^ Z.of_nat attempt))%Q.

(** [self.retry_delay * (2 ** attempt)]: [retry_delay] is a float, and the
    product raises [OverflowError] when the integer [2 ** attempt] is too
    large to be converted to a float, that is from [2 ** 1024] on. *)
Definition wait_time (c : t) (attempt : nat) : py Q :=
  if (1024 <=? attempt)%nat then Raise OverflowError else Ret (backoff c attempt).

(** How one iteration of the [for attempt in range(...)] loop ends. *)
Inductive control : Type :=
  | Continue
  | Return (r : option json)
  | Propagate (e : exn).

(** A sleep inside the [try] block: an exception it raises is caught by
    [except Exception], which returns [None]. *)
Definition sleep_in_try (d : Q) : list Q * control :=
  match sleep d with
  | (log, Ret _) => (log, Continue)
  | (log, Raise _) => (log, Return None)
  end.

(** A sleep inside an [except] handler: an exception it raises leaves
    [_make_request]. *)
Definition sleep_in_handler (d : Q) : list Q * control :=
  match sleep d with
  | (log, Ret _) => (log, Continue)
  | (log, Raise e) => (log, Propagate e)
  end.

(** The body of the loop, at attempt index [attempt], when the request is
    answered by [o]. *)
Definition iteration (c : t) (attempt : nat) (o : outcome) : list Q * control :=
  match o with
  | Response status_code header content =>
      if status_code =? 429 then
        match read_retry_after c header with
        | Ret retry_after => sleep_in_try retry_after
        | Raise _ => ([], Return None)
        end
      else if 500 <=? status_code then
        match wait_time c attempt with
        | Ret wait_time =>
            if Z.of_nat attempt <? max_retries c - 1
            then sleep_in_try wait_time
            else ([], Return None)
        | Raise _ => ([], Return None)
        end
      else if (400 <=? status_code) && (status_code <? 500) then
        ([], Return None)
      else if status_code =? 200 then
        match content with
        | Parsed JNull => ([], Return None)
        | Parsed data => ([], Return (Some data))
        | Unparsable => ([], Return None)
        end
      else ([], Return None)
  | Timeout | ConnectionError =>
      match wait_time c attempt with
      | Ret wait_time =>
          if Z.of_nat attempt <? max_retries c - 1
          then sleep_in_handler wait_time
          else ([], Return None)
      | Raise e => ([], Propagate e)
      end
  | OtherError => ([], Return None)
  end.

(** What a call of [_make_request] does: the value it returns or the
    exception it raises, the sleeps it made, in order, and the number of
    requests it sent. *)
Record run : Type := Run {
  result : py (option json);
  sleeps : list Q;
  requests : nat
}.

(** The loop over the attempt indices still to come; [server n] is the
    outcome of the request sent at attempt index [n]. *)
Fixpoint attempts (c : t) (server : nat -> outcome) (todo : list nat) : run :=
  match todo with
  | [] => Run (Ret None) [] 0
  | attempt :: todo' =>
      match iteration c attempt (server attempt) with
      | (log, Continue) =>
          let r := attempts c server todo' in
          Run (result r) (log ++ sleeps r) (S (requests r))
      | (log, Return v) => Run (Ret v) log 1
      | (log, Propagate e) => Run (Raise e) log 1
      end
  end.

(** [range(self.max_retries)] *)
Definition attempt_range (c : t) : list nat := seq 0 (Z.to_nat (max_retries c)).

(** [_make_request], against a server whose answer to the request of
    attempt index [n] is [server n]. *)
Definition _make_request (c : t) (server : nat -> outcome) : run :=
  attempts c server (attempt_range c).

(** The outcomes the executor received, in order. *)
Definition received (c : t) (server : nat -> outcome) : list outcome :=
  map server (seq 0 (requests (_make_request c server))).

(** The backoff of an attempt succeeds: the product is computed and
    [time.sleep] accepts it. *)
Definition backoff_ok (c : t) (attempt : nat) : bool :=
  (attempt <? 1024)%nat && sleepable (backoff c attempt).

(** The exception of a backoff that fails. *)
Definition backoff_error (c : t) (attempt : nat) : exn :=
  if (1024 <=? attempt)%nat then OverflowError
  else if sleep_fits (backoff c attempt) then ValueError
  else OverflowError.


(** The kinds of outcome the specification names. *)
Definition is_rate_limited (o : outcome) : bool :=
  match o with
  | Response status_code _ _ => status_code =? 429
  | _ => false
  end.

Definition is_server_error (o : outcome) : bool :=
  match o with
  | Response status_code _ _ => 500 <=? status_code
  | _ => false
  end.

Definition is_transient_failure (o : outcome) : bool :=
  match o with
  | Response status_code _ _ => 500 <=? status_code
  | Timeout | ConnectionError => true
  | OtherError => false
  end.

(** The server of the backoff scenario: three answers 503, then a 200
    with [payload]. *)
Definition backoff_server (payload : json) (n : nat) : outcome :=
  if (n <? 3)%nat then Response 503 NoRetryAfter Unparsable
  else Response 200 NoRetryAfter (Parsed payload).


(** The time spent in the sleeps of a call. *)
Definition total_sleep (l : list Q) : Q := foldr Qplus 0%Q l.

End JiraClient.

(** ** The record transformer ([DataTransformer]) *)

Module DataTransformer.

(** One entry of the [comments] list of a record. *)
Record comment : Type := Comment {
  author : string;
  body : string;
  created : json;
  updated : json
}.

Record summarization : Type := Summarization {
  sum_instruction : string;
  sum_input : string;
  sum_output : string
}.

Record classification : Type := Classification {
  cls_instruction : string;
  cls_input : string;
  cls_output : string
}.

Record qa_generation : Type := QaGeneration {
  question : string;
  context : string;
  answer : string
}.

Record derived_tasks_t : Type := DerivedTasks {
  summarization_task : summarization;
  classification_task : classification;
  qa_generation_task : qa_generation
}.

Record metadata_t : Type := Metadata {
  raw_issue_key : json;
  scraped_at : string;
  source : string
}.

(** The dictionary [transform_issue] returns; [created_at] and [updated_at]
    are its entries ['created'] and ['updated']. *)
Record record : Type := Record_ {
  issue_key : json;
  project : string;
  title : string;
  description : string;
  status : string;
  issue_type : string;
  priority : string;
  reporter : string;
  assignee : string;
  created_at : json;
  updated_at : json;
  resolved : json;
  labels : list json;
  components : list json;
  comments : list comment;
  comment_count : nat;
  metadata : metadata_t;
  derived_tasks : option derived_tasks_t
}.

(** The values of [d] that are strings, in the order of [d.items()]. *)
Definition string_values (d : list (string * json)) : list string :=
  omap (M := list) (fun kv => match snd kv with JStr s => Some s | _ => None end) d.

Definition extract_text_content (field : json) : py string :=
  match field with
  | JNull => Ret ""
  | JStr s => Ret (Str.strip s)
  | JObj d =>
      match Py.lookup d "rendered" with
      | Some (JStr text) =>
          Ret (Str.strip (Str.collapse_spaces (Str.remove_tags text)))
      | Some _ => Raise TypeError
      | None =>
      match Py.lookup d "name" with
      | Some v => Ret (Py.str v)
      | None =>
      match Py.lookup d "displayName" with
      | Some v => Ret (Py.str v)
      | None =>
      match Py.lookup d "value" with
      | Some v => Ret (Py.str v)
      | None =>
          Ret (Str.strip (Str.join " " (string_values d)))
      end end end end
  | _ => Ret (Str.strip (Py.str field))
  end.

Section Clock.

(** [datetime.fromisoformat(s).strftime('%Y-%m-%d %H:%M:%S UTC')], or
    [None] when [fromisoformat] rejects [s]: which texts it accepts
    depends on the Python version, and no property below depends on it. *)
Variable reformat : string -> option string.

(** [datetime.utcnow().isoformat()] at the time of the call. *)
Variable utcnow : string.

Definition format_timestamp (timestamp : json) : json :=
  if negb (Py.truthy timestamp) then JNull
  else match timestamp with
       | JStr s =>
           match reformat (Str.replace_Z s) with
           | Some t => JStr t
           | None => timestamp
           end
       | _ => timestamp
       end.

Definition extract_labels (issue : list (string * json)) : py (list json) :=
  let* labels := Py.get_attr (Py.get issue "fields" (JObj [])) "labels" (JArr []) in
  Ret (match labels with JArr l => l | _ => [] end).

Definition extract_components (issue : list (string * json)) : py (list json) :=
  let* components := Py.get_attr (Py.get issue "fields" (JObj [])) "components" (JArr []) in
  let* comps := Py.iter components in
  Ret (omap (M := list) (fun comp => match comp with
                          | JObj d => Some (Py.get d "name" (JStr ""))
                          | _ => None
                          end) comps).

(** The dictionary built from one raw comment. *)
Definition build_comment (c : json) : py comment :=
  let* a := Py.get_attr c "author" JNull in
  let* author := extract_text_content a in
  let* b := Py.get_attr c "body" JNull in
  let* body := extract_text_content b in
  let* cr := Py.get_attr c "created" JNull in
  let* up := Py.get_attr c "updated" JNull in
  Ret (Comment author body (format_timestamp cr) (format_timestamp up)).

(** [any(c.get('body') == extract_text_content(comment.get('body'))
         for c in comments)] *)
Fixpoint existing (c : json) (comments : list comment) : py bool :=
  match comments with
  | [] => Ret false
  | x :: comments' =>
      let* b := Py.get_attr c "body" JNull in
      let* text := extract_text_content b in
      if String.eqb (body x) text then Ret true else existing c comments'
  end.

(** The loop over the comments embedded in the issue. *)
Fixpoint add_embedded (embedded : list json) (comments : list comment)
    : py (list comment) :=
  match embedded with
  | [] => Ret comments
  | c :: embedded' =>
      let* dup := existing c comments in
      if dup then add_embedded embedded' comments
      else let* x := build_comment c in add_embedded embedded' (comments ++ [x])
  end.

Definition extract_comments (issue : list (string * json)) (comments_data : json)
    : py (list comment) :=
  let* comments :=
    (if Py.truthy comments_data then
       let* comment_list := Py.get_attr comments_data "comments" (JArr []) in
       let* l := Py.iter comment_list in
       mapM build_comment l
     else Ret []) in
  let* comment_field := Py.get_attr (Py.get issue "fields" (JObj [])) "comment" (JObj []) in
  let* has := (if Py.truthy comment_field then Py.contains comment_field "comments"
         else Ret false) in
  if has then
    let* embedded := Py.subscript comment_field "comments" in
    let* l := Py.iter embedded in
    add_embedded l comments
  else Ret comments.

(** One line of the comment listing of [full_text]. *)
Definition comment_line (c : comment) : string :=
  "- " +:+ author c +:+ ": " +:+ body c +:+ Str.newline.

(** [issue_data] is the dictionary [transform_issue] has built so far,
    which has no entry ['key']: [issue_data.get('key', '')] is [''].
    Its other entries read here are present. *)
Definition create_derived_tasks (issue_data : record) : derived_tasks_t :=
  let issue_key := "" in
  let title := title issue_data in
  let description := description issue_data in
  let status := status issue_data in
  let issue_type := issue_type issue_data in
  let full_text :=
    title +:+ Str.newline +:+ Str.newline +:+ description +:+
    match comments issue_data with
    | [] => ""
    | cs => Str.newline +:+ Str.newline +:+ "Comments:" +:+ Str.newline +:+
            String.concat "" (map comment_line cs)
    end in
  {| summarization_task :=
       {| sum_instruction := "Summarize the following Jira issue:";
          sum_input := full_text;
          sum_output := "Issue " +:+ issue_key +:+ ": " +:+ title +:+ " (Status: " +:+
                        status +:+ ", Type: " +:+ issue_type +:+ ")" |};
     classification_task :=
       {| cls_instruction := "Classify the following Jira issue by type and status:";
          cls_input := title +:+ Str.newline +:+ Str.newline +:+ Str.take 500 description;
          cls_output := "Type: " +:+ issue_type +:+ ", Status: " +:+ status |};
     qa_generation_task :=
       {| question := "What is the issue " +:+ issue_key +:+ " about?";
          context := if (1000 <? String.length full_text)%nat
                     then Str.take 1000 full_text else full_text;
          answer := if String.eqb description "" then title
                    else title +:+ " - " +:+ Str.take 200 description |} |}.

(** [issue_data['derived_tasks'] = tasks] *)
Definition set_derived_tasks (issue_data : record) (tasks : derived_tasks_t) : record :=
  {| issue_key := issue_key issue_data;
     project := project issue_data;
     title := title issue_data;
     description := description issue_data;
     status := status issue_data;
     issue_type := issue_type issue_data;
     priority := priority issue_data;
     reporter := reporter issue_data;
     assignee := assignee issue_data;
     created_at := created_at issue_data;
     updated_at := updated_at issue_data;
     resolved := resolved issue_data;
     labels := labels issue_data;
     components := components issue_data;
     comments := comments issue_data;
     comment_count := comment_count issue_data;
     metadata := metadata issue_data;
     derived_tasks := Some tasks |}.

(** The body of the [try] block of [transform_issue]. *)
Definition transform_fields (issue : list (string * json)) (comments_data : json)
    : py (option record) :=
  let fields := Py.get issue "fields" (JObj []) in
  if negb (Py.truthy fields) then Ret None
  else
    let issue_key := Py.get issue "key" (JStr "") in
    let* summary := Py.get_attr fields "summary" (JStr "") in
    let* title := extract_text_content summary in
    let* d := Py.get_attr fields "description" JNull in
    let* d' := (if Py.truthy d then Ret d
                else let* rendered := Py.get_attr fields "renderedFields" (JObj []) in
                     Py.get_attr rendered "description" (JStr "")) in
    let* description := extract_text_content d' in
    let* st := Py.get_attr fields "status" (JObj []) in
    let* status := extract_text_content st in
    let* ty := Py.get_attr fields "issuetype" (JObj []) in
    let* issue_type := extract_text_content ty in
    let* pr := Py.get_attr fields "priority" (JObj []) in
    let* priority := extract_text_content pr in
    let* pj := Py.get_attr fields "project" (JObj []) in
    let* project := extract_text_content pj in
    let* rp := Py.get_attr fields "reporter" (JObj []) in
    let* reporter := extract_text_content rp in
    let* asg := Py.get_attr fields "assignee" (JObj []) in
    let* assignee := extract_text_content asg in
    let* cr := Py.get_attr fields "created" JNull in
    let* up := Py.get_attr fields "updated" JNull in
    let* rs := Py.get_attr fields "resolutiondate" JNull in
    let* labels := extract_labels issue in
    let* components := extract_components issue in
    let* comments := extract_comments issue comments_data in
    let transformed :=
      {| issue_key := issue_key;
         project := project;
         title := title;
         description := description;
         status := status;
         issue_type := issue_type;
         priority := priority;
         reporter := reporter;
         assignee := assignee;
         created_at := format_timestamp cr;
         updated_at := format_timestamp up;
         resolved := format_timestamp rs;
         labels := labels;
         components := components;
         comments := comments;
         comment_count := length comments;
         metadata := {| raw_issue_key := issue_key;
                        scraped_at := utcnow;
                        source := "apache-jira" |};
         derived_tasks := None |} in
    Ret (Some (set_derived_tasks transformed (create_derived_tasks transformed))).

(** [transform_issue]: [None] where the code returns [None], among which
    every exception of the [try] block. *)
Definition transform_issue (issue : list (string * json)) (comments_data : json)
    : option record :=
  match transform_fields issue comments_data with
  | Ret r => r
  | Raise _ => None
  end.

End Clock.

(** *** Shapes the extraction steps accept *)

(** A value [extract_text_content] does not raise on: anything but a
    mapping whose [rendered] entry is not a string. *)
Definition extractable (v : json) : bool :=
  match v with
  | JObj d =>
      match Py.lookup d "rendered" with
      | Some (JStr _) | None => true
      | Some _ => false
      end
  | _ => true
  end.


(** A raw comment: a mapping whose author and body are extractable. *)
Definition comment_ok (c : json) : bool :=
  match c with
  | JObj d => extractable (Py.get d "author" JNull) && extractable (Py.get d "body" JNull)
  | _ => false
  end.

(** A value a [for] loop can go through: a list, a mapping, which yields
    its keys, or a string, which yields its characters. *)
Definition iterable (v : json) : bool :=
  match v with
  | JArr _ | JObj _ | JStr _ => true
  | _ => false
  end.

(** What the loop goes through; nothing when [v] is not iterable. *)
Definition elements (v : json) : list json :=
  match Py.iter v with
  | Ret l => l
  | Raise _ => []
  end.

(** The text of the body of a raw comment whose body is extractable. *)
Definition body_text (c : json) : string :=
  match c with
  | JObj d =>
      match extract_text_content (Py.get d "body" JNull) with
      | Ret text => text
      | Raise _ => ""
      end
  | _ => ""
  end.

(** A dedicated comments payload the first loop of [extract_comments]
    accepts: one that is falsy, or a mapping whose [comments] entry, an
    empty list when absent, is iterable and yields only raw comments. *)
Definition payload_accepted (comments_data : json) : bool :=
  negb (Py.truthy comments_data) ||
  match comments_data with
  | JObj d =>
      iterable (Py.get d "comments" (JArr [])) &&
      forallb comment_ok (elements (Py.get d "comments" (JArr [])))
  | _ => false
  end.

(** The bodies of the comments built from an accepted payload. *)
Definition payload_bodies (comments_data : json) : list string :=
  if Py.truthy comments_data then
    match comments_data with
    | JObj d => map body_text (elements (Py.get d "comments" (JArr [])))
    | _ => []
    end
  else [].

(** The embedded comments the second loop accepts, given the bodies of the
    comments merged so far: each is a mapping whose body is extractable,
    and one whose body text is not among those bodies also has an
    extractable author; its body text then joins them. *)
Fixpoint embedded_accepted (embedded : list json) (bodies : list string) : bool :=
  match embedded with
  | [] => true
  | c :: embedded' =>
      match c with
      | JObj d =>
          extractable (Py.get d "body" JNull) &&
          if existsb (fun b => String.eqb b (body_text c)) bodies
          then embedded_accepted embedded' bodies
          else extractable (Py.get d "author" JNull) &&
               embedded_accepted embedded' (bodies ++ [body_text c])
      | _ => false
      end
  end.

(** The [comment] entry of the fields: accepted when it is falsy; when it
    is a string or a list that does not contain ["comments"]; and when it
    is a mapping that has no [comments] entry, or one that is iterable and
    yields accepted embedded comments. *)
Definition comment_field_accepted (comment_field : json) (bodies : list string) : bool :=
  negb (Py.truthy comment_field) ||
  match comment_field with
  | JObj d =>
      match Py.lookup d "comments" with
      | Some embedded => iterable embedded && embedded_accepted (elements embedded) bodies
      | None => true
      end
  | JStr s => negb (Str.contains "comments" s)
  | JArr l =>
      negb (existsb (fun x => match x with JStr s => String.eqb s "comments" | _ => false end) l)
  | _ => false
  end.

(** The description: the [description] entry when it is truthy, and else
    the [description] entry, an empty string when absent, of the
    [renderedFields] entry, an empty mapping when absent, which has to be
    a mapping. *)
Definition description_ok (fields : list (string * json)) : bool :=
  let d := Py.get fields "description" JNull in
  if Py.truthy d then extractable d
  else match Py.get fields "renderedFields" (JObj []) with
       | JObj rendered => extractable (Py.get rendered "description" (JStr ""))
       | _ => false
       end.

(** The [components] entry, an empty list when absent. *)
Definition components_ok (fields : list (string * json)) : bool :=
  iterable (Py.get fields "components" (JArr [])).

Definition fields_accepted (fields : list (string * json)) (bodies : list string) : bool :=
  extractable (Py.get fields "summary" (JStr "")) &&
  description_ok fields &&
  forallb (fun k => extractable (Py.get fields k (JObj [])))
          ["status"; "issuetype"; "priority"; "project"; "reporter"; "assignee"] &&
  components_ok fields &&
  comment_field_accepted (Py.get fields "comment" (JObj [])) bodies.

(** A raw issue and a comments payload every step of [transform_issue]
    accepts: the [fields] entry is a mapping that is not empty, the
    payload is accepted, and so are the fields, given the bodies of the
    comments of the payload. *)
Definition transformable (issue : list (string * json)) (comments_data : json) : bool :=
  match Py.lookup issue "fields" with
  | Some (JObj fields) =>
      Py.truthy (JObj fields) && payload_accepted comments_data &&
      fields_accepted fields (payload_bodies comments_data)
  | _ => false
  end.

(** *** Sample payloads *)

(** An issue with two embedded comments, one of which repeats the body of
    a comment of [sample_payload]. *)
Definition sample_issue : list (string * json) :=
  [("key", JStr "SPARK-1");
   ("fields", JObj
      [("summary", JStr " Crash on start ");
       ("status", JObj [("name", JStr "Open")]);
       ("comment", JObj
          [("comments", JArr
              [JObj [("body", JStr "+1"); ("author", JObj [("displayName", JStr "Eve")])];
               JObj [("body", JStr "Fixed in 2.0")]])])])].

(** A dedicated comments payload with one comment. *)
Definition sample_payload : json :=
  JObj [("comments", JArr
           [JObj [("body", JStr "+1"); ("author", JObj [("displayName", JStr "Ann")])]])].


(** An issue whose fields mapping is not empty and has a null
    [components] entry. *)
Definition null_components_issue : list (string * json) :=
  [("key", JStr "SPARK-2");
   ("fields", JObj [("summary", JStr "Crash"); ("components", JNull)])].

(** An issue whose [renderedFields] entry is a number. *)
Definition rendered_number_issue : list (string * json) :=
  [("key", JStr "SPARK-5");
   ("fields", JObj [("summary", JStr "x"); ("renderedFields", JInt 5)])].

(** An issue whose [comment] entry is a text. *)
Definition text_comment_issue : list (string * json) :=
  [("key", JStr "SPARK-6");
   ("fields", JObj [("summary", JStr "Crash"); ("comment", JStr "x")])].

(** An issue whose fields mapping is empty. *)
Definition empty_fields_issue : list (string * json) :=
  [("key", JStr "SPARK-3"); ("fields", JObj [])].

(** A mapping that [extract_text_content] resolves by its [name],
    [displayName] or [value] entry. *)
Definition resolved_by_entry (v : json) : bool :=
  match v with
  | JObj d =>
      match Py.lookup d "rendered" with
      | Some _ => false
      | None =>
          bool_decide (is_Some (Py.lookup d "name")) ||
          bool_decide (is_Some (Py.lookup d "displayName")) ||
          bool_decide (is_Some (Py.lookup d "value"))
      end
  | _ => false
  end.

(** *** The output file *)

Section Output.

(** [json.dumps(item, ensure_ascii=False)] *)
Variable dumps : record -> string.

(** [write_jsonl]: the content of the output file after the call, from
    its content before; the file is opened for appending, and an item
    that is [None] is skipped. *)
Fixpoint write_jsonl (data : list (option record)) (content : string) : string :=
  match data with
  | [] => content
  | item :: data' =>
      write_jsonl data'
        (match item with
         | Some r => content +:+ (dumps r +:+ Str.newline)
         | None => content
         end)
  end.

End Output.

End DataTransformer.

(** ** The checkpoint store ([StateManager])

    [self.state] is a dictionary with the entries ['projects'],
    ['processed_issues'] and ['last_updated'], each of which may be missing.
    The list of processed keys of a project is a mutable object, appended to
    in place, and [get_processed_issues] builds a new [set] object from it:
    lists and sets live in a heap and are named by their location. *)

Module StateManager.

Definition loc : Type := positive.

Inductive object : Type :=
  | PyList (items : list string)
  | PySet (items : gset string).

Record progress : Type := Progress {
  start_at : Z;
  last_issue_key : option string
}.

Record t : Type := State {
  projects : option (gmap string progress);
  processed_issues : option (gmap string loc);
  last_updated : option string
}.

(** [_default_state] *)
Definition _default_state : t :=
  {| projects := Some ∅; processed_issues := Some ∅; last_updated := None |}.

(** A new object, at a location no object has. *)
Definition alloc (h : gmap loc object) (o : object) : loc * gmap loc object :=
  let l := fresh (dom h) in (l, <[l := o]> h).

(** The list object at [l]. *)
Definition read_list (h : gmap loc object) (l : loc) : py (list string) :=
  match h !! l with
  | Some (PyList items) => Ret items
  | _ => Raise TypeError
  end.

(** [self.state.get('processed_issues', {}).get(project, [])] *)
Definition processed_list (h : gmap loc object) (st : t) (project : string)
    : py (list string) :=
  match default ∅ (processed_issues st) !! project with
  | Some l => read_list h l
  | None => Ret []
  end.

(** [get_processed_issues]: the location of the set it returns, and the
    heap with that set in it. *)
Definition get_processed_issues (h : gmap loc object) (st : t) (project : string)
    : py (loc * gmap loc object) :=
  let* items := processed_list h st project in
  Ret (alloc h (PySet (list_to_set items))).

(** [mark_issue_processed] *)
Definition mark_issue_processed (h : gmap loc object) (st : t)
    (project issue_key : string) : py (t * gmap loc object) :=
  let processed := default ∅ (processed_issues st) in
  let '(l, processed, h) :=
    match processed !! project with
    | Some l => (l, processed, h)
    | None => let '(l, h') := alloc h (PyList []) in (l, <[project := l]> processed, h')
    end in
  let st' := {| projects := projects st;
                processed_issues := Some processed;
                last_updated := last_updated st |} in
  let* items := read_list h l in
  if bool_decide (issue_key ∈ items) then Ret (st', h)
  else Ret (st', <[l := PyList (items ++ [issue_key])]> h).

(** [get_project_progress]; [None] is the empty dictionary. *)
Definition get_project_progress (st : t) (project : string) : option progress :=
  default ∅ (projects st) !! project.

(** [update_project_progress] *)
Definition update_project_progress (st : t) (project : string) (start_at : Z)
    (last_issue_key : option string) : t :=
  {| projects := Some (<[project := Progress start_at last_issue_key]>
                         (default ∅ (projects st)));
     processed_issues := processed_issues st;
     last_updated := last_updated st |}.

(** [del d[k]], which raises [KeyError] when [d] has no key [k]. *)
Definition del {V : Type} (d : gmap string V) (k : string) : py (gmap string V) :=
  match d !! k with
  | Some _ => Ret (delete k d)
  | None => Raise KeyError
  end.

(** [if name in self.state and project in self.state[name]:
       del self.state[name][project]] *)
Definition reset_entry {V : Type} (entry : option (gmap string V)) (project : string)
    : py (option (gmap string V)) :=
  match entry with
  | Some d =>
      if bool_decide (is_Some (d !! project))
      then let* d' := del d project in Ret (Some d')
      else Ret (Some d)
  | None => Ret None
  end.

(** [reset_project] *)
Definition reset_project (st : t) (project : string) : py t :=
  let* projects' := reset_entry (projects st) project in
  let* processed' := reset_entry (processed_issues st) project in
  Ret {| projects := projects';
         processed_issues := processed';
         last_updated := last_updated st |}.

(** [get_total_processed] *)
Definition get_total_processed (h : gmap loc object) (st : t) : py nat :=
  let* sizes := mapM (fun l => let* items := read_list h l in Ret (length items))
                     (map snd (map_to_list (default ∅ (processed_issues st)))) in
  Ret (foldr Nat.add 0%nat sizes).

(** What a caller may do to a set it holds: [s.add(x)], [s.discard(x)],
    [s.clear()]. *)
Inductive mutation : Type :=
  | Add (x : string)
  | Discard (x : string)
  | Clear.

Definition mutate_set (m : mutation) (s : gset string) : gset string :=
  match m with
  | Add x => s ∪ {[x]}
  | Discard x => s ∖ {[x]}
  | Clear => ∅
  end.

(** The mutation [m] applied to the set object at [l]. *)
Definition mutate (h : gmap loc object) (l : loc) (m : mutation)
    : py (gmap loc object) :=
  match h !! l with
  | Some (PySet s) => Ret (<[l := PySet (mutate_set m s)]> h)
  | _ => Raise AttributeError
  end.

(** A sequence of mutations of the set object at [l]. *)
Fixpoint mutate_all (h : gmap loc object) (l : loc) (ms : list mutation)
    : py (gmap loc object) :=
  match ms with
  | [] => Ret h
  | m :: ms' => let* h' := mutate h l m in mutate_all h' l ms'
  end.

(** The set object at [l]. *)
Definition read_set (h : gmap loc object) (l : loc) : py (gset string) :=
  match h !! l with
  | Some (PySet s) => Ret s
  | _ => Raise TypeError
  end.

(** Every list the store refers to is a list object of the heap. *)
Definition well_formed (h : gmap loc object) (st : t) : Prop :=
  forall project l, default ∅ (processed_issues st) !! project = Some l ->
                    exists items, h !! l = Some (PyList items).

(** A store that tracks one project, whose list is the object at
    location 1. *)
Definition one_project_heap : gmap loc object := {[1%positive := PyList ["SPARK-1"]]}.

Definition one_project_state : t :=
  {| projects := Some {["SPARK" := Progress 50 (Some "SPARK-1")]};
     processed_issues := Some {["SPARK" := 1%positive]};
     last_updated := None |}.

(** No two projects share a list object. *)
Definition separated (st : t) : Prop :=
  forall p q l,
    default ∅ (processed_issues st) !! p = Some l ->
    default ∅ (processed_issues st) !! q = Some l -> p = q.

(** [save_state]: the state after the call, which is also the state the
    call dumps to the state file; [now] is
    [datetime.utcnow().isoformat()]. *)
Definition save_state (now : string) (st : t) : t :=
  {| projects := projects st;
     processed_issues := processed_issues st;
     last_updated := Some now |}.

End StateManager.

(** ** The orchestrator ([JiraScraper])

    A run of the scraper reads and writes four things that outlive a call:
    the state of its [StateManager] and the heap of its lists, the state
    file and the output file. It also talks to the outside: it sends
    requests through its client, sleeps and reads the clock. The embedding
    threads a [world] through the code: the four stores, the number of
    calls of the client and of calls that may read the clock made so far,
    which index the answers of the environment, and the log of the sleeps
    and calls.

    The progress bar and the logging only display, and are left out, but
    for the construction of the bar, which may reject its arguments.
    The file system is taken to work: opening and writing a file
    succeeds. The exceptions are those the steps of the code raise: an
    interrupt from outside is not part of the embedding. *)

Module JiraScraper.

(** The attributes [__init__] sets from its arguments. The client is
    [JiraClient()], with its defaults. *)
Record t : Type := Build {
  projects : list string;
  output_file : string;
  max_results_per_page : Z;
  batch_size : Z;
  delay_between_requests : Q
}.

(** The calls made on the client. *)
Inductive request : Type :=
  | GetProjectInfo (project_key : string)
  | SearchIssues (project : string) (start_at max_results : Z)
  | GetIssueComments (issue_key : string).

(** What the outside sees: a [time.sleep] of the scraper, or a call of the
    client with the run of [_make_request] it led to. *)
Inductive event : Type :=
  | Sleep (seconds : Q)
  | Call (r : request) (run : JiraClient.run).

(** The state of the [StateManager] with its heap, the state the state
    file holds, which is the state a new process would load, with the
    heap of its lists, and the content of the output file. *)
Record storage : Type := Storage {
  state : StateManager.t;
  heap : gmap StateManager.loc StateManager.object;
  state_file : StateManager.t * gmap StateManager.loc StateManager.object;
  output : string
}.


Record world : Type := World {
  store : storage;
  calls : nat;
  ticks : nat;
  log : list event
}.

(** What the code does not decide: the clock, the serializer, the server,
    the progress bar and the comparison of an integer with a float.
    [server k n] is the outcome of the request of attempt index [n] of the
    [k]-th call of the client, whatever that call asks for: a property
    that holds for every server holds for the servers whose answers depend
    on the requests. [utcnow n] is what the clock shows to the [n]-th call
    that may read it, and [tqdm total initial] is what building the
    progress bar does. *)
Record environment : Type := Environment {
  reformat : string -> option string;
  utcnow : nat -> string;
  dumps : DataTransformer.record -> string;
  server : nat -> nat -> JiraClient.outcome;
  tqdm : json -> nat -> py unit;
  int_lt_float : Z -> pyfloat -> bool
}.

(** How a piece of code ends when it does not return: it raises, or it
    meets an issue key that is a number, a boolean or null, which the
    lists of strings of the store cannot hold, or the [while] loop is
    given too few iterations. *)
Inductive failure : Type :=
  | Raised (e : exn)
  | Unsupported
  | OutOfFuel.

Inductive ending (A : Type) : Type :=
  | Returned (a : A)
  | Failed (f : failure).

Arguments Returned {A} a.
Arguments Failed {A} f.

Definition M (A : Type) : Type := world -> ending A * world.

Definition ret {A : Type} (a : A) : M A := fun w => (Returned a, w).

Definition fail {A : Type} (f : failure) : M A := fun w => (Failed f, w).

Definition and_then {A B : Type} (m : M A) (k : A -> M B) : M B :=
  fun w =>
    match m w with
    | (Returned a, w') => k a w'
    | (Failed f, w') => (Failed f, w')
    end.

Notation "'let!' x ':=' m 'in' k" := (and_then m (fun x => k))
  (at level 10, x name, m at level 100, k at level 200).

Notation "'let!' ' p ':=' m 'in' k" := (and_then m (fun x => match x with p => k end))
  (at level 10, p strict pattern, m at level 100, k at level 200).

(** A step that may raise and touches nothing. *)
Definition lift {A : Type} (m : py A) : M A :=
  match m with
  | Ret a => ret a
  | Raise e => fail (Raised e)
  end.

Definition set_store (f : storage -> storage) (w : world) : world :=
  {| store := f (store w); calls := calls w; ticks := ticks w; log := log w |}.

Definition record_events (l : list event) (w : world) : world :=
  {| store := store w; calls := calls w; ticks := ticks w; log := log w ++ l |}.

(** One more call that may read the clock has been made. *)
Definition tick (w : world) : world :=
  {| store := store w; calls := calls w; ticks := S (ticks w); log := log w |}.

(** [time.sleep(d)] *)
Definition sleep (d : Q) : M unit :=
  fun w =>
    match JiraClient.sleep d with
    | (l, Ret _) => (Returned tt, record_events (map Sleep l) w)
    | (l, Raise e) => (Failed (Raised e), record_events (map Sleep l) w)
    end.

Section Run.

Variable E : environment.

(** [self] *)
Variable s : t.

(** The run of [_make_request] for the [k]-th call of the client, and the
    value it returns, where [None] is [JNull]. *)
Definition run_of (k : nat) : JiraClient.run :=
  JiraClient._make_request JiraClient.default_client (server E k).

Definition answer (k : nat) : py json :=
  let* v := JiraClient.result (run_of k) in Ret (default JNull v).

(** A call of the client. *)
Definition send (r : request) : M json :=
  fun w =>
    let w' := {| store := store w; calls := S (calls w); ticks := ticks w;
                 log := log w ++ [Call r (run_of (calls w))] |} in
    match answer (calls w) with
    | Ret v => (Returned v, w')
    | Raise e => (Failed (Raised e), w')
    end.

(** [self.state_manager.get_processed_issues(project)]: the set is built
    in the heap; the scraper never changes it, and it is read once. *)
Definition get_processed_issues (project : string) : M (gset string) :=
  fun w =>
    match StateManager.get_processed_issues (heap (store w)) (state (store w)) project with
    | Ret (r, h) =>
        let w' := set_store (fun x => {| state := state x; heap := h;
                                         state_file := state_file x;
                                         output := output x |}) w in
        lift (StateManager.read_set h r) w'
    | Raise e => (Failed (Raised e), w)
    end.

(** [self.state_manager.get_project_progress(project).get('start_at', 0)] *)
Definition get_start_at (project : string) : M Z :=
  fun w =>
    (Returned match StateManager.get_project_progress (state (store w)) project with
              | Some progress => StateManager.start_at progress
              | None => 0
              end, w).

(** [self.state_manager.mark_issue_processed(project, issue_key)] *)
Definition mark_issue_processed (project issue_key : string) : M unit :=
  fun w =>
    match StateManager.mark_issue_processed (heap (store w)) (state (store w))
            project issue_key with
    | Ret (st, h) =>
        (Returned tt,
         set_store (fun x => {| state := st; heap := h; state_file := state_file x;
                                output := output x |}) w)
    | Raise e => (Failed (Raised e), w)
    end.

(** [self.state_manager.update_project_progress(project, start_at,
    last_issue_key)] *)
Definition update_project_progress (project : string) (start_at : Z)
    (last_issue_key : option string) : M unit :=
  fun w =>
    (Returned tt,
     set_store (fun x => {| state := StateManager.update_project_progress
                                       (state x) project start_at last_issue_key;
                            heap := heap x; state_file := state_file x;
                            output := output x |}) w).

(** [self.state_manager.save_state()]; an exception of the dump is caught
    there. *)
Definition save_state : M unit :=
  fun w =>
    let st := StateManager.save_state (utcnow E (ticks w)) (state (store w)) in
    (Returned tt,
     tick (set_store (fun x => {| state := st; heap := heap x;
                                  state_file := (st, heap x);
                                  output := output x |}) w)).

(** [self.transformer.write_jsonl(batch, str(self.output_file))] *)
Definition write_jsonl (batch : list DataTransformer.record) : M unit :=
  fun w =>
    (Returned tt,
     set_store (fun x => {| state := state x; heap := heap x; state_file := state_file x;
                            output := DataTransformer.write_jsonl (dumps E)
                                        (map Some batch) (output x) |}) w).

(** [self.transformer.transform_issue(issue_data, comments_data)] *)
Definition transform_issue (issue : list (string * json)) (comments_data : json)
    : M (option DataTransformer.record) :=
  fun w =>
    (Returned (DataTransformer.transform_issue (reformat E) (utcnow E (ticks w))
                 issue comments_data),
     tick w).

(** [n < v], for an integer [n] *)
Definition less_than (n : Z) (v : json) : py bool :=
  match v with
  | JInt z => Ret (n <? z)
  | JBool b => Ret (n <? (if b then 1 else 0))
  | JFloat f => Ret (int_lt_float E n f)
  | _ => Raise TypeError
  end.

(** The body of [if len(batch) >= self.batch_size:], and the value of
    [batch] after it. *)
Definition save_batch (project : string) (current_start : Z) (issue_key : string)
    (batch : list DataTransformer.record) : M (list DataTransformer.record) :=
  if batch_size s <=? Z.of_nat (length batch) then
    let! _ := write_jsonl batch in
    let! _ := update_project_progress project current_start (Some issue_key) in
    let! _ := save_state in
    ret []
  else ret batch.

(** The loop [for issue in issues:], from the values of [batch] and
    [total_scraped] before it to their values after it. *)
Fixpoint process_issues (project : string) (processed_issues : gset string)
    (current_start : Z) (issues : list json) (batch : list DataTransformer.record)
    (total_scraped : nat) : M (list DataTransformer.record * nat) :=
  match issues with
  | [] => ret (batch, total_scraped)
  | issue :: issues' =>
      match issue with
      | JObj issue_data =>
          match Py.get issue_data "key" (JStr "") with
          | JStr issue_key =>
              if bool_decide (issue_key ∈ processed_issues) then
                process_issues project processed_issues current_start issues'
                  batch total_scraped
              else
                let! _ := (if negb (Qle_bool (delay_between_requests s) 0)
                           then sleep (delay_between_requests s * (1 # 2))
                           else ret tt) in
                let! comments_data := send (GetIssueComments issue_key) in
                let! transformed := transform_issue issue_data comments_data in
                let! ' (batch, total_scraped) :=
                  match transformed with
                  | Some r =>
                      let! _ := mark_issue_processed project issue_key in
                      ret (batch ++ [r], S total_scraped)
                  | None => ret (batch, total_scraped)
                  end in
                let! batch := save_batch project current_start issue_key batch in
                process_issues project processed_issues current_start issues'
                  batch total_scraped
          | JArr _ | JObj _ => fail (Raised TypeError)
          | JNull | JBool _ | JInt _ | JFloat _ => fail Unsupported
          end
      | _ => fail (Raised AttributeError)
      end
  end.

(** One iteration of the loop [while current_start < total_issues:], from
    the test of its condition on; [continue] is what the loop does from
    the next test on, given the values of [current_start],
    [consecutive_failures], [batch] and [total_scraped] then. What is
    returned are the values of [batch] and [total_scraped] after the
    loop. *)
Definition page
    (continue : Z -> nat -> list DataTransformer.record -> nat ->
                M (list DataTransformer.record * nat))
    (project : string) (processed_issues : gset string) (total_issues : json)
    (current_start : Z) (consecutive_failures : nat)
    (batch : list DataTransformer.record) (total_scraped : nat)
    : M (list DataTransformer.record * nat) :=
  let! more := lift (less_than current_start total_issues) in
  if negb more then ret (batch, total_scraped)
  else
    let! _ := sleep (delay_between_requests s) in
    let! search_results :=
      send (SearchIssues project current_start (max_results_per_page s)) in
    if negb (Py.truthy search_results) then
      let consecutive_failures := S consecutive_failures in
      if (5 <=? consecutive_failures)%nat then ret (batch, total_scraped)
      else
        let! _ := sleep (inject_Z (2 ^ Z.of_nat consecutive_failures)) in
        continue current_start consecutive_failures batch total_scraped
    else
      let! issues := lift (Py.get_attr search_results "issues" (JArr [])) in
      if negb (Py.truthy issues) then ret (batch, total_scraped)
      else
        let! l := lift (Py.iter issues) in
        let! ' (batch, total_scraped) :=
          process_issues project processed_issues current_start l
            batch total_scraped in
        let current_start := current_start + Z.of_nat (length l) in
        let! _ := update_project_progress project current_start None in
        if Z.of_nat (length l) <? max_results_per_page s
        then ret (batch, total_scraped)
        else continue current_start 0%nat batch total_scraped.

(** The loop, given [fuel] iterations at most. *)
Fixpoint paginate (fuel : nat) (project : string) (processed_issues : gset string)
    (total_issues : json) (current_start : Z) (consecutive_failures : nat)
    (batch : list DataTransformer.record) (total_scraped : nat)
    : M (list DataTransformer.record * nat) :=
  match fuel with
  | O => fail OutOfFuel
  | S fuel' =>
      page (paginate fuel' project processed_issues total_issues)
        project processed_issues total_issues
        current_start consecutive_failures batch total_scraped
  end.

(** [scrape_project] *)
Definition scrape_project (fuel : nat) (project : string) : M nat :=
  let! project_info := send (GetProjectInfo project) in
  if negb (Py.truthy project_info) then ret 0%nat
  else
    let! project_name := lift (Py.get_attr project_info "name" (JStr project)) in
    let! processed_issues := get_processed_issues project in
    let! start_at := get_start_at project in
    let! search_results := send (SearchIssues project 0 1) in
    if negb (Py.truthy search_results) then ret 0%nat
    else
      let! total_issues := lift (Py.get_attr search_results "total" (JInt 0)) in
      let! _ := lift (tqdm E total_issues (size processed_issues)) in
      let! ' (batch, total_scraped) :=
        paginate fuel project processed_issues total_issues start_at 0 [] 0 in
      let! _ := (match batch with
                 | [] => ret tt
                 | _ => let! _ := write_jsonl batch in save_state
                 end) in
      ret total_scraped.

(** One entry of [stats['projects']]; [error] stands for the entry
    ['error'], the text of the exception. *)
Record project_stats : Type := ProjectStats {
  issues_scraped : nat;
  success : bool;
  error : option exn
}.

Record stats : Type := Stats {
  stats_projects : list (string * project_stats);
  total_issues : nat;
  stats_output_file : string
}.

(** [d[k] = v] on a dictionary: a key that is there keeps its place. *)
Fixpoint set_item {V : Type} (d : list (string * V)) (k : string) (v : V)
    : list (string * V) :=
  match d with
  | [] => [(k, v)]
  | (k', v') :: d' =>
      if String.eqb k' k then (k, v) :: d' else (k', v') :: set_item d' k v
  end.

(** The loop [for project in self.projects:] of [scrape_all]; [last] is
    [self.projects[-1]]. *)
Fixpoint scrape_projects (fuel : nat) (last : string) (todo : list string) (st : stats)
    : M stats :=
  match todo with
  | [] => ret st
  | project :: todo' =>
      let! st :=
        (fun w =>
           match scrape_project fuel project w with
           | (Returned count, w') =>
               (Returned {| stats_projects :=
                              set_item (stats_projects st) project
                                (ProjectStats count true None);
                            total_issues := (total_issues st + count)%nat;
                            stats_output_file := stats_output_file st |}, w')
           | (Failed (Raised e), w') =>
               (Returned {| stats_projects :=
                              set_item (stats_projects st) project
                                (ProjectStats 0 false (Some e));
                            total_issues := total_issues st;
                            stats_output_file := stats_output_file st |}, w')
           | (Failed f, w') => (Failed f, w')
           end) in
      let! _ := (if negb (String.eqb project last)
                 then sleep (delay_between_requests s * 2)
                 else ret tt) in
      scrape_projects fuel last todo' st
  end.

(** [scrape_all] *)
Definition scrape_all (fuel : nat) : M stats :=
  scrape_projects fuel (List.last (projects s) "") (projects s)
    {| stats_projects := []; total_issues := 0; stats_output_file := output_file s |}.

(** [reset_project] *)
Definition reset_project (project : string) : M unit :=
  fun w =>
    match StateManager.reset_project (state (store w)) project with
    | Ret st =>
        (Returned tt,
         set_store (fun x => {| state := st; heap := heap x; state_file := state_file x;
                                output := output x |}) w)
    | Raise e => (Failed (Raised e), w)
    end.

End Run.

(** *** What the properties of the scraper are stated with *)

(** What holds after [m] is run in [w]: [Q] of the value and the world
    when it returns, [X] of the failure and the world when it does not. *)
Definition post {A : Type} (m : M A) (w : world) (Q : A -> world -> Prop)
    (X : failure -> world -> Prop) : Prop :=
  match m w with
  | (Returned a, w') => Q a w'
  | (Failed f, w') => X f w'
  end.

(** [m] never fails for want of iterations. *)
Definition finishes {A : Type} (m : M A) : Prop :=
  forall w, post m w (fun _ _ => True) (fun f _ => f <> OutOfFuel).

(** In [w], [m1] and [m2] end the same way, which is not for want of
    iterations. *)
Definition agree {A : Type} (m1 m2 : M A) (w : world) : Prop :=
  m1 w = m2 w /\ fst (m1 w) <> Failed OutOfFuel.

(** From [w] to [w'] the log has only grown, and no comments were
    requested for a key of [old]. *)
Definition fetches_none_of (old : list string) (w w' : world) : Prop :=
  exists l,
    log w' = log w ++ l /\
    forall k run, Call (GetIssueComments k) run ∈ l -> k ∉ old.

(** The keys of [project] in the state file. *)
Definition saved_keys (project : string) (x : storage) : list string :=
  match StateManager.processed_list (state_file x).2 (state_file x).1 project with
  | Ret l => l
  | Raise _ => []
  end.

(** From [w] to [w'] the output file has got the lines of [records], each
    of which has a key that is not in [old] and that the state file marks
    as processed; and the state file is as it was or holds a well-formed
    state. *)
Definition checkpointed (E : environment) (project : string) (old : list string)
    (records : list DataTransformer.record) (w w' : world) : Prop :=
  output (store w') =
    DataTransformer.write_jsonl (dumps E) (map Some records) (output (store w)) /\
  (forall r, r ∈ records ->
     exists k, DataTransformer.issue_key r = JStr k /\ (k ∉ old) /\
               k ∈ saved_keys project (store w')) /\
  (state_file (store w') = state_file (store w) \/
   StateManager.well_formed (state_file (store w')).2 (state_file (store w')).1).

(** The state in memory is well formed, and the list of [project] is
    [old] followed by keys of [records], all of which it has. *)
Definition tracked (project : string) (old : list string)
    (records : list DataTransformer.record) (x : storage) : Prop :=
  StateManager.well_formed (heap x) (state x) /\
  exists new,
    StateManager.processed_list (heap x) (state x) project = Ret new /\
    old `prefix_of` new /\
    (forall r, r ∈ records ->
       exists k, DataTransformer.issue_key r = JStr k /\ (k ∉ old) /\ k ∈ new) /\
    (forall k, k ∈ new ->
       k ∈ old \/ exists r, r ∈ records /\ DataTransformer.issue_key r = JStr k).


(** What holds of the world [w] that [scrape_project] has reached from
    the world [w0], in which the list of [project] was [old]: [written]
    are the records written to the output file so far, [batch] and
    [total_scraped] the values of the variables. *)
Definition progressed (E : environment) (project : string) (old : list string)
    (w0 : world) (written batch : list DataTransformer.record) (total_scraped : nat)
    (w : world) : Prop :=
  fetches_none_of old w0 w /\
  checkpointed E project old written w0 w /\
  total_scraped = (length written + length batch)%nat /\
  tracked project old (written ++ batch) (store w).

(** *** A sample run

    The project has three issues, one of which is marked as processed; the
    server answers the two searches and has no comments. *)

Definition sample_issue (key : string) : json :=
  JObj [("key", JStr key); ("fields", JObj [("summary", JStr "Crash")])].

Definition sample_server (k : nat) (n : nat) : JiraClient.outcome :=
  match k with
  | 0%nat => JiraClient.Response 200 JiraClient.NoRetryAfter
               (JiraClient.Parsed (JObj [("name", JStr "Spark")]))
  | 1%nat => JiraClient.Response 200 JiraClient.NoRetryAfter
               (JiraClient.Parsed (JObj [("total", JInt 3)]))
  | 2%nat => JiraClient.Response 200 JiraClient.NoRetryAfter
               (JiraClient.Parsed
                  (JObj [("issues", JArr [sample_issue "S-1"; sample_issue "S-2";
                                          sample_issue "S-3"])]))
  | _ => JiraClient.Response 404 JiraClient.NoRetryAfter JiraClient.Unparsable
  end.

Definition sample_environment : environment :=
  {| reformat := fun _ => None;
     utcnow := fun _ => "2024-01-01T00:00:00";
     dumps := fun r => Py.str (DataTransformer.issue_key r);
     server := sample_server;
     tqdm := fun _ _ => Ret tt;
     int_lt_float := fun _ _ => false |}.

Definition sample_scraper : t :=
  {| projects := ["SPARK"];
     output_file := "jira_dataset.jsonl";
     max_results_per_page := 50;
     batch_size := 2;
     delay_between_requests := 1 |}.

Definition sample_world : world :=
  {| store := {| state := {| StateManager.projects :=
                               Some {["SPARK" := StateManager.Progress 0 None]};
                             StateManager.processed_issues := Some {["SPARK" := 1%positive]};
                             StateManager.last_updated := None |};
                 heap := {[1%positive := StateManager.PyList ["S-2"]]};
                 state_file :=
                   ({| StateManager.projects :=
                         Some {["SPARK" := StateManager.Progress 0 None]};
                       StateManager.processed_issues := Some {["SPARK" := 1%positive]};
                       StateManager.last_updated := None |},
                    {[1%positive := StateManager.PyList ["S-2"]]});
                 output := "" |};
     calls := 0;
     ticks := 0;
     log := [] |}.


(** A server that never answers. *)
Definition silent_environment : environment :=
  {| reformat := fun _ => None;
     utcnow := fun _ => "2024-01-01T00:00:00";
     dumps := fun r => Py.str (DataTransformer.issue_key r);
     server := fun _ _ => JiraClient.Timeout;
     tqdm := fun _ _ => Ret tt;
     int_lt_float := fun _ _ => false |}.

End JiraScraper.

(** ** The command line ([main]) *)

Module Main.

(** The parsed arguments. *)
Record args : Type := Args {
  projects : list string;
  output : string;
  state_dir : string;
  max_results : Z;
  batch_size : Z;
  delay : Q;
  reset : bool;
  reset_project : option string
}.

(** The calls [main] makes on the scraper, and its printing of the
    summary. *)
Inductive action : Type :=
  | ResetProject (project : string)
  | ScrapeAll
  | PrintSummary.

(** The body of the [with] block: [--reset] resets every listed project
    and goes on; a non-empty [--reset-project] resets that project and
    returns; otherwise the scrape runs and its summary is printed. *)
Definition main (a : args) : list action :=
  (if reset a then map ResetProject (projects a) else []) ++
  match reset_project a with
  | Some project =>
      if negb (String.eqb project "") then [ResetProject project]
      else [ScrapeAll; PrintSummary]
  | None => [ScrapeAll; PrintSummary]
  end.

(** [JiraScraper.reset_project] forwards to the store: the store after the
    calls of [trace], which are all calls of [reset_project]. *)
Fixpoint apply_resets (trace : list action) (st : StateManager.t) : py StateManager.t :=
  match trace with
  | ResetProject project :: trace' =>
      let* st' := StateManager.reset_project st project in apply_resets trace' st'
  | _ => Ret st
  end.

(** The store has no entry for [project]. *)
Definition absent (st : StateManager.t) (project : string) : Prop :=
  StateManager.get_project_progress st project = None /\
  default ∅ (StateManager.processed_issues st) !! project = None.

(** [--projects SPARK HADOOP --reset], the other options at their
    defaults. *)
Definition full_reset_args : args :=
  {| projects := ["SPARK"; "HADOOP"];
     output := "jira_dataset.jsonl";
     state_dir := "state";
     max_results := 50;
     batch_size := 10;
     delay := 1;
     reset := true;
     reset_project := None |}.

(** *** What the calls do

    [main] builds the scraper from its arguments, which loads the state
    from the state file: the run starts in a world whose state in memory
    is the state loaded. *)

Definition scraper (a : args) : JiraScraper.t :=
  {| JiraScraper.projects := projects a;
     JiraScraper.output_file := output a;
     JiraScraper.max_results_per_page := max_results a;
     JiraScraper.batch_size := batch_size a;
     JiraScraper.delay_between_requests := delay a |}.

Definition perform (E : JiraScraper.environment) (a : args) (fuel : nat) (x : action)
    : JiraScraper.M unit :=
  match x with
  | ResetProject project => JiraScraper.reset_project project
  | ScrapeAll =>
      JiraScraper.and_then (JiraScraper.scrape_all E (scraper a) fuel)
        (fun _ => JiraScraper.ret tt)
  | PrintSummary => JiraScraper.ret tt
  end.

Fixpoint perform_all (E : JiraScraper.environment) (a : args) (fuel : nat)
    (trace : list action) : JiraScraper.M unit :=
  match trace with
  | [] => JiraScraper.ret tt
  | x :: trace' =>
      JiraScraper.and_then (perform E a fuel x) (fun _ => perform_all E a fuel trace')
  end.

(** The body of the [with] block of [main], run in a world. *)
Definition run (E : JiraScraper.environment) (a : args) (fuel : nat)
    : JiraScraper.M unit :=
  perform_all E a fuel (main a).

(** [--reset-project SPARK], the other options at their defaults. *)
Definition single_reset_args : args :=
  {| projects := ["SPARK"; "HADOOP"; "FLINK"];
     output := "jira_dataset.jsonl";
     state_dir := "state";
     max_results := 50;
     batch_size := 10;
     delay := 1;
     reset := false;
     reset_project := Some "SPARK" |}.

End Main.

(** * Properties *)

(** ** Python strings *)

Module StrProperties.

Import Str.

Lemma lstrip_head (s : string) (a : ascii) (t : string) :
  lstrip s = String a t -> is_space a = false.
Proof.
  induction s as [|b s IH]; simpl; [discriminate|].
  destruct (is_space b) eqn:Hb; [done|]. by intros [= <- _].
Qed.

Lemma rstrip_rstrip (s : string) : rstrip (rstrip s) = rstrip s.
Proof.
  induction s as [|a s IH]; [done|]. simpl.
  destruct (rstrip s) as [|b r] eqn:Hr.
  - destruct (is_space a) eqn:Ha; [done|]. simpl. by rewrite Ha.
  - simpl in *. by rewrite IH.
Qed.

Lemma rstrip_head (s : string) (a : ascii) (t : string) :
  is_space a = false -> exists t', rstrip (String a t) = String a t'.
Proof.
  intros Ha. simpl. destruct (rstrip t); [rewrite Ha|]; eauto.
Qed.

(** A stripped text is trimmed: stripping it again, on either side,
    changes nothing. *)
Lemma strip_trimmed (s : string) :
  lstrip (strip s) = strip s /\ rstrip (strip s) = strip s.
Proof.
  unfold strip. split; [|apply rstrip_rstrip].
  destruct (lstrip s) as [|a t] eqn:Hs; [done|].
  pose proof (lstrip_head s a t Hs) as Ha.
  destruct (rstrip_head t a t Ha) as [t' ->]. simpl. by rewrite Ha.
Qed.

Lemma first_gt_tag (name rest : string) :
  contains_char ">" name = false ->
  first_gt (name +:+ String ">" rest) = Some (String.length name).
Proof.
  induction name as [|a name IH]; simpl; [done|].
  intros [Ha Hn]%orb_false_elim. rewrite Ha. by rewrite IH.
Qed.

Lemma remove_tags_from_skip (s rest : string) :
  remove_tags_from (String.length s) (s +:+ rest) = remove_tags_from 0 rest.
Proof. induction s as [|a s IH]; [done|]. simpl. apply IH. Qed.

Lemma append_cons (a : ascii) (s t : string) : String a s +:+ t = String a (s +:+ t).
Proof. done. Qed.

Lemma length_snoc (s : string) (c : ascii) :
  String.length (s +:+ String c "") = S (String.length s).
Proof. induction s as [|a s IH]; [done|]. rewrite append_cons. simpl. by rewrite IH. Qed.

Lemma append_snoc (s rest : string) (c : ascii) :
  (s +:+ String c "") +:+ rest = s +:+ String c rest.
Proof. induction s as [|a s IH]; [done|]. by rewrite !append_cons, IH. Qed.

(** One tag, a [<], a non-empty name without [>], and a [>], is removed. *)
Lemma remove_tags_tag (name rest : string) :
  name <> "" -> contains_char ">" name = false ->
  remove_tags (String "<" (name +:+ String ">" rest)) = remove_tags rest.
Proof.
  intros Hne Hn. unfold remove_tags.
  cbn [remove_tags_from]. change (Ascii.eqb "<" "<") with true. cbv iota.
  rewrite (first_gt_tag name rest Hn).
  destruct name as [|a name]; [done|]. cbn [String.length].
  rewrite <- (remove_tags_from_skip (String a name +:+ ">") rest).
  by rewrite length_snoc, append_snoc.
Qed.

(** A character that is no [<] is kept. *)
Lemma remove_tags_other (a : ascii) (rest : string) :
  Ascii.eqb a "<" = false -> remove_tags (String a rest) = String a (remove_tags rest).
Proof. intros Ha. unfold remove_tags. simpl. by rewrite Ha. Qed.

(** The pass is not nested: the first [>] closes the tag. *)
Example remove_tags_not_nested : remove_tags "<a<b>c>" = "c>".
Proof. reflexivity. Qed.

Example remove_tags_comparison : remove_tags "1 < 2 and 3 > 2" = "1  2".
Proof. reflexivity. Qed.

Example remove_tags_empty_brackets : remove_tags "a<>b<c" = "a<>b<c".
Proof. reflexivity. Qed.

Example collapse_spaces_runs :
  collapse_spaces ("a " +:+ newline +:+ "  b") = "a b".
Proof. reflexivity. Qed.

End StrProperties.

(** ** The request executor *)

Module JiraClientProperties.

Import JiraClient.

(** What [time.sleep] does with a duration. *)
Lemma sleep_sleepable (d : Q) : sleepable d = true -> sleep d = ([d], Ret tt).
Proof.
  unfold sleepable, sleep. intros [Hfits Hd]%andb_prop. by rewrite Hfits, Hd.
Qed.

Lemma sleep_rejected (d : Q) :
  sleepable d = false ->
  sleep d = ([], Raise (if sleep_fits d then ValueError else OverflowError)).
Proof.
  unfold sleepable, sleep. destruct (sleep_fits d); simpl; [|done]. by intros ->.
Qed.

Lemma sleep_returns (d : Q) (log : list Q) (u : unit) :
  sleep d = (log, Ret u) -> log = [d] /\ sleepable d = true.
Proof.
  unfold sleepable, sleep. destruct (sleep_fits d); simpl; [|discriminate].
  destruct (Qle_bool 0 d); [|discriminate]. by intros [= <-].
Qed.

Lemma sleep_raises (d : Q) (log : list Q) (e : exn) :
  sleep d = (log, Raise e) ->
  log = [] /\ sleepable d = false /\
  e = if sleep_fits d then ValueError else OverflowError.
Proof.
  destruct (sleepable d) eqn:Hs.
  - by rewrite sleep_sleepable.
  - rewrite (sleep_rejected _ Hs). by intros [= <- <-].
Qed.

Lemma sleepable_nonneg (d : Q) : sleepable d = true -> (0 <= d)%Q.
Proof. unfold sleepable. intros [_ Hd]%andb_prop. by apply Qle_bool_iff. Qed.


Lemma wait_time_backoff (c : t) (a : nat) :
  (a < 1024)%nat -> wait_time c a = Ret (backoff c a).
Proof. intros Ha. unfold wait_time. by destruct (Nat.leb_spec 1024 a); [lia|]. Qed.

Lemma wait_time_overflow (c : t) (a : nat) :
  (1024 <= a)%nat -> wait_time c a = Raise OverflowError.
Proof. intros Ha. unfold wait_time. by destruct (Nat.leb_spec 1024 a); [|lia]. Qed.

Lemma wait_time_returns (c : t) (a : nat) (d : Q) :
  wait_time c a = Ret d -> (a < 1024)%nat /\ d = backoff c a.
Proof.
  unfold wait_time. destruct (Nat.leb_spec 1024 a); [discriminate|]. by intros [= <-].
Qed.

Lemma backoff_ok_spec (c : t) (a : nat) :
  backoff_ok c a = true <-> (a < 1024)%nat /\ sleepable (backoff c a) = true.
Proof.
  unfold backoff_ok. rewrite andb_true_iff. by rewrite Nat.ltb_lt.
Qed.

Section Executor.
Variables (c : t) (server : nat -> outcome).

Lemma attempts_requests_le todo :
  (requests (attempts c server todo) <= length todo)%nat.
Proof.
  induction todo as [|a todo IH]; simpl; [lia|].
  destruct (iteration c a (server a)) as [log [| |]]; simpl; lia.
Qed.

(** A request that was not the last one was sent in an iteration that
    went on. *)
Lemma attempts_went_on a n i :
  (S i < requests (attempts c server (seq a n)))%nat ->
  exists log, iteration c (a + i) (server (a + i)%nat) = (log, Continue).
Proof.
  revert a i. induction n as [|n IH]; intros a i; simpl; [lia|].
  destruct (iteration c a (server a)) as [log [| |]] eqn:Hit; simpl; try lia.
  intros Hi. destruct i as [|i].
  - rewrite Nat.add_0_r. by exists log.
  - replace (a + S i)%nat with (S a + i)%nat by lia. apply IH. lia.
Qed.

Lemma attempts_continue a todo log :
  iteration c a (server a) = (log, Continue) ->
  attempts c server (a :: todo) =
    Run (result (attempts c server todo)) (log ++ sleeps (attempts c server todo))
        (S (requests (attempts c server todo))).
Proof. intros H. simpl. by rewrite H. Qed.


(** A server error, a timeout or a connection failure before the last
    attempt, when the backoff succeeds. *)
Lemma iteration_transient a o :
  is_transient_failure o = true ->
  Z.of_nat a < max_retries c - 1 -> backoff_ok c a = true ->
  iteration c a o = ([backoff c a], Continue).
Proof.
  intros Ho Ha [Hlt Hs]%backoff_ok_spec.
  destruct o as [st h b| | |]; simpl in *; try discriminate.
  - assert (Hne : (st =? 429) = false) by lia. rewrite Hne, Ho.
    rewrite wait_time_backoff by done.
    destruct (Z.ltb_spec (Z.of_nat a) (max_retries c - 1)); [|lia].
    unfold sleep_in_try. by rewrite sleep_sleepable.
  - rewrite wait_time_backoff by done.
    destruct (Z.ltb_spec (Z.of_nat a) (max_retries c - 1)); [|lia].
    unfold sleep_in_handler. by rewrite sleep_sleepable.
  - rewrite wait_time_backoff by done.
    destruct (Z.ltb_spec (Z.of_nat a) (max_retries c - 1)); [|lia].
    unfold sleep_in_handler. by rewrite sleep_sleepable.
Qed.



(** A server error, a timeout or a connection failure at the last
    attempt: the product is computed and not slept. *)
Lemma iteration_transient_last a o :
  is_transient_failure o = true ->
  ~ Z.of_nat a < max_retries c - 1 ->
  iteration c a o =
    ([], if (a <? 1024)%nat || is_server_error o then Return None
         else Propagate OverflowError).
Proof.
  intros Ho Ha.
  assert (Hlt : (Z.of_nat a <? max_retries c - 1) = false) by lia.
  destruct o as [st h b| | |]; cbn [is_transient_failure is_server_error] in *;
    try discriminate; cbn [iteration].
  - assert (Hne : (st =? 429) = false) by lia. rewrite Hne, Ho, orb_true_r, Hlt.
    by destruct (wait_time c a).
  - rewrite orb_false_r, Hlt. destruct (Nat.ltb_spec a 1024).
    + by rewrite wait_time_backoff.
    + by rewrite wait_time_overflow.
  - rewrite orb_false_r, Hlt. destruct (Nat.ltb_spec a 1024).
    + by rewrite wait_time_backoff.
    + by rewrite wait_time_overflow.
Qed.


(** A run of iterations that all go on: the loop reaches the attempts
    after them, with their sleeps in front. *)
Lemma attempts_prefix (log : nat -> list Q) a k n :
  (forall i, (a <= i < a + k)%nat -> iteration c i (server i) = (log i, Continue)) ->
  attempts c server (seq a (k + n)) =
    let r := attempts c server (seq (a + k) n) in
    Run (result r) (concat (map log (seq a k)) ++ sleeps r) (k + requests r).
Proof.
  revert a. induction k as [|k IH]; intros a H.
  - simpl. rewrite Nat.add_0_r. by destruct (attempts _ _ _).
  - change (seq a (S k + n)) with (a :: seq (S a) (k + n)).
    rewrite (attempts_continue a _ (log a)) by (apply H; lia).
    rewrite IH by (intros i Hi; apply H; lia).
    replace (S a + k)%nat with (a + S k)%nat by lia.
    simpl. f_equal. by rewrite app_assoc.
Qed.
End Executor.

Lemma concat_map_singleton {A B} (f : A -> B) (l : list A) :
  concat (map (fun x => [f x]) l) = map f l.
Proof. induction l as [|x l IH]; simpl; by rewrite ?IH. Qed.


Lemma make_request_requests_le c server :
  (requests (_make_request c server) <= Z.to_nat (max_retries c))%nat.
Proof.
  unfold _make_request, attempt_range.
  etrans; [apply attempts_requests_le|]. by rewrite length_seq.
Qed.

(** The executor receives at most [max_retries] outcomes. *)
Lemma received_length c server :
  (length (received c server) <= Z.to_nat (max_retries c))%nat.
Proof.
  unfold received. rewrite length_map, length_seq. apply make_request_requests_le.
Qed.


(** A server that only meets the call with server errors, timeouts and
    connection failures, when every backoff before the last attempt
    succeeds. *)
Lemma exhaustion_run c server :
  (forall i, (i < Z.to_nat (max_retries c))%nat -> is_transient_failure (server i) = true) ->
  (forall i, (S i < Z.to_nat (max_retries c))%nat -> backoff_ok c i = true) ->
  _make_request c server =
    Run (if (Z.to_nat (max_retries c) <=? 1024)%nat ||
            is_server_error (server (Z.to_nat (max_retries c) - 1)%nat)
         then Ret None else Raise OverflowError)
        (map (backoff c) (seq 0 (Z.to_nat (max_retries c) - 1)))
        (Z.to_nat (max_retries c)).
Proof.
  intros Hfail Hok. unfold _make_request, attempt_range.
  destruct (Z.to_nat (max_retries c)) as [|m] eqn:Hm; [done|].
  replace (seq 0 (S m)) with (seq 0 (m + 1)) by (f_equal; lia).
  rewrite (attempts_prefix c server (fun i => [backoff c i]) 0 m 1).
  - simpl. rewrite (iteration_transient_last c m); [|apply Hfail; lia|lia].
    rewrite Nat.sub_0_r.
    change (m <? 1024)%nat with (m <=? 1023)%nat.
    destruct ((m <=? 1023)%nat || is_server_error (server m)); simpl;
      rewrite concat_map_singleton, app_nil_r; f_equal; lia.
  - intros i Hi. apply iteration_transient; [apply Hfail; lia|lia|apply Hok; lia].
Qed.










End JiraClientProperties.

(** ** The record transformer *)

Module DataTransformerProperties.

Import DataTransformer.

Lemma bind_Ret {A B : Type} (m : py A) (k : A -> py B) (b : B) :
  bind m k = Ret b -> exists a, m = Ret a /\ k a = Ret b.
Proof. destruct m as [a|e]; simpl; [eauto|discriminate]. Qed.

Lemma mapM_Ret_cons {A B : Type} (f : A -> py B) (x : A) (l : list A) (ys : list B) :
  mapM f (x :: l) = Ret ys ->
  exists y ys', ys = y :: ys' /\ f x = Ret y /\ mapM f l = Ret ys'.
Proof.
  simpl. intros (y & Hy & H)%bind_Ret. apply bind_Ret in H as (ys' & Hys & [= <-]).
  by exists y, ys'.
Qed.

Lemma mapM_total {A B : Type} (f : A -> py B) (ok : A -> bool) (l : list A) :
  (forall x, ok x = true -> exists y, f x = Ret y) ->
  forallb ok l = true -> exists ys, mapM f l = Ret ys.
Proof.
  intros Hf. induction l as [|x l IH]; simpl; [eauto|].
  intros [Hx Hl]%andb_prop. destruct (Hf x Hx) as [y ->].
  destruct (IH Hl) as [ys ->]. simpl. eauto.
Qed.

Lemma extractable_total (v : json) :
  extractable v = true -> exists s, extract_text_content v = Ret s.
Proof.
  destruct v as [| | | | |l|d]; simpl; eauto.
  destruct (Py.lookup d "rendered") as [[]|]; try discriminate; eauto.
  intros _. destruct (Py.lookup d "name"); [eauto|].
  destruct (Py.lookup d "displayName"); [eauto|].
  destruct (Py.lookup d "value"); eauto.
Qed.

Lemma extract_text_content_returns (v : json) (s : string) :
  extract_text_content v = Ret s -> extractable v = true.
Proof.
  destruct v as [| | | | | |d]; try done. simpl.
  by destruct (Py.lookup d "rendered") as [[]|].
Qed.

Lemma extract_text_content_raises (v : json) (e : exn) :
  extract_text_content v = Raise e -> extractable v = false.
Proof.
  intros H. destruct (extractable v) eqn:Hv; [|done].
  destruct (extractable_total v Hv) as [s Hs]. congruence.
Qed.

Lemma iterable_iter (v : json) : iterable v = true -> Py.iter v = Ret (elements v).
Proof. by destruct v. Qed.

Lemma iter_returns (v : json) (l : list json) :
  Py.iter v = Ret l -> iterable v = true /\ elements v = l.
Proof. unfold elements. destruct v; try discriminate; simpl; by intros [= <-]. Qed.

Section Clock.
Variable reformat : string -> option string.

Lemma build_comment_total (c : json) :
  comment_ok c = true -> exists x, build_comment reformat c = Ret x.
Proof.
  destruct c as [| | | | |l|d]; try discriminate. simpl.
  intros [Ha Hb]%andb_prop.
  destruct (extractable_total _ Ha) as [a Ha'].
  destruct (extractable_total _ Hb) as [b Hb'].
  unfold build_comment. simpl. rewrite Ha'. simpl. rewrite Hb'. simpl. eauto.
Qed.

Lemma build_comment_body (c : json) (x : comment) :
  build_comment reformat c = Ret x ->
  exists b, Py.get_attr c "body" JNull = Ret b /\
            extract_text_content b = Ret (body x).
Proof.
  unfold build_comment.
  intros (a & _ & H)%bind_Ret.
  apply bind_Ret in H as (a' & _ & H).
  apply bind_Ret in H as (b & Hb & H).
  apply bind_Ret in H as (b' & Hb' & H).
  apply bind_Ret in H as (cr & _ & H).
  apply bind_Ret in H as (up & _ & [= <-]).
  eauto.
Qed.

(** The duplicate test, on a raw comment that can be built. *)
Lemma existing_spec (c : json) (x : comment) (acc : list comment) :
  build_comment reformat c = Ret x ->
  existing c acc = Ret (bool_decide (body x ∈ body <$> acc)).
Proof.
  intros (b & Hb & Hx)%build_comment_body.
  induction acc as [|y acc IH]; [done|].
  cbn [existing]. rewrite Hb. cbn [bind]. rewrite Hx. cbn [bind].
  destruct (String.eqb_spec (body y) (body x)) as [Heq|Hne].
  - rewrite bool_decide_eq_true_2; [done|]. rewrite fmap_cons, Heq. apply list_elem_of_here.
  - rewrite IH. f_equal. apply bool_decide_ext.
    rewrite fmap_cons, elem_of_cons. split; [auto|].
    intros [Heq|Hin]; [congruence|done].
Qed.

(** The loop over the embedded comments, when each of them can be built:
    it appends, in order, those whose body is not in the list yet. *)
Lemma add_embedded_spec (embedded : list json) (E acc : list comment) :
  mapM (build_comment reformat) embedded = Ret E ->
  exists E',
    add_embedded reformat embedded acc = Ret (acc ++ E') /\
    sublist E' E /\
    NoDup (body <$> E') /\
    (forall e, e ∈ E' -> body e ∉ body <$> acc) /\
    (forall e, e ∈ E -> body e ∈ body <$> (acc ++ E')).
Proof.
  revert E acc. induction embedded as [|c embedded IH]; intros E acc HE.
  - injection HE as <-. exists []. rewrite app_nil_r. simpl.
    split; [done|]. split; [done|]. split; [constructor|].
    split; intros e He; by apply elem_of_nil in He.
  - apply mapM_Ret_cons in HE as (x & E0 & -> & Hx & HE0).
    simpl. rewrite (existing_spec c x acc Hx). simpl.
    case_bool_decide as Hdup.
    + destruct (IH E0 acc HE0) as (E' & -> & Hsub & Hnd & Hnew & Hall).
      exists E'. split; [done|]. split; [by apply sublist_cons|].
      split; [done|]. split; [done|].
      intros e [->|He]%elem_of_cons; [|by apply Hall].
      rewrite fmap_app. apply elem_of_app. by left.
    + rewrite Hx. simpl.
      destruct (IH E0 (acc ++ [x]) HE0) as (E' & -> & Hsub & Hnd & Hnew & Hall).
      exists (x :: E'). rewrite <- app_assoc. split; [done|].
      split; [by apply sublist_skip|].
      split.
      { simpl. apply NoDup_cons. split; [|done].
        intros (e & Hb & He)%list_elem_of_fmap.
        apply (Hnew e He). rewrite fmap_app. apply elem_of_app. right.
        simpl. rewrite <- Hb. apply list_elem_of_here. }
      split.
      { intros e [->|He]%elem_of_cons; [done|].
        intros Hin. apply (Hnew e He). rewrite fmap_app. apply elem_of_app. by left. }
      intros e [->|He]%elem_of_cons.
      * rewrite fmap_app. apply elem_of_app. right. simpl. apply list_elem_of_here.
      * specialize (Hall e He). by rewrite <- app_assoc in Hall.
Qed.

Ltac invert_binds H :=
  repeat (let x := fresh "x" in let Hx := fresh "Hx" in
          apply bind_Ret in H as (x & Hx & H)).

(** What a returned record says about the steps of [transform_issue]. *)
Lemma transform_issue_Some utcnow issue comments_data r :
  transform_issue reformat utcnow issue comments_data = Some r ->
  (exists fields, Py.get issue "fields" (JObj []) = JObj fields /\ fields <> []) /\
  extract_comments reformat issue comments_data = Ret (comments r) /\
  comment_count r = length (comments r) /\
  derived_tasks r <> None.
Proof.
  unfold transform_issue.
  destruct (transform_fields _ _ _ _) as [r'|e] eqn:H; [|discriminate].
  intros ->. unfold transform_fields in H.
  destruct (Py.truthy (Py.get issue "fields" (JObj []))) eqn:Htruthy; [|discriminate].
  simpl in H. invert_binds H. injection H as <-.
  split; [|by simpl].
  destruct (Py.get issue "fields" (JObj [])) as [| | | | | |fields]; try discriminate.
  exists fields. split; [done|]. by destruct fields.
Qed.

Lemma build_comment_returns (c : json) (x : comment) :
  build_comment reformat c = Ret x -> comment_ok c = true /\ body x = body_text c.
Proof.
  destruct c as [| | | | | |d]; try discriminate.
  unfold build_comment, comment_ok, body_text. cbn [Py.get_attr bind].
  destruct (extract_text_content (Py.get d "author" JNull)) as [a|e] eqn:Ha; [|discriminate].
  destruct (extract_text_content (Py.get d "body" JNull)) as [b|e] eqn:Hb; [|discriminate].
  cbn [bind]. intros [= <-].
  by rewrite (extract_text_content_returns _ _ Ha), (extract_text_content_returns _ _ Hb).
Qed.

Lemma mapM_build_returns (l : list json) (D : list comment) :
  mapM (build_comment reformat) l = Ret D ->
  forallb comment_ok l = true /\ body <$> D = map body_text l.
Proof.
  revert D. induction l as [|c l IH]; intros D.
  - by intros [= <-].
  - intros (x & D' & -> & Hx & HD)%mapM_Ret_cons.
    apply build_comment_returns in Hx as [Hok Hb]. destruct (IH _ HD) as [Hl Hbs].
    cbn [forallb map]. rewrite Hok, Hl, fmap_cons, Hb, Hbs. done.
Qed.

(** The first loop of [extract_comments] returns exactly on an accepted
    payload, and the comments it builds have the bodies of the payload. *)
Lemma payload_returns (comments_data : json) :
  payload_accepted comments_data = true <->
  exists D,
    (if Py.truthy comments_data then
       let* comment_list := Py.get_attr comments_data "comments" (JArr []) in
       let* l := Py.iter comment_list in
       mapM (build_comment reformat) l
     else Ret []) = Ret D.
Proof.
  unfold payload_accepted.
  destruct (Py.truthy comments_data); cbn [negb orb]; [|by split; eauto].
  destruct comments_data as [| | | | | |d];
    try (split; [discriminate|by intros [D [=]]]).
  cbn [Py.get_attr bind]. split.
  - intros [Hit Hall]%andb_prop. rewrite (iterable_iter _ Hit). cbn [bind].
    apply (mapM_total _ _ _ build_comment_total Hall).
  - intros (D & HD).
    destruct (Py.iter (Py.get d "comments" (JArr []))) as [l|e] eqn:Hl; [|discriminate].
    apply iter_returns in Hl as [-> <-]. cbn [bind] in HD.
    by apply mapM_build_returns in HD as [-> _].
Qed.

Lemma payload_bodies_spec (comments_data : json) (D : list comment) :
  (if Py.truthy comments_data then
     let* comment_list := Py.get_attr comments_data "comments" (JArr []) in
     let* l := Py.iter comment_list in
     mapM (build_comment reformat) l
   else Ret []) = Ret D ->
  body <$> D = payload_bodies comments_data.
Proof.
  unfold payload_bodies. destruct (Py.truthy comments_data); [|by intros [= <-]].
  destruct comments_data as [| | | | | |d]; try discriminate.
  cbn [Py.get_attr bind].
  destruct (Py.iter (Py.get d "comments" (JArr []))) as [l|e] eqn:Hl; [|discriminate].
  apply iter_returns in Hl as [_ <-]. cbn [bind].
  by intros [_ ?]%mapM_build_returns.
Qed.

(** The duplicate test, on a raw comment whose body is extractable. *)
Lemma existing_body (d : list (string * json)) (text : string) (acc : list comment) :
  extract_text_content (Py.get d "body" JNull) = Ret text ->
  existing (JObj d) acc = Ret (existsb (fun b => String.eqb b text) (body <$> acc)).
Proof.
  intros Hb. induction acc as [|y acc IH]; [done|].
  cbn [existing Py.get_attr bind]. rewrite Hb. cbn [bind]. rewrite fmap_cons.
  cbn [existsb]. destruct (String.eqb (body y) text); [done|]. by rewrite IH.
Qed.

(** The second loop returns exactly on accepted embedded comments. *)
Lemma add_embedded_returns (embedded : list json) (acc : list comment) :
  embedded_accepted embedded (body <$> acc) = true <->
  exists cs, add_embedded reformat embedded acc = Ret cs.
Proof.
  revert acc. induction embedded as [|c embedded IH]; intros acc; [by split; eauto|].
  cbn [embedded_accepted add_embedded].
  destruct c as [| | | | | |d];
    try (split; [discriminate|intros [cs H]; by destruct acc]).
  unfold body_text.
  destruct (extract_text_content (Py.get d "body" JNull)) as [text|e] eqn:Hb.
  - rewrite (extract_text_content_returns _ _ Hb), (existing_body d text acc Hb).
    cbn [andb bind].
    destruct (existsb (fun b => String.eqb b text) (body <$> acc)); [apply IH|].
    unfold build_comment. cbn [Py.get_attr bind]. rewrite Hb.
    destruct (extract_text_content (Py.get d "author" JNull)) as [a|e] eqn:Ha.
    + rewrite (extract_text_content_returns _ _ Ha). cbn [andb bind].
      rewrite <- IH. by rewrite fmap_app.
    + rewrite (extract_text_content_raises _ _ Ha). cbn [andb bind].
      split; [discriminate|by intros [cs [=]]].
  - rewrite (extract_text_content_raises _ _ Hb). cbn [andb].
    split; [discriminate|]. intros [cs H]. destruct acc as [|y acc].
    + cbn [existing bind] in H. unfold build_comment in H. cbn [Py.get_attr bind] in H.
      rewrite Hb in H. by destruct (extract_text_content (Py.get d "author" JNull)).
    + cbn [existing Py.get_attr bind] in H. by rewrite Hb in H.
Qed.

(** The steps on the [comment] entry return exactly when it is accepted. *)
Lemma comment_field_returns (comment_field : json) (comments : list comment) :
  comment_field_accepted comment_field (body <$> comments) = true <->
  exists cs,
    (let* has := (if Py.truthy comment_field then Py.contains comment_field "comments"
                  else Ret false) in
     if has then
       let* embedded := Py.subscript comment_field "comments" in
       let* l := Py.iter embedded in
       add_embedded reformat l comments
     else Ret comments) = Ret cs.
Proof.
  unfold comment_field_accepted.
  destruct (Py.truthy comment_field) eqn:Ht; cbn [negb orb bind]; [|by split; eauto].
  destruct comment_field as [|b|z|f|s|l|d]; cbn [Py.contains bind];
    try (split; [discriminate|by intros [cs [=]]]).
  - destruct (Str.contains "comments" s); cbn [negb Py.subscript bind];
      [split; [discriminate|by intros [cs [=]]]|by split; eauto].
  - destruct (existsb _ l); cbn [negb Py.subscript bind];
      [split; [discriminate|by intros [cs [=]]]|by split; eauto].
  - destruct (Py.lookup d "comments") as [x|] eqn:Hx.
    + rewrite bool_decide_eq_true_2 by eauto. cbn [Py.subscript bind]. rewrite Hx.
      cbn [bind]. destruct (Py.iter x) as [l|e] eqn:Hl.
      * apply iter_returns in Hl as [-> <-]. cbn [andb bind]. apply add_embedded_returns.
      * assert (iterable x = false) as -> by (by destruct x).
        split; [discriminate|by intros [cs [=]]].
    + rewrite bool_decide_eq_false_2 by (intros [? ?]; discriminate). by split; eauto.
Qed.

Lemma extract_comments_returns fields issue comments_data :
  Py.get issue "fields" (JObj []) = JObj fields ->
  payload_accepted comments_data &&
  comment_field_accepted (Py.get fields "comment" (JObj []))
    (payload_bodies comments_data) = true <->
  exists cs, extract_comments reformat issue comments_data = Ret cs.
Proof.
  intros Hf. unfold extract_comments. rewrite Hf. cbn [Py.get_attr].
  pose proof (payload_returns comments_data) as Hp.
  pose proof (payload_bodies_spec comments_data) as Hb.
  destruct (if Py.truthy comments_data then _ else _) as [D|e].
  - rewrite (proj2 Hp) by eauto. rewrite <- (Hb D eq_refl). cbn [andb bind].
    apply comment_field_returns.
  - destruct (payload_accepted comments_data).
    + destruct Hp as [Hp _]. by destruct (Hp eq_refl).
    + split; [discriminate|by intros [cs [=]]].
Qed.

(** The record is returned on every transformable input. *)
Lemma transform_issue_total utcnow issue comments_data :
  transformable issue comments_data = true ->
  exists r, transform_issue reformat utcnow issue comments_data = Some r.
Proof.
  unfold transformable.
  destruct (Py.lookup issue "fields") as [[| | | | | |fields]|] eqn:Hl; try discriminate.
  intros [[Hne Hp]%andb_prop Hok]%andb_prop.
  assert (Hf : Py.get issue "fields" (JObj []) = JObj fields)
    by (unfold Py.get; by rewrite Hl).
  unfold fields_accepted in Hok.
  apply andb_prop in Hok as [Hok Hemb].
  apply andb_prop in Hok as [Hok Hcomp].
  apply andb_prop in Hok as [Hok Hsix].
  apply andb_prop in Hok as [Hsum Hdesc].
  simpl in Hsix. repeat (apply andb_prop in Hsix as [?%extractable_total Hsix]).
  apply extractable_total in Hsum as [title Htitle].
  destruct (proj1 (extract_comments_returns fields issue comments_data Hf)) as [cs Hcs];
    [by rewrite Hp, Hemb|].
  unfold transform_issue, transform_fields.
  rewrite Hf, Hne. cbn [negb Py.get_attr bind]. rewrite Htitle. cbn [bind].
  assert (Hd : exists d' s, (if Py.truthy (Py.get fields "description" JNull)
                  then Ret (Py.get fields "description" JNull)
                  else Py.get_attr (Py.get fields "renderedFields" (JObj []))
                         "description" (JStr "")) = Ret d' /\
             extract_text_content d' = Ret s).
  { unfold description_ok in Hdesc.
    destruct (Py.truthy (Py.get fields "description" JNull)).
    - apply extractable_total in Hdesc as [s Hs]. eauto.
    - destruct (Py.get fields "renderedFields" (JObj [])) as [| | | | | |rendered];
        try discriminate.
      apply extractable_total in Hdesc as [s Hs]. simpl. eauto. }
  destruct Hd as (d' & s & -> & Hs). cbn [bind]. rewrite Hs. cbn [bind].
  repeat match goal with
         | H : exists s, extract_text_content _ = Ret s |- _ =>
             let s := fresh "s" in destruct H as [s ->]; cbn [bind]
         end.
  unfold extract_labels, extract_components. rewrite Hf. cbn [Py.get_attr bind].
  rewrite (iterable_iter _ Hcomp). cbn [bind]. rewrite Hcs. cbn [bind]. eauto.
Qed.

(** A record is returned only on a transformable input. *)
Lemma transform_issue_returns utcnow issue comments_data r :
  transform_issue reformat utcnow issue comments_data = Some r ->
  transformable issue comments_data = true.
Proof.
  unfold transform_issue.
  destruct (transform_fields _ _ _ _) as [r'|e] eqn:H; [|discriminate].
  intros ->. unfold transform_fields in H.
  destruct (Py.truthy (Py.get issue "fields" (JObj []))) eqn:Htruthy; [|discriminate].
  cbn [negb] in H.
  destruct (Py.get issue "fields" (JObj [])) as [| | | | | |fields] eqn:Hf;
    try discriminate.
  assert (Hl : Py.lookup issue "fields" = Some (JObj fields)).
  { unfold Py.get in Hf. destruct (Py.lookup issue "fields") as [v|]; simpl in Hf.
    - by rewrite Hf.
    - injection Hf as <-. discriminate. }
  unfold transformable. rewrite Hl, Htruthy. cbn [andb].
  cbn [Py.get_attr bind] in H.
  apply bind_Ret in H as (title & Htitle%extract_text_content_returns & H).
  apply bind_Ret in H as (d' & Hd' & H).
  apply bind_Ret in H as (description & Hdesc%extract_text_content_returns & H).
  apply bind_Ret in H as (status & Hstatus%extract_text_content_returns & H).
  apply bind_Ret in H as (issue_type & Htype%extract_text_content_returns & H).
  apply bind_Ret in H as (priority & Hpriority%extract_text_content_returns & H).
  apply bind_Ret in H as (project & Hproject%extract_text_content_returns & H).
  apply bind_Ret in H as (reporter & Hreporter%extract_text_content_returns & H).
  apply bind_Ret in H as (assignee & Hassignee%extract_text_content_returns & H).
  apply bind_Ret in H as (labels & _ & H).
  apply bind_Ret in H as (components & Hcomponents & H).
  apply bind_Ret in H as (comments & Hcomments & _).
  assert (Hc : payload_accepted comments_data &&
               comment_field_accepted (Py.get fields "comment" (JObj []))
                 (payload_bodies comments_data) = true)
    by (apply (extract_comments_returns fields issue comments_data Hf); eauto).
  apply andb_prop in Hc as [-> Hc]. cbn [andb].
  unfold fields_accepted. cbn [forallb].
  rewrite Htitle, Hstatus, Htype, Hpriority, Hproject, Hreporter, Hassignee, Hc.
  assert (description_ok fields = true) as ->.
  { unfold description_ok. destruct (Py.truthy (Py.get fields "description" JNull)).
    - by injection Hd' as <-.
    - destruct (Py.get fields "renderedFields" (JObj [])) as [| | | | | |rendered];
        try discriminate.
      by injection Hd' as <-. }
  assert (components_ok fields = true) as ->; [|done].
  unfold extract_components in Hcomponents. rewrite Hf in Hcomponents.
  cbn [Py.get_attr bind] in Hcomponents.
  apply bind_Ret in Hcomponents as (l & Hl' & _).
  by apply iter_returns in Hl' as [? _].
Qed.
End Clock.

(** C7. For every raw issue and comments payload for which the transform
    returns a record, the [comment_count] of the record is the length of
    its [comments] list. *)
Theorem comment_count_is_length (reformat : string -> option string) (utcnow : string)
    (issue : list (string * json)) (comments_data : json) (r : record) :
  transform_issue reformat utcnow issue comments_data = Some r ->
  comment_count r = length (comments r).
Proof. intros H. by apply transform_issue_Some in H as (_ & _ & ? & _). Qed.

Lemma comment_count_is_length_witness :
  exists r,
    transform_issue (fun _ => None) "2024-01-01T00:00:00" sample_issue sample_payload = Some r /\
    length (comments r) = 2%nat /\
    comment_count r = length (comments r).
Proof.
  eexists. split; [reflexivity|]. split; [reflexivity|].
  apply (comment_count_is_length (fun _ => None) "2024-01-01T00:00:00"
           sample_issue sample_payload).
  reflexivity.
Defined.

(** C4, as the code has it. The transform returns no record when the raw
    issue has no [fields] entry or an empty or null one, and it returns a
    record only for a [fields] entry that is a mapping and not empty. It
    returns a record exactly when every step accepts its input
    ([transformable]), and no record otherwise: the [fields] entry is a
    mapping that is not empty; the [summary], [status], [issuetype],
    [priority], [project], [reporter] and [assignee] entries are extractable,
    that is, none is a mapping with a [rendered] entry that is not a
    string; the description is extractable, which is the [description]
    entry when it is truthy and else the [description] entry of the
    [renderedFields] entry, which has to be a mapping when present; the
    [components] entry is iterable (a list, a mapping or a string) when
    present; the comments payload is falsy, or a mapping whose [comments]
    entry, when present, is iterable and yields only mappings with an
    extractable author and body; and the [comment] entry, when present, is
    falsy, or a string or a list that does not contain the text
    [comments], or a mapping that has no [comments] entry or one that is
    iterable and yields only mappings with an extractable body, each of
    which also has an extractable author unless its body text is the body
    of a comment merged before it. *)
Theorem transform_absent_or_record (reformat : string -> option string) (utcnow : string)
    (issue : list (string * json)) (comments_data : json) :
  (Py.truthy (Py.get issue "fields" (JObj [])) = false ->
   transform_issue reformat utcnow issue comments_data = None) /\
  (forall r, transform_issue reformat utcnow issue comments_data = Some r ->
             exists fields, Py.lookup issue "fields" = Some (JObj fields) /\ fields <> []) /\
  (transform_issue reformat utcnow issue comments_data = None <->
   transformable issue comments_data = false) /\
  (transformable issue comments_data = true <->
   exists r, transform_issue reformat utcnow issue comments_data = Some r).
Proof.
  assert (Hiff : transformable issue comments_data = true <->
                 exists r, transform_issue reformat utcnow issue comments_data = Some r).
  { split; [apply transform_issue_total|]. intros [r Hr].
    by apply (transform_issue_returns reformat utcnow issue comments_data r). }
  split_and!; [| | |done].
  - intros H. unfold transform_issue, transform_fields. by rewrite H.
  - intros r ((fields & Hf & Hne) & _)%transform_issue_Some.
    exists fields. split; [|done]. unfold Py.get in Hf.
    destruct (Py.lookup issue "fields") as [v|]; simpl in Hf; congruence.
  - destruct (transformable issue comments_data).
    + destruct Hiff as [Hiff _]. destruct (Hiff eq_refl) as [r ->]. by split.
    + split; [done|]. intros _.
      destruct (transform_issue reformat utcnow issue comments_data) as [r|] eqn:Hr;
        [|done].
      destruct Hiff as [_ Hiff]. by discriminate Hiff; eauto.
Qed.

Lemma transform_absent_or_record_witness :
  transform_issue (fun _ => None) "2024-01-01T00:00:00" [("key", JStr "SPARK-4")] JNull = None /\
  (exists fields, Py.lookup sample_issue "fields" = Some (JObj fields) /\ fields <> []) /\
  transform_issue (fun _ => None) "2024-01-01T00:00:00" null_components_issue JNull = None /\
  transform_issue (fun _ => None) "2024-01-01T00:00:00" rendered_number_issue JNull = None /\
  (exists r, transform_issue (fun _ => None) "2024-01-01T00:00:00"
               sample_issue sample_payload = Some r) /\
  (exists r, transform_issue (fun _ => None) "2024-01-01T00:00:00"
               text_comment_issue (JObj [("comments", JObj [])]) = Some r).
Proof.
  split_and!.
  - apply (transform_absent_or_record (fun _ => None) "2024-01-01T00:00:00"
             [("key", JStr "SPARK-4")] JNull).
    reflexivity.
  - eapply (proj1 (proj2 (transform_absent_or_record (fun _ => None) "2024-01-01T00:00:00"
                            sample_issue sample_payload))).
    reflexivity.
  - apply (transform_absent_or_record (fun _ => None) "2024-01-01T00:00:00"
             null_components_issue JNull).
    reflexivity.
  - apply (transform_absent_or_record (fun _ => None) "2024-01-01T00:00:00"
             rendered_number_issue JNull).
    reflexivity.
  - apply (transform_absent_or_record (fun _ => None) "2024-01-01T00:00:00"
             sample_issue sample_payload).
    reflexivity.
  - apply (transform_absent_or_record (fun _ => None) "2024-01-01T00:00:00"
             text_comment_issue (JObj [("comments", JObj [])])).
    reflexivity.
Defined.

(** A non-empty fields mapping with a null [components] entry, and an empty
    fields mapping: both give no record. *)
Lemma transform_absent_with_fields :
  (exists fields, Py.lookup null_components_issue "fields" = Some (JObj fields) /\
                  fields <> []) /\
  transform_issue (fun _ => None) "2024-01-01T00:00:00" null_components_issue JNull = None /\
  Py.lookup empty_fields_issue "fields" = Some (JObj []) /\
  transform_issue (fun _ => None) "2024-01-01T00:00:00" empty_fields_issue JNull = None.
Proof.
  split; [|split; [|split]]; try reflexivity.
  eexists. split; [reflexivity|discriminate].
Qed.


Lemma bind_Ret_l {A B : Type} (a : A) (k : A -> py B) : bind (Ret a) k = k a.
Proof. done. Qed.

Lemma get_lookup (d : list (string * json)) (k : string) (v dflt : json) :
  Py.lookup d k = Some v -> Py.get d k dflt = v.
Proof. intros H. unfold Py.get. by rewrite H. Qed.

Lemma get_attr_lookup (d : list (string * json)) (k : string) (v dflt : json) :
  Py.lookup d k = Some v -> Py.get_attr (JObj d) k dflt = Ret v.
Proof. intros H. simpl. by rewrite (get_lookup _ _ _ _ H). Qed.

Lemma contains_lookup (d : list (string * json)) (k : string) (v : json) :
  Py.lookup d k = Some v -> Py.contains (JObj d) k = Ret true.
Proof. intros H. simpl. by rewrite bool_decide_eq_true_2 by eauto. Qed.

Lemma subscript_lookup (d : list (string * json)) (k : string) (v : json) :
  Py.lookup d k = Some v -> Py.subscript (JObj d) k = Ret v.
Proof. intros H. simpl. by rewrite H. Qed.

Lemma lookup_truthy (d : list (string * json)) (k : string) (v : json) :
  Py.lookup d k = Some v -> Py.truthy (JObj d) = true.
Proof. by destruct d. Qed.









End DataTransformerProperties.

(** ** The checkpoint store and the command line *)

Module StateManagerProperties.

Import StateManager.

Lemma alloc_fresh (h : gmap loc object) (o : object) :
  h !! (alloc h o).1 = None /\ (alloc h o).2 = <[(alloc h o).1 := o]> h.
Proof.
  unfold alloc. simpl. split; [|done].
  apply not_elem_of_dom. apply is_fresh.
Qed.

Lemma read_list_insert_ne (h : gmap loc object) (l r : loc) (o : object) :
  l <> r -> read_list (<[r := o]> h) l = read_list h l.
Proof. intros Hne. unfold read_list. by rewrite lookup_insert_ne. Qed.

Lemma read_list_insert_eq (h : gmap loc object) (l : loc) (items : list string) :
  read_list (<[l := PyList items]> h) l = Ret items.
Proof. unfold read_list. by rewrite lookup_insert_eq. Qed.

Lemma default_state_well_formed (h : gmap loc object) : well_formed h _default_state.
Proof. intros project l Hl. simpl in Hl. by rewrite lookup_empty in Hl. Qed.

Lemma update_project_progress_well_formed (h : gmap loc object) (st : t)
    (project : string) (start_at : Z) (last_issue_key : option string) :
  well_formed h st ->
  well_formed h (update_project_progress st project start_at last_issue_key).
Proof. intros Hwf q l Hl. by apply (Hwf q l). Qed.

(** Marking an issue keeps the store well formed. *)
Lemma mark_issue_processed_well_formed (h h1 : gmap loc object) (st st1 : t)
    (project issue_key : string) :
  well_formed h st ->
  mark_issue_processed h st project issue_key = Ret (st1, h1) ->
  well_formed h1 st1.
Proof.
  intros Hwf. unfold mark_issue_processed.
  destruct (default ∅ (processed_issues st) !! project) as [l|] eqn:Hl.
  - destruct (Hwf project l Hl) as [items Hitems].
    unfold read_list. rewrite Hitems. cbn [bind].
    case_bool_decide; intros [= <- <-]; intros q l' Hq; simpl in Hq.
    + by apply (Hwf q l').
    + destruct (decide (l' = l)) as [->|Hne].
      * rewrite lookup_insert_eq. eauto.
      * rewrite lookup_insert_ne by done. by apply (Hwf q l').
  - destruct (alloc h (PyList [])) as [l h'] eqn:Ha.
    pose proof (alloc_fresh h (PyList [])) as [Hfresh Hh']. rewrite Ha in Hfresh, Hh'.
    simpl in Hfresh, Hh'. subst h'. rewrite read_list_insert_eq. cbn [bind].
    rewrite bool_decide_eq_false_2 by apply not_elem_of_nil.
    intros [= <- <-]. intros q l' Hq. simpl in Hq.
    rewrite insert_insert_eq.
    destruct (decide (l' = l)) as [->|Hne].
    + rewrite lookup_insert_eq. eauto.
    + rewrite lookup_insert_ne by done.
      apply lookup_insert_Some in Hq as [[_ ?]|[_ Hq]]; [congruence|].
      by apply (Hwf q l').
Qed.

(** C8. In every well-formed state, [mark_issue_processed] returns, the
    key is then in the list of the project, and a second call with the same
    project and key leaves the store and every object as the first call left
    them. *)
Theorem mark_issue_processed_idempotent (h : gmap loc object) (st : t)
    (project issue_key : string) :
  well_formed h st ->
  exists st1 h1 items,
    mark_issue_processed h st project issue_key = Ret (st1, h1) /\
    processed_list h1 st1 project = Ret items /\
    issue_key ∈ items /\
    mark_issue_processed h1 st1 project issue_key = Ret (st1, h1).
Proof.
  intros Hwf. unfold mark_issue_processed, processed_list.
  destruct (default ∅ (processed_issues st) !! project) as [l|] eqn:Hl.
  - destruct (Hwf project l Hl) as [items Hitems].
    unfold read_list at 1. rewrite Hitems. cbn [bind].
    case_bool_decide as Hin.
    + eexists _, _, items. split; [done|]. simpl. rewrite Hl.
      unfold read_list. rewrite Hitems. cbn [bind].
      split; [done|]. split; [done|].
      by rewrite bool_decide_eq_true_2.
    + eexists _, _, (items ++ [issue_key]). split; [done|].
      simpl. rewrite Hl, read_list_insert_eq. cbn [bind].
      split; [done|]. split; [apply elem_of_app; right; apply list_elem_of_here|].
      rewrite bool_decide_eq_true_2; [done|].
      apply elem_of_app; right; apply list_elem_of_here.
  - destruct (alloc h (PyList [])) as [l h'] eqn:Ha.
    pose proof (alloc_fresh h (PyList [])) as [_ Hh']. rewrite Ha in Hh'. simpl in Hh'.
    subst h'. rewrite read_list_insert_eq. cbn [bind].
    rewrite bool_decide_eq_false_2 by apply not_elem_of_nil.
    eexists _, _, [issue_key]. split; [done|].
    simpl. rewrite lookup_insert_eq, read_list_insert_eq.
    cbn [bind]. split; [done|]. split; [apply list_elem_of_here|].
    rewrite bool_decide_eq_true_2 by apply list_elem_of_here. done.
Qed.


Lemma one_project_well_formed : well_formed one_project_heap one_project_state.
Proof.
  intros project l Hl. simpl in Hl.
  apply lookup_singleton_Some in Hl as [<- <-]. by exists ["SPARK-1"].
Defined.

Lemma mark_issue_processed_idempotent_witness :
  exists st1 h1 items,
    mark_issue_processed one_project_heap one_project_state "SPARK" "SPARK-2" = Ret (st1, h1) /\
    processed_list h1 st1 "SPARK" = Ret items /\
    "SPARK-2" ∈ items /\
    mark_issue_processed h1 st1 "SPARK" "SPARK-2" = Ret (st1, h1).
Proof.
  apply (mark_issue_processed_idempotent one_project_heap one_project_state).
  apply one_project_well_formed.
Defined.

Lemma mutate_all_spec (h : gmap loc object) (r : loc) (s : gset string) (ms : list mutation) :
  h !! r = Some (PySet s) ->
  exists s', mutate_all h r ms = Ret (<[r := PySet s']> h).
Proof.
  revert h s. induction ms as [|m ms IH]; intros h s Hr.
  - exists s. simpl. by rewrite insert_id.
  - simpl. unfold mutate. rewrite Hr. cbn [bind].
    destruct (IH (<[r := PySet (mutate_set m s)]> h) (mutate_set m s)) as [s' ->].
    { apply lookup_insert_eq. }
    exists s'. by rewrite insert_insert_eq.
Qed.

Lemma processed_list_insert_fresh (h : gmap loc object) (st : t) (r : loc) (o : object)
    (project : string) :
  well_formed h st -> h !! r = None ->
  processed_list (<[r := o]> h) st project = processed_list h st project.
Proof.
  intros Hwf Hr. unfold processed_list.
  destruct (default ∅ (processed_issues st) !! project) as [l|] eqn:Hl; [|done].
  apply read_list_insert_ne. intros ->.
  destruct (Hwf project r Hl) as [items Hitems]. congruence.
Qed.

Lemma well_formed_insert_fresh (h : gmap loc object) (st : t) (r : loc) (o : object) :
  well_formed h st -> h !! r = None -> well_formed (<[r := o]> h) st.
Proof.
  intros Hwf Hr project l Hl. destruct (Hwf project l Hl) as [items Hitems].
  exists items. rewrite lookup_insert_ne; [done|]. intros ->. congruence.
Qed.

(** C9. In every well-formed state, [get_processed_issues] returns a new
    set object, at a location where the heap had no object, whose members
    are the keys of the stored list; whatever the caller then does to that
    set, every other object is as before, the stored list of every project
    is as before, and a further read of the same project returns a set with
    the members of the first one. *)
Theorem get_processed_issues_detached (h : gmap loc object) (st : t) (project : string) :
  well_formed h st ->
  exists items r,
    processed_list h st project = Ret items /\
    get_processed_issues h st project = Ret (r, <[r := PySet (list_to_set items)]> h) /\
    h !! r = None /\
    forall ms, exists h2,
      mutate_all (<[r := PySet (list_to_set items)]> h) r ms = Ret h2 /\
      (forall l, l <> r -> h2 !! l = h !! l) /\
      (forall q, processed_list h2 st q = processed_list h st q) /\
      well_formed h2 st /\
      exists r' h3,
        get_processed_issues h2 st project = Ret (r', h3) /\
        read_set h3 r' = Ret (list_to_set items).
Proof.
  intros Hwf.
  assert (Hitems : exists items, processed_list h st project = Ret items).
  { unfold processed_list.
    destruct (default ∅ (processed_issues st) !! project) as [l|] eqn:Hl; [|eauto].
    destruct (Hwf project l Hl) as [items Hitems]. exists items.
    unfold read_list. by rewrite Hitems. }
  destruct Hitems as [items Hitems].
  pose proof (alloc_fresh h (PySet (list_to_set items))) as [Hfresh Halloc].
  destruct (alloc h (PySet (list_to_set items))) as [r h1] eqn:Ha.
  simpl in Hfresh, Halloc. subst h1.
  exists items, r. split; [done|].
  split; [unfold get_processed_issues; rewrite Hitems; cbn [bind]; by rewrite Ha|].
  split; [done|]. intros ms.
  destruct (mutate_all_spec (<[r := PySet (list_to_set items)]> h) r (list_to_set items) ms)
    as [s' Hms]; [apply lookup_insert_eq|].
  rewrite insert_insert_eq in Hms.
  exists (<[r := PySet s']> h). split; [done|].
  split; [intros l Hl; by rewrite lookup_insert_ne|].
  split; [intros q; by apply processed_list_insert_fresh|].
  split; [by apply well_formed_insert_fresh|].
  unfold get_processed_issues.
  rewrite processed_list_insert_fresh, Hitems by done. cbn [bind].
  destruct (alloc (<[r := PySet s']> h) (PySet (list_to_set items))) as [r' h3] eqn:Ha'.
  pose proof (alloc_fresh (<[r := PySet s']> h) (PySet (list_to_set items))) as [_ Hh3].
  rewrite Ha' in Hh3. simpl in Hh3. subst h3.
  exists r', (<[r' := PySet (list_to_set items)]> (<[r := PySet s']> h)).
  split; [done|]. unfold read_set. by rewrite lookup_insert_eq.
Qed.

Lemma get_processed_issues_detached_witness :
  exists items r,
    processed_list one_project_heap one_project_state "SPARK" = Ret items /\
    get_processed_issues one_project_heap one_project_state "SPARK" =
      Ret (r, <[r := PySet (list_to_set items)]> one_project_heap) /\
    one_project_heap !! r = None /\
    forall ms, exists h2,
      mutate_all (<[r := PySet (list_to_set items)]> one_project_heap) r ms = Ret h2 /\
      (forall l, l <> r -> h2 !! l = one_project_heap !! l) /\
      (forall q, processed_list h2 one_project_state q =
                 processed_list one_project_heap one_project_state q) /\
      well_formed h2 one_project_state /\
      exists r' h3,
        get_processed_issues h2 one_project_state "SPARK" = Ret (r', h3) /\
        read_set h3 r' = Ret (list_to_set items).
Proof.
  apply (get_processed_issues_detached one_project_heap one_project_state "SPARK").
  apply one_project_well_formed.
Defined.


Lemma reset_entry_spec {V : Type} (entry : option (gmap string V)) (project : string) :
  reset_entry entry project = Ret (delete project <$> entry).
Proof.
  destruct entry as [d|]; simpl; [|done].
  case_bool_decide as Hin.
  - unfold del. destruct Hin as [v ->]. done.
  - rewrite delete_id; [done|]. by apply eq_None_not_Some.
Qed.

Lemma reset_project_spec (st : t) (project : string) :
  reset_project st project =
    Ret {| projects := delete project <$> projects st;
           processed_issues := delete project <$> processed_issues st;
           last_updated := last_updated st |}.
Proof. unfold reset_project. by rewrite !reset_entry_spec. Qed.

Lemma default_delete {V : Type} (entry : option (gmap string V)) (p q : string) :
  default ∅ (delete p <$> entry) !! q =
    if decide (p = q) then None else default ∅ entry !! q.
Proof.
  destruct entry as [d|]; simpl.
  - apply lookup_delete.
  - rewrite lookup_empty. by case_decide.
Qed.

Lemma reset_project_well_formed (h : gmap loc object) (st st' : t) (project : string) :
  well_formed h st -> reset_project st project = Ret st' -> well_formed h st'.
Proof.
  intros Hwf H. rewrite reset_project_spec in H. injection H as <-.
  intros q l Hq. simpl in Hq. rewrite default_delete in Hq.
  case_decide; [done|]. by apply (Hwf q l).
Qed.

(** C10. [reset_project] never fails; it leaves the progress entry and the
    list of processed keys of every other project as they were; and on a
    project without stored entries it leaves the whole state as it was. *)
Theorem reset_project_frame (st : t) (p : string) :
  exists st',
    reset_project st p = Ret st' /\
    (forall q, p <> q ->
       get_project_progress st' q = get_project_progress st q /\
       default ∅ (processed_issues st') !! q = default ∅ (processed_issues st) !! q /\
       forall h, processed_list h st' q = processed_list h st q) /\
    (get_project_progress st p = None ->
     default ∅ (processed_issues st) !! p = None ->
     st' = st).
Proof.
  eexists. split; [apply reset_project_spec|]. split.
  - intros q Hpq. unfold get_project_progress, processed_list. simpl.
    rewrite !default_delete. by rewrite !decide_False.
  - unfold get_project_progress. intros H1 H2. destruct st as [pr ps lu]. simpl in *.
    f_equal.
    + destruct pr as [d|]; simpl in *; [|done]. by rewrite delete_id.
    + destruct ps as [d|]; simpl in *; [|done]. by rewrite delete_id.
Qed.

Lemma reset_project_frame_witness :
  exists st',
    reset_project one_project_state "HADOOP" = Ret st' /\
    (get_project_progress st' "SPARK" = get_project_progress one_project_state "SPARK" /\
     default ∅ (processed_issues st') !! "SPARK" =
       default ∅ (processed_issues one_project_state) !! "SPARK" /\
     forall h, processed_list h st' "SPARK" = processed_list h one_project_state "SPARK") /\
    st' = one_project_state.
Proof.
  destruct (reset_project_frame one_project_state "HADOOP") as (st' & H & Hframe & Hid).
  exists st'. split; [done|]. split.
  - apply Hframe. discriminate.
  - apply Hid; reflexivity.
Defined.

End StateManagerProperties.

Module MainProperties.

Import Main.

Lemma reset_project_absent (st : StateManager.t) (p : string) :
  exists st',
    StateManager.reset_project st p = Ret st' /\
    absent st' p /\ (forall q, absent st q -> absent st' q).
Proof.
  eexists. split; [apply StateManagerProperties.reset_project_spec|].
  unfold absent, StateManager.get_project_progress. simpl.
  rewrite !StateManagerProperties.default_delete. rewrite !decide_True by done.
  split; [done|]. intros q [H1 H2]. rewrite !StateManagerProperties.default_delete.
  by case_decide.
Qed.

Lemma apply_resets_absent (ps : list string) (st : StateManager.t) :
  exists st',
    apply_resets (map ResetProject ps) st = Ret st' /\
    forall p, (p ∈ ps \/ absent st p) -> absent st' p.
Proof.
  revert st. induction ps as [|q ps IH]; intros st.
  - exists st. split; [done|]. intros p [H|H]; [by apply elem_of_nil in H|done].
  - simpl. destruct (reset_project_absent st q) as (st1 & -> & Hq & Hkeep). cbn [bind].
    destruct (IH st1) as (st' & -> & H). exists st'. split; [done|].
    intros p [[->|Hp]%elem_of_cons|Hp]; apply H; auto.
Qed.

(** C2, as the code has it. With the full-reset flag, [main] first resets
    every listed project, after which the store has no entry for any of
    them, and then runs the scrape and prints its summary, unless a
    non-empty single-project reset is also asked for: only then does it
    return without scraping. *)
Theorem full_reset_then_scrape (a : args) :
  reset a = true ->
  (forall st, exists st',
     apply_resets (map ResetProject (projects a)) st = Ret st' /\
     forall p, p ∈ projects a -> absent st' p) /\
  (reset_project a = None \/ reset_project a = Some "" ->
   main a = map ResetProject (projects a) ++ [ScrapeAll; PrintSummary]) /\
  (forall p, reset_project a = Some p -> p <> "" ->
   main a = map ResetProject (projects a) ++ [ResetProject p] /\ ScrapeAll ∉ main a).
Proof.
  intros Hreset. unfold main. rewrite Hreset. split; [|split].
  - intros st. destruct (apply_resets_absent (projects a) st) as (st' & Hst' & H).
    exists st'. split; [done|]. intros p Hp. apply H. by left.
  - by intros [->| ->].
  - intros p -> Hp. apply String.eqb_neq in Hp. rewrite Hp. simpl. split; [done|].
    intros [H|H]%elem_of_app.
    + apply list_elem_of_fmap in H as (? & [=] & _).
    + apply list_elem_of_singleton in H. discriminate.
Qed.

Lemma full_reset_then_scrape_witness :
  (exists st',
     apply_resets (main full_reset_args) StateManager.one_project_state = Ret st' /\
     absent st' "SPARK") /\
  main full_reset_args =
    map ResetProject (projects full_reset_args) ++ [ScrapeAll; PrintSummary].
Proof.
  destruct (full_reset_then_scrape full_reset_args eq_refl) as (Hst & Hscrape & _).
  split.
  - destruct (Hst StateManager.one_project_state) as (st' & Hst' & Habsent).
    exists st'. split; [done|]. apply Habsent. apply list_elem_of_here.
  - apply Hscrape. by left.
Defined.

(** With the full-reset flag alone, the scrape runs after the resets. *)
Lemma full_reset_scrapes :
  reset full_reset_args = true /\
  main full_reset_args =
    [ResetProject "SPARK"; ResetProject "HADOOP"; ScrapeAll; PrintSummary] /\
  ScrapeAll ∈ main full_reset_args.
Proof.
  split; [done|]. split; [done|].
  apply list_elem_of_further, list_elem_of_further, list_elem_of_here.
Qed.

End MainProperties.

(** ** More on the request executor *)

Module JiraClientBounds.

Import JiraClient.
Import JiraClientProperties.

(** How a backoff ends an iteration, in the [try] block and in a
    handler. *)
Lemma backoff_in_try (c : t) (a : nat) (log : list Q) (ctl : control) :
  match wait_time c a with
  | Ret wait_time =>
      if Z.of_nat a <? max_retries c - 1
      then sleep_in_try wait_time else ([], Return None)
  | Raise _ => ([], Return None)
  end = (log, ctl) ->
  log = [backoff c a] /\ ctl = Continue /\
    Z.of_nat a < max_retries c - 1 /\ backoff_ok c a = true \/
  log = [] /\ ctl = Return None.
Proof.
  destruct (wait_time c a) as [d|e] eqn:Hw; [|intros [= <- <-]; by right].
  apply wait_time_returns in Hw as [Ha ->].
  destruct (Z.ltb_spec (Z.of_nat a) (max_retries c - 1)); [|intros [= <- <-]; by right].
  unfold sleep_in_try. destruct (sleep (backoff c a)) as [l [[]|e]] eqn:Hs.
  - intros [= <- <-]. apply sleep_returns in Hs as [-> Hs]. left.
    repeat split; try done. by apply backoff_ok_spec.
  - intros [= <- <-]. right. split; [|done].
    by apply sleep_raises in Hs as [-> _].
Qed.

Lemma backoff_in_handler (c : t) (a : nat) (log : list Q) (ctl : control) :
  match wait_time c a with
  | Ret wait_time =>
      if Z.of_nat a <? max_retries c - 1
      then sleep_in_handler wait_time else ([], Return None)
  | Raise e => ([], Propagate e)
  end = (log, ctl) ->
  log = [backoff c a] /\ ctl = Continue /\
    Z.of_nat a < max_retries c - 1 /\ backoff_ok c a = true \/
  log = [] /\ ctl = Return None \/
  log = [] /\ ctl = Propagate (backoff_error c a) /\ backoff_ok c a = false /\
    ((1024 <= a)%nat \/ Z.of_nat a < max_retries c - 1).
Proof.
  unfold backoff_error, backoff_ok.
  destruct (Nat.leb_spec 1024 a) as [Hge|Hlt].
  { rewrite wait_time_overflow by done. intros [= <- <-]. right. right.
    repeat split; try done; [|by left]. by destruct (Nat.ltb_spec a 1024); [lia|]. }
  rewrite wait_time_backoff by done.
  destruct (Z.ltb_spec (Z.of_nat a) (max_retries c - 1));
    [|intros [= <- <-]; right; by left].
  unfold sleep_in_handler. destruct (sleepable (backoff c a)) eqn:Hs.
  - rewrite sleep_sleepable by done. intros [= <- <-]. left.
    repeat split; try done. by destruct (Nat.ltb_spec a 1024); [|lia].
  - rewrite (sleep_rejected _ Hs). intros [= <- <-]. right. right.
    repeat split; try done; [|by right]. by rewrite andb_false_r.
Qed.

(** An iteration that goes on has slept exactly once, for a duration
    [time.sleep] accepts, after a 429, or after a server error, a timeout
    or a connection failure on an attempt that is not the last; an iteration
    that ends the call has not slept, returns a value only from a 200 and
    raises only after a timeout or a connection failure whose backoff
    fails. *)
Lemma iteration_log (c : t) (a : nat) (o : outcome) (log : list Q) (ctl : control) :
  iteration c a o = (log, ctl) ->
  match ctl with
  | Continue =>
      (exists d, log = [d] /\ sleepable d = true) /\
      (is_rate_limited o = true \/
       is_transient_failure o = true /\ Z.of_nat a < max_retries c - 1)
  | Return None => log = []
  | Return (Some v) =>
      log = [] /\ exists h, o = Response 200 h (Parsed v) /\ v <> JNull
  | Propagate e =>
      log = [] /\ (o = Timeout \/ o = ConnectionError) /\
      e = backoff_error c a /\ backoff_ok c a = false /\
      ((1024 <= a)%nat \/ Z.of_nat a < max_retries c - 1)
  end.
Proof.
  destruct o as [st h b| | |]; cbn [iteration].
  - destruct (Z.eqb_spec st 429) as [->|Hne].
    + destruct (read_retry_after c h) as [d|e]; [|by intros [= <- <-]].
      unfold sleep_in_try. destruct (sleep d) as [l [[]|e]] eqn:Hs; intros [= <- <-].
      * apply sleep_returns in Hs as [-> Hs]. split; [by exists d|by left].
      * by apply sleep_raises in Hs as [-> _].
    + destruct (Z.leb_spec 500 st) as [Hge|Hlt].
      * intros [(-> & -> & Ha & Hok)|[-> ->]]%backoff_in_try; [|done].
        split; [exists (backoff c a); by apply backoff_ok_spec in Hok as [_ ?]|].
        right. split; [|done]. simpl. lia.
      * destruct ((400 <=? st) && (st <? 500)); [by intros [= <- <-]|].
        destruct (Z.eqb_spec st 200) as [->|]; [|by intros [= <- <-]].
        destruct b as [|[]]; intros [= <- <-]; try done; split; try done; by exists h.
  - intros [(-> & -> & Ha & Hok)|[[-> ->]|(-> & -> & Hbad & Hwhere)]]%backoff_in_handler;
      [|done|].
    + split; [exists (backoff c a); by apply backoff_ok_spec in Hok as [_ ?]|by right].
    + split; [done|]. split; [by left|done].
  - intros [(-> & -> & Ha & Hok)|[[-> ->]|(-> & -> & Hbad & Hwhere)]]%backoff_in_handler;
      [|done|].
    + split; [exists (backoff c a); by apply backoff_ok_spec in Hok as [_ ?]|by right].
    + split; [done|]. split; [by right|done].
  - by intros [= <- <-].
Qed.

Lemma iteration_log_nil (c : t) (a : nat) (o : outcome) (log : list Q) (ctl : control) :
  iteration c a o = (log, ctl) -> ctl <> Continue -> log = [].
Proof.
  intros Hit Hctl. apply iteration_log in Hit.
  destruct ctl as [|[v|]|e]; [done|by destruct Hit|done|by destruct Hit].
Qed.

Lemma attempts_bounds (c : t) (server : nat -> outcome) (a n : nat) :
  (a + n)%nat = Z.to_nat (max_retries c) ->
  let r := attempts c server (seq a n) in
  (requests r <= n)%nat /\
  (length (sleeps r) <= requests r)%nat /\
  Forall (fun d => (0 <= d)%Q) (sleeps r) /\
  (length (sleeps r) = requests r -> (0 < n)%nat ->
   requests r = n /\ is_rate_limited (server (a + n - 1)%nat) = true).
Proof.
  revert a. induction n as [|n IH]; intros a Han; simpl.
  - repeat split; try done; lia.
  - destruct (iteration c a (server a)) as [log ctl] eqn:Hit.
    pose proof (iteration_log c a (server a) log ctl Hit) as Hlog.
    destruct ctl as [|v|e]; simpl.
    + destruct Hlog as [(d & -> & Hd%sleepable_nonneg) Hkind].
      destruct (IH (S a)) as (H1 & H2 & H3 & H4); [lia|]. simpl.
      split; [lia|]. split; [lia|]. split; [by constructor|].
      intros Heq _. destruct n as [|n].
      * simpl. split; [done|]. replace (a + 1 - 1)%nat with a by lia.
        destruct Hkind as [?|[_ ?]]; [done|lia].
      * destruct H4 as [H5 H6]; [lia|lia|]. split; [lia|].
        by replace (a + S (S n) - 1)%nat with (S a + S n - 1)%nat by lia.
    + rewrite (iteration_log_nil _ _ _ _ _ Hit) by done.
      simpl. repeat split; try done; lia.
    + rewrite (iteration_log_nil _ _ _ _ _ Hit) by done.
      simpl. repeat split; try done; lia.
Qed.

(** X1. [_make_request] sends at most [max_retries] requests, and none at
    all when [max_retries] is not positive; it sleeps at most once per
    request, never for a negative duration, and it has slept after its last
    request only when all [max_retries] attempts were used and the last
    answer was a 429. *)
Theorem make_request_bounded (c : t) (server : nat -> outcome) :
  let r := _make_request c server in
  (requests r <= Z.to_nat (max_retries c))%nat /\
  (length (sleeps r) <= requests r)%nat /\
  Forall (fun d => (0 <= d)%Q) (sleeps r) /\
  (length (sleeps r) = requests r -> (0 < requests r)%nat ->
   requests r = Z.to_nat (max_retries c) /\
   is_rate_limited (server (requests r - 1)%nat) = true) /\
  (max_retries c <= 0 -> r = Run (Ret None) [] 0).
Proof.
  unfold _make_request, attempt_range.
  destruct (attempts_bounds c server 0 (Z.to_nat (max_retries c)) eq_refl)
    as (H1 & H2 & H3 & H4).
  split; [done|]. split; [done|]. split; [done|]. split.
  - intros Heq Hpos. destruct H4 as [H5 H6]; [done|lia|]. split; [done|].
    by rewrite H5.
  - intros Hmax. by replace (Z.to_nat (max_retries c)) with 0%nat by lia.
Qed.

Lemma make_request_bounded_witness :
  (requests (_make_request default_client (fun _ => Response 429 NoRetryAfter Unparsable)) =
     Z.to_nat (max_retries default_client) /\
   is_rate_limited (Response 429 NoRetryAfter Unparsable) = true) /\
  _make_request (Build 0 1 30 1) (fun _ => Timeout) = Run (Ret None) [] 0.
Proof.
  split.
  - apply (make_request_bounded default_client
             (fun _ => Response 429 NoRetryAfter Unparsable)).
    + reflexivity.
    + vm_compute. lia.
  - apply (make_request_bounded (Build 0 1 30 1) (fun _ => Timeout)). simpl. lia.
Defined.

Lemma attempts_retry_only (c : t) (server : nat -> outcome) (a n i : nat) :
  (a + n)%nat = Z.to_nat (max_retries c) ->
  (S i < requests (attempts c server (seq a n)))%nat ->
  is_rate_limited (server (a + i)%nat) = true \/
  is_transient_failure (server (a + i)%nat) = true.
Proof.
  intros _ Hi. destruct (attempts_went_on c server a n i Hi) as [log Hit].
  apply iteration_log in Hit as [_ [?|[? _]]]; auto.
Qed.

(** X2. [_make_request] sends another request only after a 429, a status
    of 500 or more, a timeout or a connection failure: after any other
    answer (a client error, a 200, an unexpected status, another
    exception) the call ends. *)
Theorem make_request_retries_only_retryable (c : t) (server : nat -> outcome) (i : nat) :
  (S i < requests (_make_request c server))%nat ->
  is_rate_limited (server i) = true \/ is_transient_failure (server i) = true.
Proof.
  intros Hi.
  by apply (attempts_retry_only c server 0 (Z.to_nat (max_retries c)) i).
Qed.

Lemma make_request_retries_only_retryable_witness :
  is_rate_limited (backoff_server (JObj []) 1) = true \/
  is_transient_failure (backoff_server (JObj []) 1) = true.
Proof.
  apply (make_request_retries_only_retryable default_client (backoff_server (JObj [])) 1).
  vm_compute. lia.
Defined.

Lemma attempts_payload (c : t) (server : nat -> outcome) (todo : list nat) (v : json) :
  result (attempts c server todo) = Ret (Some v) ->
  exists i h,
    todo !! (requests (attempts c server todo) - 1)%nat = Some i /\
    (0 < requests (attempts c server todo))%nat /\
    server i = Response 200 h (Parsed v) /\ v <> JNull.
Proof.
  induction todo as [|a todo IH]; simpl; [discriminate|].
  destruct (iteration c a (server a)) as [log ctl] eqn:Hit.
  destruct ctl as [|v'|e]; simpl.
  - intros H. destruct (IH H) as (i & h & Hi & Hpos & Hs & Hv).
    exists i, h. split; [|split; [lia|done]].
    destruct (requests (attempts c server todo)) as [|k]; [lia|].
    simpl in *. by rewrite Nat.sub_0_r in Hi.
  - intros [= ->]. apply iteration_log in Hit as (_ & h & Hs & Hv).
    exists a, h. split; [done|]. split; [lia|done].
  - discriminate.
Qed.

(** X3. A value [_make_request] returns is the parsed body, other than
    null, of the last answer it received, and that answer had status
    200. *)
Theorem make_request_payload_origin (c : t) (server : nat -> outcome) (v : json) :
  result (_make_request c server) = Ret (Some v) ->
  (0 < requests (_make_request c server))%nat /\
  v <> JNull /\
  exists h, server (requests (_make_request c server) - 1)%nat =
              Response 200 h (Parsed v).
Proof.
  intros H. unfold _make_request in *.
  destruct (attempts_payload c server (attempt_range c) v H) as (i & h & Hi & Hpos & Hs & Hv).
  split; [done|]. split; [done|]. exists h.
  unfold attempt_range in Hi. apply lookup_seq in Hi as [-> _]. done.
Qed.

Lemma make_request_payload_origin_witness :
  exists h, backoff_server (JObj []) 3 = Response 200 h (Parsed (JObj [])).
Proof.
  destruct (make_request_payload_origin default_client (backoff_server (JObj [])) (JObj []))
    as (_ & _ & H); [reflexivity|]. exact H.
Defined.

Lemma attempts_no_raise (c : t) (server : nat -> outcome) (a n : nat) :
  (a + n)%nat = Z.to_nat (max_retries c) ->
  max_retries c <= 1024 ->
  (forall i, Z.of_nat i < max_retries c - 1 -> sleepable (backoff c i) = true) ->
  exists v, result (attempts c server (seq a n)) = Ret v.
Proof.
  intros Han Hmax Hok. revert a Han. induction n as [|n IH]; intros a Han; simpl; [eauto|].
  destruct (iteration c a (server a)) as [log ctl] eqn:Hit.
  destruct ctl as [|v|e]; simpl; [apply IH; lia|eauto|].
  exfalso. apply iteration_log in Hit as (_ & _ & _ & Hbad & Hwhere).
  destruct Hwhere as [Hge|Hlt]; [lia|].
  assert (backoff_ok c a = true); [|congruence].
  apply backoff_ok_spec. split; [lia|by apply Hok].
Qed.

(** X4. When [max_retries] is at most 1024 and [time.sleep] accepts the
    backoff [retry_delay * 2 ^ attempt] of every attempt before the last,
    [_make_request] raises nothing, whatever the server answers and
    whatever the [Retry-After] headers hold: every failure is a returned
    [None]. *)
Theorem make_request_never_raises (c : t) (server : nat -> outcome) :
  max_retries c <= 1024 ->
  (forall i, Z.of_nat i < max_retries c - 1 -> sleepable (backoff c i) = true) ->
  exists v, result (_make_request c server) = Ret v.
Proof. intros Hmax Hok. by apply attempts_no_raise. Qed.

Lemma make_request_never_raises_witness :
  exists v, result (_make_request default_client
                      (fun _ => Response 429 BadRetryAfter Unparsable)) = Ret v.
Proof.
  apply (make_request_never_raises default_client
           (fun _ => Response 429 BadRetryAfter Unparsable)).
  - simpl. lia.
  - intros i Hi. simpl in Hi. do 4 (destruct i as [|i]; [reflexivity|]). lia.
Defined.





Lemma total_sleep_snoc (l : list Q) (x : Q) :
  (total_sleep (l ++ [x]) == total_sleep l + x)%Q.
Proof.
  induction l as [|y l IH]; cbn [app total_sleep foldr].
  - ring.
  - fold (total_sleep (l ++ [x])). fold (total_sleep l). rewrite IH. ring.
Qed.

Lemma total_backoff (c : t) (m : nat) :
  (total_sleep (map (backoff c) (seq 0 m)) ==
   retry_delay c * (inject_Z (2 ^ Z.of_nat m) - 1))%Q.
Proof.
  induction m as [|m IH].
  - cbn [seq map total_sleep foldr]. change (inject_Z (2 ^ Z.of_nat 0)) with 1%Q. ring.
  - rewrite seq_S, map_app. cbn [map]. rewrite total_sleep_snoc, IH.
    unfold backoff. rewrite Nat2Z.inj_succ, Z.pow_succ_r by lia.
    rewrite inject_Z_mult. change (0 + m)%nat with m. change (inject_Z 2) with 2%Q. ring.
Qed.

(** X6. When every attempt meets a server error, a timeout or a connection
    failure and the backoff of every attempt before the last succeeds (its
    index is below 1024 and [time.sleep] accepts
    [retry_delay * 2 ^ attempt]), [_make_request] sleeps for the base delay
    times 1, 2, 4, ... between the attempts and never after the last:
    [retry_delay * (2 ^ (max_retries - 1) - 1)] seconds in all, 15 seconds
    with the defaults. *)
Theorem exhaustion_total_backoff (c : t) (server : nat -> outcome) :
  (forall i, (i < Z.to_nat (max_retries c))%nat -> is_transient_failure (server i) = true) ->
  (forall i, (S i < Z.to_nat (max_retries c))%nat -> backoff_ok c i = true) ->
  sleeps (_make_request c server) =
    map (backoff c) (seq 0 (Z.to_nat (max_retries c) - 1)) /\
  (total_sleep (sleeps (_make_request c server)) ==
   retry_delay c * (inject_Z (2 ^ Z.of_nat (Z.to_nat (max_retries c) - 1)) - 1))%Q.
Proof.
  intros Hfail Hok. rewrite (exhaustion_run c server Hfail Hok).
  cbn [sleeps]. split; [done|]. apply total_backoff.
Qed.

Lemma exhaustion_total_backoff_witness :
  sleeps (_make_request default_client (fun _ => Response 503 NoRetryAfter Unparsable)) =
    map (backoff default_client) (seq 0 4) /\
  (total_sleep (sleeps (_make_request default_client
                          (fun _ => Response 503 NoRetryAfter Unparsable))) == 15)%Q.
Proof.
  destruct (exhaustion_total_backoff default_client
              (fun _ => Response 503 NoRetryAfter Unparsable)) as [H1 H2].
  - done.
  - intros i Hi. simpl in Hi. do 4 (destruct i as [|i]; [reflexivity|]). lia.
  - split; [exact H1|]. rewrite H2. reflexivity.
Defined.

End JiraClientBounds.

(** ** More on the record transformer *)

Module DataTransformerMore.

Import DataTransformer.
Import DataTransformerProperties.

(** The record [transform_issue] returns, field by field. *)
Lemma transform_issue_inv reformat utcnow issue comments_data r :
  transform_issue reformat utcnow issue comments_data = Some r ->
  exists fields T,
    Py.get issue "fields" (JObj []) = JObj fields /\
    r = set_derived_tasks T (create_derived_tasks T) /\
    issue_key T = Py.get issue "key" (JStr "") /\
    extract_text_content (Py.get fields "summary" (JStr "")) = Ret (title T) /\
    extract_text_content (Py.get fields "status" (JObj [])) = Ret (status T) /\
    extract_text_content (Py.get fields "issuetype" (JObj [])) = Ret (issue_type T) /\
    created_at T = format_timestamp reformat (Py.get fields "created" JNull) /\
    updated_at T = format_timestamp reformat (Py.get fields "updated" JNull) /\
    resolved T = format_timestamp reformat (Py.get fields "resolutiondate" JNull) /\
    extract_labels issue = Ret (labels T) /\
    extract_components issue = Ret (components T) /\
    extract_comments reformat issue comments_data = Ret (comments T) /\
    comment_count T = length (comments T) /\
    metadata T = Metadata (Py.get issue "key" (JStr "")) utcnow "apache-jira" /\
    derived_tasks T = None.
Proof.
  unfold transform_issue.
  destruct (transform_fields _ _ _ _) as [r'|e] eqn:H; [|discriminate].
  intros ->. unfold transform_fields in H.
  destruct (Py.truthy (Py.get issue "fields" (JObj []))) eqn:Htruthy; [|discriminate].
  cbn [negb] in H.
  destruct (Py.get issue "fields" (JObj [])) as [| | | | | |fields] eqn:Hf;
    try discriminate.
  cbn [Py.get_attr] in H. rewrite !bind_Ret_l in H.
  repeat (let x := fresh "x" in let Hx := fresh "Hx" in
          apply bind_Ret in H as (x & Hx & H); try rewrite bind_Ret_l in H).
  injection H as <-. eexists fields, _. split; [done|]. split; [reflexivity|].
  simplify_eq. simpl. split_and!; done.
Qed.


(** X7. The derived tasks of a returned record are always present, and
    they are a function of its title, description, status, issue type and
    comments alone: two records that agree on these have the same derived
    tasks. *)
Theorem derived_tasks_present_and_pure reformat utcnow issue comments_data r :
  transform_issue reformat utcnow issue comments_data = Some r ->
  derived_tasks r = Some (create_derived_tasks r) /\
  forall r', title r' = title r -> description r' = description r ->
             status r' = status r -> issue_type r' = issue_type r ->
             comments r' = comments r ->
             create_derived_tasks r' = create_derived_tasks r.
Proof.
  intros (fields & T & _ & -> & _)%transform_issue_inv. split; [done|].
  intros r' H1 H2 H3 H4 H5. unfold create_derived_tasks.
  by rewrite H1, H2, H3, H4, H5.
Qed.

Lemma derived_tasks_present_and_pure_witness :
  exists r,
    transform_issue (fun _ => None) "2024-01-01T00:00:00" sample_issue sample_payload = Some r /\
    derived_tasks r = Some (create_derived_tasks r).
Proof.
  eexists. split; [reflexivity|].
  apply (derived_tasks_present_and_pure (fun _ => None) "2024-01-01T00:00:00"
           sample_issue sample_payload).
  reflexivity.
Defined.

Lemma length_append (a b : string) :
  String.length (a +:+ b) = (String.length a + String.length b)%nat.
Proof.
  induction a as [|c a IH]; [done|].
  rewrite StrProperties.append_cons. cbn [String.length Nat.add]. by f_equal.
Qed.

Lemma length_take (n : nat) (s : string) : (String.length (Str.take n s) <= n)%nat.
Proof.
  unfold Str.take. revert s. induction n as [|n IH]; intros s.
  - by destruct s.
  - destruct s as [|c s]; simpl; [lia|]. specialize (IH s). lia.
Qed.

Lemma take_all (n : nat) (s : string) : (String.length s <= n)%nat -> Str.take n s = s.
Proof.
  unfold Str.take. revert s. induction n as [|n IH]; intros s Hs.
  - destruct s; [done|simpl in Hs; lia].
  - destruct s as [|c s]; [done|]. simpl in *. rewrite IH; [done|lia].
Qed.

(** X9. The derived tasks respect their truncation lengths, for every
    record: the Q&A context is the first 1000 characters of the
    summarization input, the classification input is at most 502
    characters longer than the title, and the Q&A answer is the title
    alone when the description is empty and at most 203 characters longer
    than the title otherwise. *)
Theorem derived_tasks_truncation (r : record) :
  let tasks := create_derived_tasks r in
  context (qa_generation_task tasks) = Str.take 1000 (sum_input (summarization_task tasks)) /\
  (String.length (context (qa_generation_task tasks)) <= 1000)%nat /\
  (String.length (cls_input (classification_task tasks)) <=
     String.length (title r) + 502)%nat /\
  (description r = "" -> answer (qa_generation_task tasks) = title r) /\
  (String.length (answer (qa_generation_task tasks)) <= String.length (title r) + 203)%nat.
Proof.
  unfold create_derived_tasks. cbn zeta. cbn [context qa_generation_task sum_input
    summarization_task cls_input classification_task answer].
  set (full_text := title r +:+ _).
  assert (Hctx : (if (1000 <? String.length full_text)%nat
                  then Str.take 1000 full_text else full_text) = Str.take 1000 full_text).
  { destruct (Nat.ltb_spec 1000 (String.length full_text)); [done|].
    symmetry. by apply take_all. }
  split_and!.
  - done.
  - rewrite Hctx. apply length_take.
  - rewrite !length_append. pose proof (length_take 500 (description r)).
    change (String.length Str.newline) with 1%nat. lia.
  - by intros ->.
  - destruct (String.eqb (description r) ""); [lia|].
    rewrite !length_append. pose proof (length_take 200 (description r)).
    change (String.length " - ") with 3%nat. lia.
Qed.

Lemma derived_tasks_truncation_witness :
  answer (qa_generation_task
            (create_derived_tasks
               (Record_ (JStr "K") "" "Title" "" "" "" "" "" "" JNull JNull JNull [] [] [] 0
                        (Metadata (JStr "K") "" "") None))) = "Title".
Proof.
  apply (derived_tasks_truncation
           (Record_ (JStr "K") "" "Title" "" "" "" "" "" "" JNull JNull JNull [] [] [] 0
                    (Metadata (JStr "K") "" "") None)).
  reflexivity.
Defined.

Lemma strip_strip (s : string) : Str.strip (Str.strip s) = Str.strip s.
Proof.
  destruct (StrProperties.strip_trimmed s) as [Hl Hr].
  unfold Str.strip at 1. by rewrite Hl.
Qed.

(** X10. Except for a mapping resolved by its [name], [displayName] or
    [value] entry, whose text is returned as it is, the text
    [extract_text_content] returns is trimmed, and extracting it again
    returns it unchanged. *)
Theorem extract_text_content_trimmed (v : json) (text : string) :
  extract_text_content v = Ret text -> resolved_by_entry v = false ->
  Str.strip text = text /\ extract_text_content (JStr text) = Ret text.
Proof.
  intros Hv Hres.
  assert (H : Str.strip text = text); [|by simpl; rewrite H].
  destruct v as [| | | | | |d]; simpl in *; try (injection Hv as <-; apply strip_strip).
  - by injection Hv as <-.
  - destruct (Py.lookup d "rendered") as [[]|]; try discriminate.
    + injection Hv as <-. apply strip_strip.
    + destruct (Py.lookup d "name"); [by rewrite bool_decide_eq_true_2 in Hres by eauto|].
      destruct (Py.lookup d "displayName");
        [by rewrite (bool_decide_eq_true_2 (is_Some (Some _))), orb_true_r in Hres by eauto|].
      destruct (Py.lookup d "value");
        [by rewrite (bool_decide_eq_true_2 (is_Some (Some _))), orb_true_r in Hres by eauto|].
      injection Hv as <-. apply strip_strip.
Qed.

Lemma extract_text_content_trimmed_witness :
  Str.strip "Fix the bug" = "Fix the bug" /\
  extract_text_content (JStr "Fix the bug") = Ret "Fix the bug".
Proof.
  apply (extract_text_content_trimmed
           (JObj [("rendered", JStr "<p>Fix  the <b>bug</b></p> ")])); reflexivity.
Defined.


Lemma remove_tags_from_plain (s : string) :
  Str.contains_char "<" s = false -> Str.remove_tags_from 0 s = s.
Proof.
  induction s as [|a s IH]; [done|]. simpl.
  intros [Ha Hs]%orb_false_elim. rewrite Ha. by rewrite IH.
Qed.

Lemma remove_tags_from_prefix (pre s : string) :
  Str.contains_char "<" pre = false ->
  Str.remove_tags_from 0 (pre +:+ s) = pre +:+ Str.remove_tags_from 0 s.
Proof.
  induction pre as [|a pre IH]; [done|]. simpl.
  intros [Ha Hs]%orb_false_elim. rewrite !StrProperties.append_cons.
  cbn [Str.remove_tags_from]. rewrite Ha. by rewrite IH.
Qed.

(** X11. The tag-removal pass leaves a text without [<] as it is, and after
    a part without [<] it removes a tag, that is a [<], a name that is not
    empty and has no [>], and a [>], and goes on with what follows. *)
Theorem remove_tags_plain_and_tag (pre name rest : string) :
  Str.contains_char "<" pre = false ->
  Str.remove_tags pre = pre /\
  (name <> "" -> Str.contains_char ">" name = false ->
   Str.remove_tags (pre +:+ String "<" (name +:+ String ">" rest)) =
     pre +:+ Str.remove_tags rest).
Proof.
  intros Hpre. split; [by apply remove_tags_from_plain|].
  intros Hne Hname. unfold Str.remove_tags. rewrite remove_tags_from_prefix by done.
  f_equal. by apply StrProperties.remove_tags_tag.
Qed.

Lemma remove_tags_plain_and_tag_witness :
  Str.remove_tags "Fix " = "Fix " /\
  Str.remove_tags ("Fix " +:+ String "<" ("b" +:+ String ">" "bug</b>")) =
    "Fix " +:+ Str.remove_tags "bug</b>".
Proof.
  destruct (remove_tags_plain_and_tag "Fix " "b" "bug</b>") as [H1 H2]; [reflexivity|].
  split; [exact H1|]. apply H2; [discriminate|reflexivity].
Defined.

(** X12. When the comments payload is absent or empty and the fields have
    no [comment] entry, or an empty one, a returned record has no comments
    and a [comment_count] of zero. *)
Theorem transform_issue_without_comments reformat utcnow issue comments_data r :
  transform_issue reformat utcnow issue comments_data = Some r ->
  Py.truthy comments_data = false ->
  (forall fields, Py.get issue "fields" (JObj []) = JObj fields ->
                  Py.truthy (Py.get fields "comment" (JObj [])) = false) ->
  comments r = [] /\ comment_count r = 0%nat.
Proof.
  intros ((fields & Hf & _) & Hc & Hn & _)%transform_issue_Some Hcd Hfield.
  unfold extract_comments in Hc. rewrite Hcd, Hf in Hc.
  cbn [Py.get_attr] in Hc. rewrite !bind_Ret_l in Hc.
  rewrite (Hfield fields Hf) in Hc. rewrite bind_Ret_l in Hc.
  injection Hc as Hc. rewrite <- Hc in Hn |- *. by split.
Qed.

Lemma transform_issue_without_comments_witness :
  exists r,
    transform_issue (fun _ => None) "2024-01-01T00:00:00"
      [("key", JStr "X-1"); ("fields", JObj [("summary", JStr "Crash")])] JNull = Some r /\
    comments r = [] /\ comment_count r = 0%nat.
Proof.
  eexists. split; [reflexivity|].
  apply (transform_issue_without_comments (fun _ => None) "2024-01-01T00:00:00"
           [("key", JStr "X-1"); ("fields", JObj [("summary", JStr "Crash")])] JNull).
  - reflexivity.
  - reflexivity.
  - intros fields [= <-]. reflexivity.
Defined.

(** X13. Without a comments payload, the embedded comments are
    de-duplicated among themselves: the first one is always kept, the
    comments kept are in their order and have pairwise distinct bodies, and
    every embedded body is the body of a comment kept. *)
Theorem embedded_comments_deduplicated (reformat : string -> option string)
    (issue fields comment_field : list (string * json)) (comments_data : json)
    (embedded : list json) (E : list comment) :
  Py.truthy comments_data = false ->
  Py.lookup issue "fields" = Some (JObj fields) ->
  Py.lookup fields "comment" = Some (JObj comment_field) ->
  Py.lookup comment_field "comments" = Some (JArr embedded) ->
  mapM (build_comment reformat) embedded = Ret E ->
  exists E',
    extract_comments reformat issue comments_data = Ret E' /\
    sublist E' E /\ head E' = head E /\
    NoDup (body <$> E') /\
    (forall e, e ∈ E -> body e ∈ body <$> E').
Proof.
  intros Hcd Hf Hc He HE.
  assert (Hext : extract_comments reformat issue comments_data =
                 add_embedded reformat embedded []).
  { unfold extract_comments. rewrite Hcd, bind_Ret_l.
    rewrite (get_lookup _ _ _ _ Hf), (get_attr_lookup _ _ _ _ Hc), bind_Ret_l.
    rewrite (lookup_truthy _ _ _ He), (contains_lookup _ _ _ He), bind_Ret_l.
    rewrite (subscript_lookup _ _ _ He), bind_Ret_l. cbn [Py.iter].
    by rewrite bind_Ret_l. }
  destruct (add_embedded_spec reformat embedded E [] HE)
    as (E' & Hadd & Hsub & Hnd & _ & Hall).
  exists E'. rewrite Hext. split; [done|]. split; [done|]. split; [|by split].
  destruct embedded as [|c embedded'].
  - injection HE as <-. by apply sublist_nil_r in Hsub as ->.
  - apply mapM_Ret_cons in HE as (x & E0 & -> & Hx & HE0).
    cbn [add_embedded existing] in Hadd. rewrite bind_Ret_l, Hx, bind_Ret_l in Hadd.
    destruct (add_embedded_spec reformat embedded' E0 ([] ++ [x]) HE0) as (E'' & Hadd' & _).
    rewrite Hadd' in Hadd. by injection Hadd as <-.
Qed.

Lemma embedded_comments_deduplicated_witness :
  exists E',
    extract_comments (fun _ => None) sample_issue JNull = Ret E' /\
    sublist E' [Comment "Eve" "+1" JNull JNull; Comment "" "Fixed in 2.0" JNull JNull] /\
    head E' = Some (Comment "Eve" "+1" JNull JNull) /\
    NoDup (body <$> E') /\
    (forall e, e ∈ [Comment "Eve" "+1" JNull JNull; Comment "" "Fixed in 2.0" JNull JNull] ->
               body e ∈ body <$> E').
Proof.
  eapply (embedded_comments_deduplicated (fun _ => None) sample_issue); reflexivity.
Defined.









End DataTransformerMore.

(** ** More on the checkpoint store *)

Module StateManagerMore.

Import StateManager.

(** What [mark_issue_processed] does, read through the store: the list of
    the project after the call is the list before it, with the key appended
    unless it was there. *)
Lemma mark_issue_processed_spec (h : gmap loc object) (st : t) (project issue_key : string) :
  well_formed h st ->
  exists st1 h1 old,
    processed_list h st project = Ret old /\
    mark_issue_processed h st project issue_key = Ret (st1, h1) /\
    processed_list h1 st1 project =
      Ret (if bool_decide (issue_key ∈ old) then old else old ++ [issue_key]) /\
    projects st1 = projects st /\ last_updated st1 = last_updated st /\
    (forall l, h !! l <> None -> default ∅ (processed_issues st) !! project <> Some l ->
               h1 !! l = h !! l) /\
    (forall q, q <> project ->
       default ∅ (processed_issues st1) !! q = default ∅ (processed_issues st) !! q) /\
    (forall l, default ∅ (processed_issues st1) !! project = Some l ->
       default ∅ (processed_issues st) !! project = Some l \/ h !! l = None).
Proof.
  intros Hwf. unfold mark_issue_processed, processed_list.
  destruct (default ∅ (processed_issues st) !! project) as [l|] eqn:Hl.
  - destruct (Hwf project l Hl) as [items Hitems].
    unfold read_list at 1 2. rewrite Hitems. cbn [bind].
    case_bool_decide as Hin.
    + eexists _, _, items. split; [done|]. split; [done|]. simpl. rewrite Hl.
      unfold read_list. rewrite Hitems.
      split_and!; try done; [by rewrite bool_decide_eq_true_2|by left].
    + eexists _, _, items. split; [done|]. split; [done|]. simpl. rewrite Hl.
      rewrite StateManagerProperties.read_list_insert_eq.
      split_and!; try done.
      * by rewrite bool_decide_eq_false_2.
      * intros l' _ Hne. rewrite lookup_insert_ne; [done|congruence].
      * by left.
  - destruct (alloc h (PyList [])) as [l h'] eqn:Ha.
    pose proof (StateManagerProperties.alloc_fresh h (PyList [])) as [Hfresh Hh'].
    rewrite Ha in Hfresh, Hh'. simpl in Hfresh, Hh'. subst h'.
    rewrite StateManagerProperties.read_list_insert_eq. cbn [bind].
    rewrite bool_decide_eq_false_2 by apply not_elem_of_nil.
    eexists _, _, []. split; [done|]. split; [done|]. simpl.
    rewrite lookup_insert_eq, StateManagerProperties.read_list_insert_eq.
    split_and!; try done.
    + intros l' Hl' _. rewrite !lookup_insert_ne; [done|congruence|congruence].
    + intros q Hq. by rewrite lookup_insert_ne.
    + intros l' [= <-]. by right.
Qed.


Lemma get_processed_issues_reads (h : gmap loc object) (st : t) (project : string)
    (items : list string) :
  processed_list h st project = Ret items ->
  exists r h2,
    get_processed_issues h st project = Ret (r, h2) /\
    read_set h2 r = Ret (list_to_set items).
Proof.
  intros H. unfold get_processed_issues. rewrite H. cbn [bind].
  destruct (alloc h (PySet (list_to_set items))) as [r h2] eqn:Ha.
  pose proof (StateManagerProperties.alloc_fresh h (PySet (list_to_set items))) as [_ Hh2].
  rewrite Ha in Hh2. simpl in Hh2. subst h2.
  exists r, (<[r := PySet (list_to_set items)]> h). split; [done|].
  unfold read_set. by rewrite lookup_insert_eq.
Qed.

(** X16. In a well-formed state, marking a key never removes or reorders
    keys: the list of the project before the call is a prefix of the list
    after it, the key is in the list after it, and the set read after
    the call is the set that would have been read before it, with the
    key added. *)
Theorem mark_issue_processed_grows (h : gmap loc object) (st : t)
    (project issue_key : string) :
  well_formed h st ->
  exists st1 h1 old new r h2,
    processed_list h st project = Ret old /\
    mark_issue_processed h st project issue_key = Ret (st1, h1) /\
    processed_list h1 st1 project = Ret new /\
    old `prefix_of` new /\ issue_key ∈ new /\
    get_processed_issues h1 st1 project = Ret (r, h2) /\
    read_set h2 r = Ret (list_to_set old ∪ {[issue_key]}).
Proof.
  intros Hwf.
  destruct (mark_issue_processed_spec h st project issue_key Hwf)
    as (st1 & h1 & old & Hold & Hmark & Hnew & _).
  destruct (get_processed_issues_reads h1 st1 project _ Hnew) as (r & h2 & Hget & Hset).
  eexists st1, h1, old, _, r, h2. split; [done|]. split; [done|]. split; [done|].
  case_bool_decide as Hin.
  - split; [done|]. split; [done|]. split; [done|]. rewrite Hset. f_equal.
    apply set_eq. intros x. rewrite elem_of_union, elem_of_singleton, !elem_of_list_to_set.
    split; [auto|intros [?| ->]; done].
  - split; [by apply prefix_app_r|]. split; [apply elem_of_app; right; apply list_elem_of_here|].
    split; [done|]. rewrite Hset. f_equal.
    apply set_eq. intros x.
    rewrite elem_of_union, elem_of_singleton, !elem_of_list_to_set, elem_of_app,
      list_elem_of_singleton.
    done.
Qed.

Lemma mark_issue_processed_grows_witness :
  exists st1 h1 old new r h2,
    processed_list one_project_heap one_project_state "SPARK" = Ret old /\
    mark_issue_processed one_project_heap one_project_state "SPARK" "SPARK-2" = Ret (st1, h1) /\
    processed_list h1 st1 "SPARK" = Ret new /\
    old `prefix_of` new /\ "SPARK-2" ∈ new /\
    get_processed_issues h1 st1 "SPARK" = Ret (r, h2) /\
    read_set h2 r = Ret (list_to_set old ∪ {["SPARK-2"]}).
Proof.
  apply (mark_issue_processed_grows one_project_heap one_project_state).
  apply StateManagerProperties.one_project_well_formed.
Defined.

(** X17. In a well-formed state, marking keeps a list without repeated keys
    free of them, and makes it longer by exactly one when the key is new
    and by nothing when the key is already there. *)
Theorem mark_issue_processed_no_duplicates (h : gmap loc object) (st : t)
    (project issue_key : string) :
  well_formed h st ->
  exists st1 h1 old new,
    processed_list h st project = Ret old /\
    mark_issue_processed h st project issue_key = Ret (st1, h1) /\
    processed_list h1 st1 project = Ret new /\
    (NoDup old -> NoDup new) /\
    (issue_key ∈ old -> new = old) /\
    (issue_key ∉ old -> length new = S (length old)).
Proof.
  intros Hwf.
  destruct (mark_issue_processed_spec h st project issue_key Hwf)
    as (st1 & h1 & old & Hold & Hmark & Hnew & _).
  eexists st1, h1, old, _. split; [done|]. split; [done|]. split; [done|].
  case_bool_decide as Hin.
  - split; [done|]. split; [done|]. done.
  - split.
    + intros Hnd. apply NoDup_app. split; [done|]. split; [|apply NoDup_singleton].
      intros x Hx ->%list_elem_of_singleton. done.
    + split; [done|]. intros _. rewrite length_app. simpl. lia.
Qed.

Lemma mark_issue_processed_no_duplicates_witness :
  exists st1 h1 old new,
    processed_list one_project_heap one_project_state "SPARK" = Ret old /\
    mark_issue_processed one_project_heap one_project_state "SPARK" "SPARK-1" = Ret (st1, h1) /\
    processed_list h1 st1 "SPARK" = Ret new /\
    (NoDup old -> NoDup new) /\
    ("SPARK-1" ∈ old -> new = old) /\
    ("SPARK-1" ∉ old -> length new = S (length old)).
Proof.
  apply (mark_issue_processed_no_duplicates one_project_heap one_project_state).
  apply StateManagerProperties.one_project_well_formed.
Defined.

(** X18. In a well-formed state in which no two projects share a list,
    marking a key of one project leaves the list of every other project,
    every progress entry, the time stamp and every set object as they were,
    and the state after it is again well formed with no shared list. *)
Theorem mark_issue_processed_frame (h : gmap loc object) (st : t)
    (project issue_key : string) :
  well_formed h st -> separated st ->
  exists st1 h1,
    mark_issue_processed h st project issue_key = Ret (st1, h1) /\
    projects st1 = projects st /\ last_updated st1 = last_updated st /\
    (forall q, q <> project -> processed_list h1 st1 q = processed_list h st q) /\
    (forall l s, h !! l = Some (PySet s) -> h1 !! l = Some (PySet s)) /\
    well_formed h1 st1 /\ separated st1.
Proof.
  intros Hwf Hsep.
  destruct (mark_issue_processed_spec h st project issue_key Hwf)
    as (st1 & h1 & old & Hold & Hmark & Hnew & Hpr & Hlu & Hheap & Hother & Hloc).
  exists st1, h1. split; [done|]. split; [done|]. split; [done|].
  split; [|split; [|split]].
  - intros q Hq. unfold processed_list. rewrite (Hother q Hq).
    destruct (default ∅ (processed_issues st) !! q) as [l|] eqn:Hl; [|done].
    unfold read_list. rewrite Hheap; [done| |].
    + destruct (Hwf q l Hl) as [items ->]. done.
    + intros Hp. apply Hq. by apply (Hsep q project l).
  - intros l s Hl. rewrite Hheap; [done|congruence|].
    intros Hp. destruct (Hwf project l Hp) as [items Hitems]. congruence.
  - by apply (StateManagerProperties.mark_issue_processed_well_formed h h1 st st1
                project issue_key).
  - intros p q l Hp Hq.
    destruct (decide (p = project)) as [->|Hpne];
      destruct (decide (q = project)) as [->|Hqne]; [done| | |].
    + rewrite (Hother q Hqne) in Hq. destruct (Hloc l Hp) as [Hp'|Hfresh].
      * by apply (Hsep project q l).
      * destruct (Hwf q l Hq) as [items Hitems]. congruence.
    + rewrite (Hother p Hpne) in Hp. destruct (Hloc l Hq) as [Hq'|Hfresh].
      * by apply (Hsep p project l).
      * destruct (Hwf p l Hp) as [items Hitems]. congruence.
    + rewrite (Hother p Hpne) in Hp. rewrite (Hother q Hqne) in Hq.
      by apply (Hsep p q l).
Qed.

Lemma one_project_separated : separated one_project_state.
Proof.
  intros p q l Hp Hq. simpl in Hp, Hq.
  apply lookup_singleton_Some in Hp as [<- _].
  apply lookup_singleton_Some in Hq as [<- _]. done.
Defined.

Lemma mark_issue_processed_frame_witness :
  exists st1 h1,
    mark_issue_processed one_project_heap one_project_state "HADOOP" "HADOOP-7" =
      Ret (st1, h1) /\
    projects st1 = projects one_project_state /\
    last_updated st1 = last_updated one_project_state /\
    (forall q, q <> "HADOOP" ->
       processed_list h1 st1 q = processed_list one_project_heap one_project_state q) /\
    (forall l s, one_project_heap !! l = Some (PySet s) -> h1 !! l = Some (PySet s)) /\
    well_formed h1 st1 /\ separated st1.
Proof.
  apply (mark_issue_processed_frame one_project_heap one_project_state).
  - apply StateManagerProperties.one_project_well_formed.
  - apply one_project_separated.
Defined.


(** X19. [update_project_progress] followed by [get_project_progress] of
    the same project gives the offset and key just written; the entries of
    the other projects and the processed keys are untouched; and a later
    update replaces an earlier one whole, so that an update without a key
    erases the key written before. *)
Theorem update_project_progress_round_trip (st : t) (project : string) (start_at : Z)
    (last_issue_key : option string) :
  get_project_progress (update_project_progress st project start_at last_issue_key) project =
    Some (Progress start_at last_issue_key) /\
  (forall q, q <> project ->
     get_project_progress (update_project_progress st project start_at last_issue_key) q =
       get_project_progress st q) /\
  processed_issues (update_project_progress st project start_at last_issue_key) =
    processed_issues st /\
  (forall start_at' last_issue_key',
     update_project_progress
       (update_project_progress st project start_at' last_issue_key')
       project start_at last_issue_key =
     update_project_progress st project start_at last_issue_key).
Proof.
  unfold get_project_progress, update_project_progress. simpl. split_and!.
  - apply lookup_insert_eq.
  - intros q Hq. by rewrite lookup_insert_ne.
  - done.
  - intros s' k'. by rewrite insert_insert_eq.
Qed.

Lemma update_project_progress_round_trip_witness :
  get_project_progress (update_project_progress one_project_state "HADOOP" 100 None) "SPARK" =
    get_project_progress one_project_state "SPARK".
Proof.
  apply (update_project_progress_round_trip one_project_state "HADOOP" 100 None).
  discriminate.
Defined.

(** X20. After [reset_project], whatever the state was, the project has no
    progress entry, its list of processed keys reads as empty and
    [get_processed_issues] returns the empty set; resetting again changes
    nothing; and marking a key then starts a new list that holds only that
    key. *)
Theorem reset_project_clears (h : gmap loc object) (st : t) (project : string) :
  exists st',
    reset_project st project = Ret st' /\
    get_project_progress st' project = None /\
    processed_list h st' project = Ret [] /\
    (exists r h2, get_processed_issues h st' project = Ret (r, h2) /\
                  read_set h2 r = Ret ∅) /\
    reset_project st' project = Ret st' /\
    forall issue_key, exists st2 h2,
      mark_issue_processed h st' project issue_key = Ret (st2, h2) /\
      processed_list h2 st2 project = Ret [issue_key].
Proof.
  eexists. split; [apply StateManagerProperties.reset_project_spec|].
  assert (Hp : default ∅ (delete project <$> processed_issues st) !! project = None).
  { rewrite StateManagerProperties.default_delete. by rewrite decide_True. }
  split_and!.
  - unfold get_project_progress. simpl.
    rewrite StateManagerProperties.default_delete. by rewrite decide_True.
  - unfold processed_list. simpl. by rewrite Hp.
  - apply (get_processed_issues_reads h _ project []).
    unfold processed_list. simpl. by rewrite Hp.
  - rewrite StateManagerProperties.reset_project_spec. simpl. f_equal. f_equal.
    + destruct (projects st) as [d|]; simpl; [|done]. f_equal. apply delete_id.
      apply lookup_delete_eq.
    + destruct (processed_issues st) as [d|]; simpl; [|done]. f_equal. apply delete_id.
      apply lookup_delete_eq.
  - intros issue_key. unfold mark_issue_processed. simpl. rewrite Hp.
    destruct (alloc h (PyList [])) as [l h'] eqn:Ha.
    pose proof (StateManagerProperties.alloc_fresh h (PyList [])) as [_ Hh'].
    rewrite Ha in Hh'. simpl in Hh'. subst h'.
    rewrite StateManagerProperties.read_list_insert_eq. cbn [bind].
    rewrite bool_decide_eq_false_2 by apply not_elem_of_nil.
    eexists _, _. split; [done|]. unfold processed_list. simpl.
    by rewrite lookup_insert_eq, StateManagerProperties.read_list_insert_eq.
Qed.

End StateManagerMore.

(** ** The scraper *)

Module JiraScraperProperties.

Import JiraScraper.

(** *** Running a computation *)

Lemma post_ret {A : Type} (a : A) (w : world) Q X : Q a w -> post (ret a) w Q X.
Proof. done. Qed.

Lemma post_fail {A : Type} (f : failure) (w : world) (Q : A -> world -> Prop) X :
  X f w -> post (fail f) w Q X.
Proof. done. Qed.

Lemma post_lift {A : Type} (m : py A) (w : world) Q X :
  (forall a, m = Ret a -> Q a w) -> (forall e, m = Raise e -> X (Raised e) w) ->
  post (lift m) w Q X.
Proof. destruct m; unfold post; simpl; auto. Qed.

Lemma post_and_then {A B : Type} (m : M A) (k : A -> M B) (w : world) Q X :
  post m w (fun a w' => post (k a) w' Q X) X -> post (and_then m k) w Q X.
Proof. unfold post, and_then. by destruct (m w) as [[a|f] w']. Qed.

Lemma post_seq {A B : Type} (m : M A) (k : A -> M B) (w : world)
    (Q1 : A -> world -> Prop) Q X :
  post m w Q1 X -> (forall a w', Q1 a w' -> post (k a) w' Q X) ->
  post (and_then m k) w Q X.
Proof.
  intros H1 H2. unfold post, and_then in *.
  destruct (m w) as [[a|f] w']; [by apply H2|done].
Qed.

Lemma post_mono {A : Type} (m : M A) (w : world) (Q Q' : A -> world -> Prop)
    (X X' : failure -> world -> Prop) :
  post m w Q X -> (forall a w', Q a w' -> Q' a w') -> (forall f w', X f w' -> X' f w') ->
  post m w Q' X'.
Proof. unfold post. destruct (m w) as [[a|f] w']; auto. Qed.

Lemma post_elim {A : Type} (m : M A) (w w' : world) (r : ending A) Q X :
  post m w Q X -> m w = (r, w') ->
  match r with Returned a => Q a w' | Failed f => X f w' end.
Proof. unfold post. intros H Heq. by rewrite Heq in H. Qed.

(** *** The loop ends *)

Lemma finishes_ret {A : Type} (a : A) : finishes (ret a).
Proof. by intros w. Qed.

Lemma finishes_lift {A : Type} (m : py A) : finishes (lift m).
Proof. intros w. by destruct m. Qed.

Lemma finishes_and_then {A B : Type} (m : M A) (k : A -> M B) :
  finishes m -> (forall a, finishes (k a)) -> finishes (and_then m k).
Proof.
  intros Hm Hk w. apply post_and_then. eapply post_mono; [apply Hm| |done].
  intros a w' _. apply Hk.
Qed.

Lemma finishes_sleep (d : Q) : finishes (sleep d).
Proof. intros w. unfold post, sleep. by destruct (JiraClient.sleep d) as [l [[]|e]]. Qed.

Section Run.

Variable E : environment.
Variable s : t.

Lemma finishes_send (r : request) : finishes (send E r).
Proof. intros w. unfold post, send. by destruct (answer E (calls w)). Qed.

Lemma finishes_mark_issue_processed (project issue_key : string) :
  finishes (mark_issue_processed project issue_key).
Proof.
  intros w. unfold post, mark_issue_processed.
  by destruct (StateManager.mark_issue_processed _ _ _ _) as [[st h]|e].
Qed.

Lemma finishes_save_batch project current_start issue_key batch :
  finishes (save_batch E s project current_start issue_key batch).
Proof. intros w. unfold post, save_batch. by destruct (_ <=? _). Qed.

Lemma finishes_process_issues project processed current_start issues batch total :
  finishes (process_issues E s project processed current_start issues batch total).
Proof.
  revert batch total. induction issues as [|issue issues IH]; intros batch total.
  { apply finishes_ret. }
  cbn [process_issues]. destruct issue; try by intros w.
  destruct (Py.get m "key" (JStr "")); try by intros w.
  case_bool_decide; [apply IH|].
  apply finishes_and_then.
  { destruct (negb _); [apply finishes_sleep|apply finishes_ret]. }
  intros _. apply finishes_and_then; [apply finishes_send|]. intros comments_data.
  apply finishes_and_then; [by intros w|]. intros transformed.
  apply finishes_and_then.
  { destruct transformed; [|apply finishes_ret].
    apply finishes_and_then; [apply finishes_mark_issue_processed|].
    intros _. apply finishes_ret. }
  intros [batch' total']. apply finishes_and_then; [apply finishes_save_batch|].
  intros batch''. apply IH.
Qed.

Lemma post_finishes {A : Type} (m : M A) (w : world) (Q : A -> world -> Prop) :
  finishes m -> (forall a w', Q a w') -> post m w Q (fun f _ => f <> OutOfFuel).
Proof. intros Hm HQ. eapply post_mono; [apply Hm|auto|auto]. Qed.

Lemma agree_refl {A : Type} (m : M A) (w : world) : finishes m -> agree m m w.
Proof.
  intros Hm. split; [done|]. specialize (Hm w). unfold post in Hm.
  destruct (m w) as [[a|f] w']; simpl; congruence.
Qed.

Lemma agree_and_then {A B : Type} (m : M A) (k1 k2 : A -> M B) (w : world) :
  post m w (fun a w' => agree (k1 a) (k2 a) w') (fun f _ => f <> OutOfFuel) ->
  agree (and_then m k1) (and_then m k2) w.
Proof.
  unfold post, agree, and_then. destruct (m w) as [[a|f] w']; [done|].
  intros Hf. split; [done|]. simpl. congruence.
Qed.

Lemma iter_truthy_length (v : json) (l : list json) :
  Py.truthy v = true -> Py.iter v = Ret l -> (0 < length l)%nat.
Proof.
  destruct v as [| | | |x|[|y l']|[|y d]]; try discriminate; intros Ht [= <-].
  - destruct x as [|a x]; [discriminate|]. cbn. lia.
  - cbn. lia.
  - cbn. lia.
Qed.

Lemma agree_and_then_l {A B : Type} (m1 m2 : M A) (k : A -> M B) (w : world) :
  agree m1 m2 w -> (forall a, finishes (k a)) -> agree (and_then m1 k) (and_then m2 k) w.
Proof.
  unfold agree, and_then. intros [Heq Hne] Hk. rewrite <- Heq.
  destruct (m1 w) as [[a|f] w'].
  2:{ split; [done|]. simpl in *. intros [= ->]. by apply Hne. }
  split; [done|].
  specialize (Hk a w'). unfold post in Hk. destruct (k a w') as [[b|f] w'']; simpl; congruence.
Qed.

(** The iterations still to come: five for each issue between the cursor
    and the total, less the failures in a row so far. *)
Lemma page_agree project processed total T c1 c2 cs cf batch ts w :
  (forall n, less_than E n total = Ret (n <? T)) ->
  (cf <= 4)%nat ->
  (forall cs' cf' batch' ts' w',
     (cf' <= 4)%nat ->
     (5 * Z.to_nat (T - cs') + 5 - cf' < 5 * Z.to_nat (T - cs) + 5 - cf)%nat ->
     agree (c1 cs' cf' batch' ts') (c2 cs' cf' batch' ts') w') ->
  agree (page E s c1 project processed total cs cf batch ts)
        (page E s c2 project processed total cs cf batch ts) w.
Proof.
  intros Htotal Hcf Hc. unfold page. apply agree_and_then. rewrite Htotal.
  apply post_lift; [|done]. intros more [= <-].
  destruct (Z.ltb_spec cs T) as [Hlt|Hge]; cbn [negb]; [|by apply agree_refl, finishes_ret].
  apply agree_and_then, post_finishes; [apply finishes_sleep|]. intros _ w1.
  apply agree_and_then, post_finishes; [apply finishes_send|]. intros search_results w2.
  destruct (negb (Py.truthy search_results)).
  - destruct (Nat.leb_spec 5 (S cf)); [by apply agree_refl, finishes_ret|].
    apply agree_and_then, post_finishes; [apply finishes_sleep|]. intros _ w3.
    apply Hc; lia.
  - apply agree_and_then, post_finishes; [apply finishes_lift|]. intros issues w3.
    destruct (Py.truthy issues) eqn:Htruthy; cbn [negb];
      [|by apply agree_refl, finishes_ret].
    apply agree_and_then. apply post_lift; [|done]. intros l Hl.
    pose proof (iter_truthy_length issues l Htruthy Hl) as Hlen.
    apply agree_and_then, post_finishes; [apply finishes_process_issues|].
    intros [batch' ts'] w4.
    apply agree_and_then, post_finishes; [by intros w'|]. intros _ w5.
    destruct (_ <? _); [by apply agree_refl, finishes_ret|].
    apply Hc; lia.
Qed.

Lemma paginate_agree project processed total T :
  (forall n, less_than E n total = Ret (n <? T)) ->
  forall fuel cs cf batch ts w,
    (cf <= 4)%nat -> (5 * Z.to_nat (T - cs) + 5 - cf <= fuel)%nat ->
    agree (paginate E s (S fuel) project processed total cs cf batch ts)
          (paginate E s fuel project processed total cs cf batch ts) w.
Proof.
  intros Htotal. induction fuel as [|fuel IH]; intros cs cf batch ts w Hcf Hfuel; [lia|].
  change (agree (page E s (paginate E s (S fuel) project processed total)
                   project processed total cs cf batch ts)
                (page E s (paginate E s fuel project processed total)
                   project processed total cs cf batch ts) w).
  apply (page_agree _ _ _ T); [done|done|].
  intros cs' cf' batch' ts' w' Hcf' Hlt. apply IH; [done|lia].
Qed.

Lemma paginate_enough project processed total T fuel fuel' cs cf batch ts w :
  (forall n, less_than E n total = Ret (n <? T)) ->
  (cf <= 4)%nat -> (5 * Z.to_nat (T - cs) + 5 - cf <= fuel)%nat -> (fuel <= fuel')%nat ->
  agree (paginate E s fuel' project processed total cs cf batch ts)
        (paginate E s fuel project processed total cs cf batch ts) w.
Proof.
  intros Htotal Hcf Hfuel Hle. induction Hle as [|fuel' Hle IH].
  - destruct fuel as [|fuel]; [lia|].
    destruct (paginate_agree project processed total T Htotal (S fuel) cs cf batch ts w)
      as [H1 H2]; [done|lia|].
    split; [done|]. by rewrite <- H1.
  - destruct (paginate_agree project processed total T Htotal fuel' cs cf batch ts w)
      as [H1 H2]; [done|lia|].
    destruct IH as [H3 H4]. split; [by rewrite H1|]. by rewrite H1.
Qed.

(** *** What each step does to the world *)

Lemma send_post (r : request) (w : world) (Q : json -> world -> Prop) X :
  (forall w',
     store w' = store w -> calls w' = S (calls w) -> ticks w' = ticks w ->
     log w' = log w ++ [Call r (run_of E (calls w))] ->
     match answer E (calls w) with
     | Ret v => Q v w'
     | Raise e => X (Raised e) w'
     end) ->
  post (send E r) w Q X.
Proof.
  intros H. unfold post, send.
  specialize (H {| store := store w; calls := S (calls w); ticks := ticks w;
                   log := log w ++ [Call r (run_of E (calls w))] |}
                eq_refl eq_refl eq_refl eq_refl).
  by destruct (answer E (calls w)).
Qed.

Lemma sleep_post (d : Q) (w : world) (Q : unit -> world -> Prop) X :
  (forall w',
     store w' = store w -> calls w' = calls w -> ticks w' = ticks w ->
     log w' = log w ++ [Sleep d] -> Q tt w') ->
  (forall e w',
     store w' = store w -> calls w' = calls w -> ticks w' = ticks w ->
     log w' = log w -> X (Raised e) w') ->
  post (sleep d) w Q X.
Proof.
  intros HQ HX. unfold post, sleep.
  destruct (JiraClient.sleep d) as [l [[]|e]] eqn:Hs.
  - apply JiraClientProperties.sleep_returns in Hs as [-> _]. by apply HQ.
  - apply JiraClientProperties.sleep_raises in Hs as [-> _].
    apply HX; try done. simpl. apply app_nil_r.
Qed.

Lemma get_processed_issues_post (project : string) (w : world)
    (Q : gset string -> world -> Prop) X :
  (forall items w',
     StateManager.processed_list (heap (store w)) (state (store w)) project = Ret items ->
     state (store w') = state (store w) ->
     state_file (store w') = state_file (store w) ->
     output (store w') = output (store w) ->
     calls w' = calls w -> ticks w' = ticks w -> log w' = log w ->
     (exists r o, heap (store w) !! r = None /\ heap (store w') = <[r := o]> (heap (store w))) ->
     Q (list_to_set items) w') ->
  (forall e, X (Raised e) w) ->
  post (get_processed_issues project) w Q X.
Proof.
  intros HQ HX. unfold post, get_processed_issues, StateManager.get_processed_issues.
  destruct (StateManager.processed_list _ _ _) as [items|e] eqn:Hitems; cbn [bind]; [|done].
  pose proof (StateManagerProperties.alloc_fresh (heap (store w))
                (StateManager.PySet (list_to_set items))) as [Hfresh Hheap].
  destruct (StateManager.alloc _ _) as [r h] eqn:Ha. simpl in Hfresh, Hheap. subst h.
  unfold StateManager.read_set. rewrite lookup_insert_eq. simpl.
  apply (HQ items); try done. simpl. eauto.
Qed.

(** *** Enough iterations *)

Lemma scrape_project_enough (project : string) (w : world) (d : list (string * json))
    (T : Z) (fuel fuel' : nat) :
  answer E (S (calls w)) = Ret (JObj d) ->
  Py.get d "total" (JInt 0) = JInt T ->
  (5 * Z.to_nat
         (T - match StateManager.get_project_progress (state (store w)) project with
              | Some progress => StateManager.start_at progress
              | None => 0
              end) + 5 <= fuel)%nat ->
  (fuel <= fuel')%nat ->
  agree (scrape_project E s fuel' project) (scrape_project E s fuel project) w.
Proof.
  intros Hanswer Htotal Hfuel Hle. unfold scrape_project.
  apply agree_and_then, send_post. intros w1 Hs1 Hc1 _ _.
  destruct (answer E (calls w)) as [project_info|e]; [|done].
  destruct (negb (Py.truthy project_info)); [by apply agree_refl, finishes_ret|].
  apply agree_and_then, post_lift; [|done]. intros _ _.
  apply agree_and_then, get_processed_issues_post; [|done].
  intros items w2 _ Hst2 _ _ Hc2 _ _ _.
  apply agree_and_then. unfold post, get_start_at. rewrite Hst2, Hs1.
  apply agree_and_then, send_post. intros w3 _ _ _ _. rewrite Hc2, Hc1, Hanswer.
  cbn [Py.truthy negb].
  destruct d as [|kv d]; [by apply agree_refl, finishes_ret|].
  apply agree_and_then, post_lift; [|done]. intros total. cbn [Py.get_attr].
  rewrite Htotal. intros [= <-].
  apply agree_and_then, post_finishes; [apply finishes_lift|]. intros _ w4.
  apply agree_and_then_l.
  - apply (paginate_enough _ _ _ T); [done|lia|lia|done].
  - intros [batch total_scraped].
    apply finishes_and_then; [|intros; apply finishes_ret].
    destruct batch; [apply finishes_ret|].
    apply finishes_and_then; [by intros w'|]. by intros _ w'.
Qed.

(** *** What a run keeps true *)

Lemma write_jsonl_app (data more : list (option DataTransformer.record)) (content : string) :
  DataTransformer.write_jsonl (dumps E) (data ++ more) content =
    DataTransformer.write_jsonl (dumps E) more
      (DataTransformer.write_jsonl (dumps E) data content).
Proof. revert content. induction data as [|item data IH]; intros content; [done|]. simpl. by rewrite IH. Qed.

Lemma fetches_none_of_refl (old : list string) (w : world) : fetches_none_of old w w.
Proof. exists []. split; [by rewrite app_nil_r|]. by intros k run H%elem_of_nil. Qed.

Lemma fetches_none_of_same (old : list string) (w0 w w' : world) :
  fetches_none_of old w0 w -> log w' = log w -> fetches_none_of old w0 w'.
Proof. intros (l & Hl & H) Hlog. exists l. by rewrite Hlog. Qed.

Lemma fetches_none_of_step (old : list string) (w0 w w' : world) (e : event) :
  fetches_none_of old w0 w -> log w' = log w ++ [e] ->
  (forall k run, e = Call (GetIssueComments k) run -> k ∉ old) ->
  fetches_none_of old w0 w'.
Proof.
  intros (l & Hl & H) Hlog He. exists (l ++ [e]). split; [by rewrite Hlog, Hl, app_assoc|].
  intros k run [Hin|Hin%list_elem_of_singleton]%elem_of_app; [by apply (H k run)|].
  by apply (He k run).
Qed.

Lemma checkpointed_same (project : string) (old : list string)
    (records : list DataTransformer.record) (w0 w w' : world) :
  checkpointed E project old records w0 w ->
  output (store w') = output (store w) -> state_file (store w') = state_file (store w) ->
  checkpointed E project old records w0 w'.
Proof.
  intros (Hout & Hkeys & Hfile) Ho Hf. split; [by rewrite Ho|]. split; [|by rewrite Hf].
  intros r Hr. destruct (Hkeys r Hr) as (k & Hk & Hnew & Hin). exists k.
  split; [done|]. split; [done|]. unfold saved_keys in *. by rewrite Hf.
Qed.

Lemma progressed_same (project : string) (old : list string) (w0 w w' : world)
    written batch total :
  progressed E project old w0 written batch total w ->
  store w' = store w -> log w' = log w ->
  progressed E project old w0 written batch total w'.
Proof.
  intros (H1 & H2 & H3 & H4) Hs Hl. split_and!; [|apply (checkpointed_same _ _ _ _ w)| |];
    try done; try by rewrite Hs.
  by apply (fetches_none_of_same _ _ w).
Qed.

Lemma progressed_step (project : string) (old : list string) (w0 w w' : world) (e : event)
    written batch total :
  progressed E project old w0 written batch total w ->
  store w' = store w -> log w' = log w ++ [e] ->
  (forall k run, e = Call (GetIssueComments k) run -> k ∉ old) ->
  progressed E project old w0 written batch total w'.
Proof.
  intros (H1 & H2 & H3 & H4) Hs Hl He.
  split_and!; [|apply (checkpointed_same _ _ _ _ w)| |]; try done; try by rewrite Hs.
  by apply (fetches_none_of_step _ _ w _ e).
Qed.

Lemma progressed_failed (project : string) (old : list string) (w0 w : world)
    written batch total :
  progressed E project old w0 written batch total w ->
  exists written', fetches_none_of old w0 w /\ checkpointed E project old written' w0 w.
Proof. intros (H1 & H2 & _). by exists written. Qed.

(** Marking the key of a new record. *)
Lemma tracked_mark (project : string) (old : list string)
    (records : list DataTransformer.record) (x : storage) (r : DataTransformer.record)
    (k : string) :
  tracked project old records x ->
  DataTransformer.issue_key r = JStr k -> k ∉ old ->
  exists st1 h1,
    StateManager.mark_issue_processed (heap x) (state x) project k = Ret (st1, h1) /\
    tracked project old (records ++ [r])
      {| state := st1; heap := h1; state_file := state_file x; output := output x |}.
Proof.
  intros (Hwf & new & Hnew & Hprefix & Hrecs & Hkeys) Hr Hk.
  destruct (StateManagerMore.mark_issue_processed_spec (heap x) (state x) project k Hwf)
    as (st1 & h1 & new' & Hnew' & Hmark & Hafter & _).
  rewrite Hnew in Hnew'. injection Hnew' as <-.
  exists st1, h1. split; [done|]. split; simpl.
  { by apply (StateManagerProperties.mark_issue_processed_well_formed
                (heap x) h1 (state x) st1 project k). }
  eexists. split; [exact Hafter|]. case_bool_decide as Hin.
  - split; [done|]. split.
    + intros r' [Hr'|Hr'%list_elem_of_singleton]%elem_of_app; [by apply Hrecs|].
      subst r'. by exists k.
    + intros k' Hk'. destruct (Hkeys k' Hk') as [?|(r' & Hr' & Hkr')]; [by left|].
      right. exists r'. split; [|done]. apply elem_of_app. by left.
  - split; [by apply prefix_app_r|]. split.
    + intros r' [Hr'|Hr'%list_elem_of_singleton]%elem_of_app.
      * destruct (Hrecs r' Hr') as (k' & ? & ? & ?). exists k'. split_and!; try done.
        apply elem_of_app. by left.
      * subst r'. exists k. split_and!; try done. apply elem_of_app. right.
        apply list_elem_of_here.
    + intros k' [Hk'|Hk'%list_elem_of_singleton]%elem_of_app.
      * destruct (Hkeys k' Hk') as [?|(r' & Hr' & Hkr')]; [by left|].
        right. exists r'. split; [|done]. apply elem_of_app. by left.
      * subst k'. right. exists r. split; [|done]. apply elem_of_app. right.
        apply list_elem_of_here.
Qed.

(** Writing the batch and saving the state; [st] is the state saved, which
    has the lists of the state in memory. *)
Lemma progressed_saved (project : string) (old : list string) (w0 w w' : world)
    written batch total (st : StateManager.t) :
  progressed E project old w0 written batch total w ->
  StateManager.processed_issues st = StateManager.processed_issues (state (store w)) ->
  state (store w') = st -> heap (store w') = heap (store w) ->
  state_file (store w') = (st, heap (store w)) ->
  output (store w') =
    DataTransformer.write_jsonl (dumps E) (map Some batch) (output (store w)) ->
  log w' = log w ->
  progressed E project old w0 (written ++ batch) [] total w'.
Proof.
  intros (H1 & (Hout & Hsaved & _) & H3 & Hwf & new & Hnew & Hprefix & Hrecs & Hkeys)
    Hlists Hst Hheap Hfile Houtput Hlog.
  assert (Hwf' : StateManager.well_formed (heap (store w)) st).
  { intros q l Hl. apply (Hwf q l). by rewrite <- Hlists. }
  assert (Hnew' : StateManager.processed_list (heap (store w)) st project = Ret new).
  { unfold StateManager.processed_list in *. by rewrite Hlists. }
  split_and!.
  - by apply (fetches_none_of_same _ _ w).
  - split_and!.
    + by rewrite Houtput, Hout, map_app, write_jsonl_app.
    + intros r Hr. destruct (Hrecs r Hr) as (k & Hk & Hfresh & Hin). exists k.
      split; [done|]. split; [done|]. unfold saved_keys. rewrite Hfile. simpl.
      by rewrite Hnew'.
    + right. by rewrite Hfile.
  - rewrite length_app. simpl. lia.
  - rewrite app_nil_r. split.
    + by rewrite Hst, Hheap.
    + exists new. by rewrite Hst, Hheap.
Qed.

Lemma save_batch_post (project : string) (old : list string) (w0 w : world)
    (current_start : Z) (issue_key : string) written batch total :
  progressed E project old w0 written batch total w ->
  post (save_batch E s project current_start issue_key batch) w
    (fun batch' w' => exists written', progressed E project old w0 written' batch' total w')
    (fun _ _ => False).
Proof.
  intros H. unfold save_batch. destruct (_ <=? _); [|by exists written].
  unfold post. simpl. exists (written ++ batch).
  eapply (progressed_saved _ _ _ w);
    [exact H| |simpl; reflexivity|reflexivity|reflexivity|reflexivity|reflexivity].
  reflexivity.
Qed.

Lemma process_issues_post (project : string) (old : list string) (w0 : world)
    (current_start : Z) (issues : list json) :
  forall written batch total w,
    progressed E project old w0 written batch total w ->
    post (process_issues E s project (list_to_set old) current_start issues batch total) w
      (fun bt w' => exists written', progressed E project old w0 written' bt.1 bt.2 w')
      (fun _ w' => exists written',
         fetches_none_of old w0 w' /\ checkpointed E project old written' w0 w').
Proof.
  induction issues as [|issue issues IH]; intros written batch total w H.
  { by exists written. }
  cbn [process_issues].
  destruct issue as [| | | | | |issue_data];
    try (apply post_fail; by apply (progressed_failed _ _ _ _ written batch total)).
  destruct (Py.get issue_data "key" (JStr "")) as [| | | |issue_key| |] eqn:Hkey;
    try (apply post_fail; by apply (progressed_failed _ _ _ _ written batch total)).
  case_bool_decide as Hin; [by apply (IH written)|].
  rewrite elem_of_list_to_set in Hin.
  apply (post_seq _ _ _ (fun _ w1 => progressed E project old w0 written batch total w1)).
  { destruct (negb _); [|done].
    apply sleep_post; [intros w1 Hs1 _ _ Hl1|intros e w1 Hs1 _ _ Hl1].
    - by apply (progressed_step _ _ _ w _ (Sleep (delay_between_requests s * (1 # 2)))).
    - apply (progressed_failed _ _ _ _ written batch total).
      by apply (progressed_same _ _ _ w). }
  clear w H. intros _ w H.
  apply post_and_then, send_post. intros w1 Hs1 _ _ Hl1.
  assert (H1 : progressed E project old w0 written batch total w1).
  { apply (progressed_step _ _ _ w _ _ _ _ _ H Hs1 Hl1). by intros k run [= <-]. }
  destruct (answer E (calls w)) as [comments_data|e];
    [|by apply (progressed_failed _ _ _ _ written batch total)].
  apply post_and_then. unfold post at 1, transform_issue.
  set (w2 := tick w1).
  assert (H2 : progressed E project old w0 written batch total w2)
    by by apply (progressed_same _ _ _ w1).
  destruct (DataTransformer.transform_issue _ _ _ _) as [r|] eqn:Hr.
  - apply DataTransformerMore.transform_issue_inv in Hr
      as (fields & T & _ & -> & Hk & _).
    apply post_and_then, post_and_then.
    destruct H2 as (Hlog & Hcheck & Htotal & Htracked).
    destruct (tracked_mark project old (written ++ batch) (store w2)
                (DataTransformer.set_derived_tasks T (DataTransformer.create_derived_tasks T))
                issue_key Htracked) as (st1 & h1 & Hmark & Htracked1).
    { simpl. by rewrite Hk, Hkey. }
    { done. }
    unfold post at 1, mark_issue_processed. rewrite Hmark.
    unfold post at 1, ret.
    apply (post_seq _ _ _ (fun batch' w' =>
             exists written', progressed E project old w0 written' batch' (S total) w')).
    + eapply post_mono;
        [apply (save_batch_post project old w0 _ current_start issue_key written _ (S total))
        |by intros a w' H'|by intros ? ? []].
      split_and!; [by apply (fetches_none_of_same _ _ w2)|
                   by apply (checkpointed_same _ _ _ _ w2)| |].
      * rewrite length_app. simpl. lia.
      * simpl. by rewrite app_assoc.
    + intros batch' w3 (written' & H3). by apply (IH written').
  - unfold post at 1, ret.
    apply (post_seq _ _ _ (fun batch' w' =>
             exists written', progressed E project old w0 written' batch' total w')).
    + eapply post_mono;
        [apply (save_batch_post project old w0 _ current_start issue_key written _ total);
         exact H2
        |by intros a w' H'|by intros ? ? []].
    + intros batch' w3 (written' & H3). by apply (IH written').
Qed.

Lemma progressed_update (project : string) (old : list string) (w0 w : world)
    written batch total (start_at : Z) (last_issue_key : option string) :
  progressed E project old w0 written batch total w ->
  post (update_project_progress project start_at last_issue_key) w
    (fun _ w' => progressed E project old w0 written batch total w') (fun _ _ => False).
Proof.
  intros (H1 & H2 & H3 & Hwf & new & Hnew & H4). unfold post. simpl.
  split_and!; [by apply (fetches_none_of_same _ _ w)|by apply (checkpointed_same _ _ _ _ w)
              |done|].
  split; [by apply StateManagerProperties.update_project_progress_well_formed|].
  by exists new.
Qed.

Lemma page_post (project : string) (old : list string) (w0 : world) (total_issues : json)
    (continue : Z -> nat -> list DataTransformer.record -> nat ->
                M (list DataTransformer.record * nat))
    (cs : Z) (cf : nat) written batch total w :
  (forall cs' cf' written' batch' total' w',
     progressed E project old w0 written' batch' total' w' ->
     post (continue cs' cf' batch' total') w'
       (fun bt w' => exists written', progressed E project old w0 written' bt.1 bt.2 w')
       (fun _ w' => exists written',
          fetches_none_of old w0 w' /\ checkpointed E project old written' w0 w')) ->
  progressed E project old w0 written batch total w ->
  post (page E s continue project (list_to_set old) total_issues cs cf batch total) w
    (fun bt w' => exists written', progressed E project old w0 written' bt.1 bt.2 w')
    (fun _ w' => exists written',
       fetches_none_of old w0 w' /\ checkpointed E project old written' w0 w').
Proof.
  intros Hcontinue H. unfold page.
  apply post_and_then, post_lift;
    [|intros; by apply (progressed_failed _ _ _ _ written batch total)].
  intros more _. destruct (negb more); [by exists written|].
  apply post_and_then, sleep_post; [intros w1 Hs1 _ _ Hl1|intros e w1 Hs1 _ _ Hl1];
    [|apply (progressed_failed _ _ _ _ written batch total);
      by apply (progressed_same _ _ _ w)].
  assert (H1 : progressed E project old w0 written batch total w1)
    by by apply (progressed_step _ _ _ w _ (Sleep (delay_between_requests s))).
  apply post_and_then, send_post. intros w2 Hs2 _ _ Hl2.
  assert (H2 : progressed E project old w0 written batch total w2)
    by by apply (progressed_step _ _ _ w1 _ _ _ _ _ H1 Hs2 Hl2).
  destruct (answer E (calls w1)) as [search_results|e];
    [|by apply (progressed_failed _ _ _ _ written batch total)].
  destruct (negb (Py.truthy search_results)).
  - destruct (5 <=? S cf)%nat; [by exists written|].
    apply post_and_then, sleep_post; [intros w3 Hs3 _ _ Hl3|intros e w3 Hs3 _ _ Hl3];
      [|apply (progressed_failed _ _ _ _ written batch total);
        by apply (progressed_same _ _ _ w2)].
    apply (Hcontinue _ _ written).
    by apply (progressed_step _ _ _ w2 _ (Sleep (inject_Z (2 ^ Z.of_nat (S cf))))).
  - apply post_and_then, post_lift;
      [|intros; by apply (progressed_failed _ _ _ _ written batch total)].
    intros issues _. destruct (negb (Py.truthy issues)); [by exists written|].
    apply post_and_then, post_lift;
      [|intros; by apply (progressed_failed _ _ _ _ written batch total)].
    intros l _.
    apply (post_seq _ _ _ (fun bt w' =>
             exists written', progressed E project old w0 written' bt.1 bt.2 w')).
    { by apply (process_issues_post _ _ _ _ _ written). }
    intros [batch' total'] w3 (written' & H3). simpl in H3.
    apply (post_seq _ _ _ (fun _ w' =>
             progressed E project old w0 written' batch' total' w')).
    { eapply post_mono; [by apply progressed_update|done|by intros ? ? []]. }
    intros _ w4 H4. destruct (_ <? _); [by exists written'|].
    by apply (Hcontinue _ _ written').
Qed.

Lemma paginate_post (project : string) (old : list string) (w0 : world) (total_issues : json)
    (fuel : nat) :
  forall cs cf written batch total w,
    progressed E project old w0 written batch total w ->
    post (paginate E s fuel project (list_to_set old) total_issues cs cf batch total) w
      (fun bt w' => exists written', progressed E project old w0 written' bt.1 bt.2 w')
      (fun _ w' => exists written',
         fetches_none_of old w0 w' /\ checkpointed E project old written' w0 w').
Proof.
  induction fuel as [|fuel IH]; intros cs cf written batch total w H.
  - by apply (progressed_failed _ _ _ _ written batch total).
  - cbn [paginate]. apply (page_post _ _ _ _ _ _ _ written); [|done].
    intros cs' cf' written' batch' total' w' H'. by apply (IH _ _ written').
Qed.

(** What [scrape_project] keeps true, however it ends. *)
Lemma scrape_project_post (fuel : nat) (project : string) (old : list string) (w : world) :
  StateManager.well_formed (heap (store w)) (state (store w)) ->
  StateManager.processed_list (heap (store w)) (state (store w)) project = Ret old ->
  post (scrape_project E s fuel project) w
    (fun n w' => exists records,
       length records = n /\ fetches_none_of old w w' /\
       checkpointed E project old records w w' /\ tracked project old records (store w'))
    (fun _ w' => exists records,
       fetches_none_of old w w' /\ checkpointed E project old records w w').
Proof.
  intros Hwf Hold.
  assert (H0 : progressed E project old w [] [] 0 w).
  { split_and!; [apply fetches_none_of_refl
                |split_and!; [done|by intros r Hr%elem_of_nil|by left]|done|].
    split; [done|]. exists old. split_and!; [done|done|by intros r Hr%elem_of_nil|auto]. }
  assert (Hzero : forall w', progressed E project old w [] [] 0 w' ->
            exists records, length records = 0%nat /\ fetches_none_of old w w' /\
              checkpointed E project old records w w' /\ tracked project old records (store w')).
  { intros w' (H1 & H2 & _ & H4). by exists []. }
  unfold scrape_project.
  apply post_and_then, send_post. intros w1 Hs1 _ _ Hl1.
  assert (H1 : progressed E project old w [] [] 0 w1)
    by by apply (progressed_step _ _ _ w _ _ _ _ _ H0 Hs1 Hl1).
  destruct (answer E (calls w)) as [project_info|e];
    [|by apply (progressed_failed _ _ _ _ [] [] 0%nat)].
  destruct (negb (Py.truthy project_info)); [by apply Hzero|].
  apply post_and_then, post_lift;
    [|intros; by apply (progressed_failed _ _ _ _ [] [] 0%nat)].
  intros _ _.
  apply post_and_then, get_processed_issues_post;
    [|intros; by apply (progressed_failed _ _ _ _ [] [] 0%nat)].
  intros items w2 Hitems Hst2 Hf2 Ho2 _ _ Hl2 (r & o & Hfresh & Hheap).
  rewrite Hs1, Hold in Hitems. injection Hitems as <-.
  assert (H2 : progressed E project old w [] [] 0 w2).
  { destruct H1 as (Hlog & Hcheck & _ & Hwf1 & new & Hnew & Hrest).
    split_and!; [by apply (fetches_none_of_same _ _ w1)
                |by apply (checkpointed_same _ _ _ _ w1)|done|].
    rewrite Hs1 in Hfresh, Hheap. split.
    - rewrite Hst2, Hheap, Hs1.
      by apply StateManagerProperties.well_formed_insert_fresh.
    - exists new. split; [|done]. rewrite Hst2, Hheap, Hs1.
      rewrite StateManagerProperties.processed_list_insert_fresh; [|done|done].
      by rewrite <- Hs1. }
  apply post_and_then. unfold post at 1, get_start_at.
  apply post_and_then, send_post. intros w3 Hs3 _ _ Hl3.
  assert (H3 : progressed E project old w [] [] 0 w3)
    by by apply (progressed_step _ _ _ w2 _ _ _ _ _ H2 Hs3 Hl3).
  destruct (answer E (calls w2)) as [search_results|e];
    [|by apply (progressed_failed _ _ _ _ [] [] 0%nat)].
  destruct (negb (Py.truthy search_results)); [by apply Hzero|].
  apply post_and_then, post_lift;
    [|intros; by apply (progressed_failed _ _ _ _ [] [] 0%nat)].
  intros total_issues _.
  apply post_and_then, post_lift;
    [|intros; by apply (progressed_failed _ _ _ _ [] [] 0%nat)].
  intros _ _.
  apply (post_seq _ _ _ (fun bt w' =>
           exists written', progressed E project old w written' bt.1 bt.2 w')).
  { by apply (paginate_post _ _ _ _ _ _ _ []). }
  intros [batch total_scraped] w4 (written & H4). simpl in H4.
  destruct batch as [|r' batch].
  - unfold post. simpl. destruct H4 as (Hlog & Hcheck & -> & Htracked).
    exists written. rewrite app_nil_r in Htracked. simpl. split_and!; try done; lia.
  - unfold post. simpl. set (batch' := r' :: batch) in *.
    assert (H5 : progressed E project old w (written ++ batch') [] total_scraped
                   (tick (set_store
                      (fun x => {| state := StateManager.save_state (utcnow E (ticks w4))
                                              (state (store w4));
                                   heap := heap x;
                                   state_file := (StateManager.save_state
                                                    (utcnow E (ticks w4))
                                                    (state (store w4)), heap x);
                                   output := output x |})
                      (set_store
                         (fun x => {| state := state x; heap := heap x;
                                      state_file := state_file x;
                                      output := DataTransformer.write_jsonl (dumps E)
                                                  (map Some batch') (output x) |}) w4)))).
    { eapply (progressed_saved _ _ _ w4);
        [exact H4| |simpl; reflexivity|reflexivity|reflexivity|reflexivity|reflexivity].
      reflexivity. }
    destruct H5 as (Hlog & Hcheck & -> & Htracked).
    exists (written ++ batch'). rewrite app_nil_r in Htracked.
    split_and!; try done; simpl; lia.
Qed.

(** X21. When the count search is answered by a mapping whose [total] is
    an integer, [scrape_project] ends: five iterations of its [while] loop
    for each issue between the saved offset and the total, and five more,
    are enough, and more iterations change nothing. *)
Theorem scrape_project_terminates (project : string) (w : world)
    (d : list (string * json)) (T : Z) (fuel fuel' : nat) :
  answer E (S (calls w)) = Ret (JObj d) ->
  Py.get d "total" (JInt 0) = JInt T ->
  (5 * Z.to_nat
         (T - match StateManager.get_project_progress (state (store w)) project with
              | Some progress => StateManager.start_at progress
              | None => 0
              end) + 5 <= fuel)%nat ->
  (fuel <= fuel')%nat ->
  scrape_project E s fuel' project w = scrape_project E s fuel project w /\
  fst (scrape_project E s fuel project w) <> Failed OutOfFuel.
Proof.
  intros Hanswer Htotal Hfuel Hle.
  destruct (scrape_project_enough project w d T fuel fuel' Hanswer Htotal Hfuel Hle)
    as [Heq Hne].
  split; [done|]. by rewrite <- Heq.
Qed.

(** X22. However [scrape_project] ends, by a return or by an exception of
    one of its steps, it has requested the comments of no issue whose key
    was in the list of processed keys of the project when it started. *)
Theorem scrape_project_skips_processed (fuel : nat) (project : string) (old : list string)
    (w : world) :
  StateManager.well_formed (heap (store w)) (state (store w)) ->
  StateManager.processed_list (heap (store w)) (state (store w)) project = Ret old ->
  fetches_none_of old w (snd (scrape_project E s fuel project w)).
Proof.
  intros Hwf Hold. pose proof (scrape_project_post fuel project old w Hwf Hold) as H.
  unfold post in H. destruct (scrape_project E s fuel project w) as [[n|f] w']; simpl.
  - by destruct H as (records & _ & H & _).
  - by destruct H as (records & H & _).
Qed.

(** X23. However [scrape_project] ends, by a return or by an exception of
    one of its steps, what it has added to the output file are the lines
    of records whose keys were not marked as processed when it started and
    are marked as processed in the state file, which is as it was or holds
    a well-formed state. *)
Theorem scrape_project_checkpoints (fuel : nat) (project : string) (old : list string)
    (w : world) :
  StateManager.well_formed (heap (store w)) (state (store w)) ->
  StateManager.processed_list (heap (store w)) (state (store w)) project = Ret old ->
  exists records,
    checkpointed E project old records w (snd (scrape_project E s fuel project w)).
Proof.
  intros Hwf Hold. pose proof (scrape_project_post fuel project old w Hwf Hold) as H.
  unfold post in H. destruct (scrape_project E s fuel project w) as [[n|f] w']; simpl.
  - destruct H as (records & _ & _ & H & _). by exists records.
  - destruct H as (records & _ & H). by exists records.
Qed.

(** X24. The number [scrape_project] returns is the number of records it
    has added to the output file; in memory the state is well formed and
    the list of the project is the list it had, followed by keys of these
    records, and it has the key of each of them. *)
Theorem scrape_project_counts (fuel : nat) (project : string) (old : list string)
    (w w' : world) (n : nat) :
  StateManager.well_formed (heap (store w)) (state (store w)) ->
  StateManager.processed_list (heap (store w)) (state (store w)) project = Ret old ->
  scrape_project E s fuel project w = (Returned n, w') ->
  exists records,
    length records = n /\
    output (store w') =
      DataTransformer.write_jsonl (dumps E) (map Some records) (output (store w)) /\
    tracked project old records (store w').
Proof.
  intros Hwf Hold Hrun. pose proof (scrape_project_post fuel project old w Hwf Hold) as H.
  unfold post in H. rewrite Hrun in H.
  destruct H as (records & Hn & _ & (Hout & _) & Htracked). by exists records.
Qed.

(** *** Giving up *)

(** An iteration whose search fails. *)
Lemma page_failed (continue : Z -> nat -> list DataTransformer.record -> nat ->
                              M (list DataTransformer.record * nat))
    (project : string) (processed : gset string) (total : json) (cs : Z) (cf : nat)
    (batch : list DataTransformer.record) (ts : nat) (w : world) (v : json) :
  JiraClient.sleepable (delay_between_requests s) = true ->
  less_than E cs total = Ret true ->
  answer E (calls w) = Ret v -> Py.truthy v = false ->
  let w1 := {| store := store w; calls := S (calls w); ticks := ticks w;
               log := log w ++ [Sleep (delay_between_requests s);
                                Call (SearchIssues project cs (max_results_per_page s))
                                     (run_of E (calls w))] |} in
  page E s continue project processed total cs cf batch ts w =
    if (5 <=? S cf)%nat then (Returned (batch, ts), w1)
    else continue cs (S cf) batch ts
           {| store := store w; calls := S (calls w); ticks := ticks w;
              log := log w1 ++ [Sleep (inject_Z (2 ^ Z.of_nat (S cf)))] |}.
Proof.
  intros Hdelay Hlt Hanswer Hfalsy.
  unfold page, and_then, lift, sleep, send. rewrite Hlt. cbn [ret negb].
  rewrite (JiraClientProperties.sleep_sleepable _ Hdelay).
  cbn [record_events map store calls ticks log].
  rewrite Hanswer, Hfalsy. cbn [negb]. rewrite <- app_assoc. cbn [app].
  destruct cf as [|[|[|[|cf]]]]; reflexivity.
Qed.

(** X26. With a delay that [time.sleep] accepts, when the searches of
    five iterations in a row fail, the [while] loop gives up: it has sent
    five searches from the same offset, has slept 2, 4, 8 and 16 seconds
    between them besides the delay before each, and has touched neither
    the batch nor the count, neither the state nor the files. *)
Theorem paginate_gives_up (fuel : nat) (project : string) (processed : gset string)
    (total : json) (cs : Z) (batch : list DataTransformer.record) (ts : nat) (w : world) :
  JiraClient.sleepable (delay_between_requests s) = true ->
  less_than E cs total = Ret true ->
  (forall i, (i < 5)%nat ->
     exists v, answer E (i + calls w) = Ret v /\ Py.truthy v = false) ->
  let search i := Call (SearchIssues project cs (max_results_per_page s))
                       (run_of E (i + calls w)) in
  let delay := Sleep (delay_between_requests s) in
  exists w',
    paginate E s (5 + fuel) project processed total cs 0 batch ts w =
      (Returned (batch, ts), w') /\
    store w' = store w /\ calls w' = (5 + calls w)%nat /\
    log w' =
      log w ++ [delay; search 0%nat; Sleep 2; delay; search 1%nat; Sleep 4;
                delay; search 2%nat; Sleep 8; delay; search 3%nat; Sleep 16;
                delay; search 4%nat].
Proof.
  intros Hdelay Hlt Hfail.
  destruct (Hfail 0%nat) as (v0 & Ha0 & Hv0); [lia|].
  destruct (Hfail 1%nat) as (v1 & Ha1 & Hv1); [lia|].
  destruct (Hfail 2%nat) as (v2 & Ha2 & Hv2); [lia|].
  destruct (Hfail 3%nat) as (v3 & Ha3 & Hv3); [lia|].
  destruct (Hfail 4%nat) as (v4 & Ha4 & Hv4); [lia|].
  eexists. split.
  - cbn [Nat.add paginate].
    erewrite page_failed; [|exact Hdelay|exact Hlt|exact Ha0|exact Hv0]. cbn [Nat.leb].
    erewrite page_failed; [|exact Hdelay|exact Hlt|exact Ha1|exact Hv1]. cbn [Nat.leb].
    erewrite page_failed; [|exact Hdelay|exact Hlt|exact Ha2|exact Hv2]. cbn [Nat.leb].
    erewrite page_failed; [|exact Hdelay|exact Hlt|exact Ha3|exact Hv3]. cbn [Nat.leb].
    erewrite page_failed; [|exact Hdelay|exact Hlt|exact Ha4|exact Hv4]. cbn [Nat.leb].
    reflexivity.
  - cbn [store calls log]. split; [done|]. split; [done|].
    rewrite <- !app_assoc. reflexivity.
Qed.

(** *** All the projects *)







End Run.



Lemma sample_world_well_formed :
  StateManager.well_formed (heap (store sample_world)) (state (store sample_world)).
Proof.
  intros project l Hl. simpl in Hl. apply lookup_singleton_Some in Hl as [_ <-].
  by exists ["S-2"].
Defined.

Lemma scrape_project_terminates_witness :
  scrape_project sample_environment sample_scraper 100 "SPARK" sample_world =
    scrape_project sample_environment sample_scraper 20 "SPARK" sample_world /\
  fst (scrape_project sample_environment sample_scraper 20 "SPARK" sample_world) <>
    Failed OutOfFuel.
Proof.
  apply (scrape_project_terminates sample_environment sample_scraper "SPARK" sample_world
           [("total", JInt 3)] 3 20 100).
  - reflexivity.
  - reflexivity.
  - vm_compute. lia.
  - lia.
Defined.

Lemma scrape_project_skips_processed_witness :
  fetches_none_of ["S-2"] sample_world
    (snd (scrape_project sample_environment sample_scraper 20 "SPARK" sample_world)).
Proof.
  apply (scrape_project_skips_processed sample_environment sample_scraper 20 "SPARK"
           ["S-2"] sample_world).
  - apply sample_world_well_formed.
  - reflexivity.
Defined.

Lemma scrape_project_checkpoints_witness :
  exists records,
    checkpointed sample_environment "SPARK" ["S-2"] records sample_world
      (snd (scrape_project sample_environment sample_scraper 20 "SPARK" sample_world)).
Proof.
  apply (scrape_project_checkpoints sample_environment sample_scraper 20 "SPARK"
           ["S-2"] sample_world).
  - apply sample_world_well_formed.
  - reflexivity.
Defined.

Lemma scrape_project_counts_witness :
  exists records,
    length records = 2%nat /\
    output (store (snd (scrape_project sample_environment sample_scraper 20 "SPARK"
                          sample_world))) =
      DataTransformer.write_jsonl (dumps sample_environment) (map Some records)
        (output (store sample_world)) /\
    tracked "SPARK" ["S-2"] records
      (store (snd (scrape_project sample_environment sample_scraper 20 "SPARK"
                     sample_world))).
Proof.
  apply (scrape_project_counts sample_environment sample_scraper 20 "SPARK" ["S-2"]
           sample_world).
  - apply sample_world_well_formed.
  - reflexivity.
  - vm_compute. reflexivity.
Defined.



Lemma paginate_gives_up_witness :
  exists w',
    paginate silent_environment sample_scraper 5 "SPARK" ∅ (JInt 3) 0 0 [] 0 sample_world =
      (Returned ([], 0%nat), w') /\
    store w' = store sample_world /\ calls w' = 5%nat.
Proof.
  destruct (paginate_gives_up silent_environment sample_scraper 0 "SPARK" ∅ (JInt 3) 0 [] 0
              sample_world) as (w' & Hrun & Hstore & Hcalls & _).
  - reflexivity.
  - reflexivity.
  - intros i Hi. exists JNull. split; [|reflexivity].
    do 5 (destruct i as [|i]; [reflexivity|]). lia.
  - by exists w'.
Defined.


End JiraScraperProperties.

(** ** More on the command line *)

Module MainMore.

Import Main.

Lemma perform_all_resets (E : JiraScraper.environment) (a : args) (fuel : nat)
    (ps : list string) (w : JiraScraper.world) :
  exists w',
    perform_all E a fuel (map ResetProject ps) w = (JiraScraper.Returned tt, w') /\
    apply_resets (map ResetProject ps) (JiraScraper.state (JiraScraper.store w)) =
      Ret (JiraScraper.state (JiraScraper.store w')) /\
    JiraScraper.heap (JiraScraper.store w') = JiraScraper.heap (JiraScraper.store w) /\
    JiraScraper.state_file (JiraScraper.store w') =
      JiraScraper.state_file (JiraScraper.store w) /\
    JiraScraper.output (JiraScraper.store w') = JiraScraper.output (JiraScraper.store w) /\
    JiraScraper.calls w' = JiraScraper.calls w /\
    JiraScraper.log w' = JiraScraper.log w.
Proof.
  revert w. induction ps as [|p ps IH]; intros w.
  { exists w. by split_and!. }
  cbn [map perform_all perform apply_resets].
  unfold JiraScraper.and_then, JiraScraper.reset_project.
  rewrite StateManagerProperties.reset_project_spec. cbn [bind].
  match goal with |- context [perform_all E a fuel _ ?w1] => destruct (IH w1)
    as (w' & Hrun & Hst & Hheap & Hfile & Hout & Hcalls & Hlog) end.
  exists w'. by split_and!.
Qed.

(** X30. A run with a single-project reset resets the entries of the
    project (after those of every listed project, with the full-reset flag)
    in the memory of the process and returns: it sends no request and
    writes neither the state file nor the output file, so that the state
    on disk is the one the process has loaded. *)
Theorem single_project_reset_is_not_saved (E : JiraScraper.environment) (a : args)
    (fuel : nat) (w : JiraScraper.world) (project : string) :
  reset_project a = Some project -> project <> "" ->
  exists w',
    run E a fuel w = (JiraScraper.Returned tt, w') /\
    absent (JiraScraper.state (JiraScraper.store w')) project /\
    JiraScraper.state_file (JiraScraper.store w') =
      JiraScraper.state_file (JiraScraper.store w) /\
    JiraScraper.output (JiraScraper.store w') = JiraScraper.output (JiraScraper.store w) /\
    JiraScraper.calls w' = JiraScraper.calls w /\
    JiraScraper.log w' = JiraScraper.log w.
Proof.
  intros Hflag Hproject. unfold run, main. rewrite Hflag.
  apply String.eqb_neq in Hproject. rewrite Hproject. cbn [negb].
  set (ps := if reset a then projects a else []).
  assert (Htrace : (if reset a then map ResetProject (projects a) else []) ++
                   [ResetProject project] = map ResetProject (ps ++ [project])).
  { rewrite map_app. unfold ps. by destruct (reset a). }
  rewrite Htrace.
  destruct (perform_all_resets E a fuel (ps ++ [project]) w)
    as (w' & Hrun & Hst & _ & Hfile & Hout & Hcalls & Hlog).
  exists w'. split_and!; try done.
  destruct (MainProperties.apply_resets_absent (ps ++ [project])
              (JiraScraper.state (JiraScraper.store w))) as (st' & Hst' & Habsent).
  rewrite Hst in Hst'. injection Hst' as <-. apply Habsent. left.
  apply elem_of_app. right. apply list_elem_of_here.
Qed.

Lemma single_project_reset_is_not_saved_witness :
  exists w',
    run JiraScraper.sample_environment single_reset_args 20 JiraScraper.sample_world =
      (JiraScraper.Returned tt, w') /\
    absent (JiraScraper.state (JiraScraper.store w')) "SPARK" /\
    JiraScraper.state_file (JiraScraper.store w') =
      JiraScraper.state_file (JiraScraper.store JiraScraper.sample_world) /\
    JiraScraper.output (JiraScraper.store w') =
      JiraScraper.output (JiraScraper.store JiraScraper.sample_world) /\
    JiraScraper.calls w' = JiraScraper.calls JiraScraper.sample_world /\
    JiraScraper.log w' = JiraScraper.log JiraScraper.sample_world.
Proof.
  apply (single_project_reset_is_not_saved JiraScraper.sample_environment single_reset_args
           20 JiraScraper.sample_world "SPARK").
  - reflexivity.
  - discriminate.
Defined.

End MainMore.
